(** * CVFlo backend: a shallow embedding of the Django services and the
    properties of its specification.

    Part I holds the model, one module per source file; Part II holds the
    lemmas and the theorems of the specification's claims.

    Conventions of the embedding.
    - A Python [str] is the list of its Unicode code points.
    - A JSON document (request bodies, the stored CV content, the template
      catalog) is a value of [Json.json]; a Python [dict] keeps its
      insertion order and is an association list with distinct keys.
    - A Python exception is a constructor of [Py.exn]; code that can raise
      returns a [Py.result].
    - Clock readings ([time.time()]) are integers counting microseconds
      since the epoch; every reading is an explicit argument.
    - Library code the repository only calls (Unicode tables, SHA-256, the
      template engine, WeasyPrint, the file system, [strftime]) is an
      operation of a type class. *)

From Stdlib Require Import ZArith NArith Lia Ascii String List Sorted Permutation.
From stdpp Require Import base option list gmap strings pretty sorting.

Local Open Scope Z_scope.
Set Warnings "-register-all".

(* ===================================================================== *)
(** * Part I. The model *)
(* ===================================================================== *)

(** ** Python values shared by every module *)
Module Py.

(** [str]: a sequence of code points. *)
Abbreviation str := (list N).

(** A string literal of the source, as code points. *)
Definition lit (s : string) : str :=
  (fun c : ascii => N_of_ascii c) <$> list_ascii_of_string s.

Fixpoint drop_while {A : Type} (f : A -> bool) (l : list A) : list A :=
  match l with
  | [] => []
  | x :: l' => if f x then drop_while f l' else l
  end.

Fixpoint take_while {A : Type} (f : A -> bool) (l : list A) : list A :=
  match l with
  | [] => []
  | x :: l' => if f x then x :: take_while f l' else []
  end.

(** [s.startswith(p)] *)
Fixpoint startswith (s p : str) {struct p} : bool :=
  match p with
  | [] => true
  | c :: p' =>
      match s with
      | [] => false
      | d :: s' => if N.eqb d c then startswith s' p' else false
      end
  end.

(** [sub in s] for strings: [sub] occurs as a contiguous run of [s]. *)
Fixpoint contains (s sub : str) : bool :=
  startswith s sub ||
  match s with
  | [] => false
  | _ :: s' => contains s' sub
  end.

(** [s.endswith(p)] *)
Definition endswith (s p : str) : bool := startswith (rev s) (rev p).

(** Exceptions the modelled code raises or catches. *)
Inductive exn : Type :=
| KeyError
| AttributeError
| TypeError
| ValueError
| ZeroDivisionError
| DoesNotExist
| MultipleObjectsReturned
| IntegrityError
| EngineError (msg : str)
| PDFGenerationError (msg : str).

Inductive result (A : Type) : Type :=
| Ok (a : A)
| Raise (e : exn).
Arguments Ok {A} a.
Arguments Raise {A} e.

Definition bind {A B : Type} (m : result A) (k : A -> result B) : result B :=
  match m with
  | Ok a => k a
  | Raise e => Raise e
  end.

(** ASCII character classes; the Unicode tables decide the rest. *)
Definition ascii_isalnum (c : N) : bool :=
  ((48 <=? c) && (c <=? 57) || (65 <=? c) && (c <=? 90) || (97 <=? c) && (c <=? 122))%N.

Definition ascii_isspace (c : N) : bool :=
  ((9 <=? c) && (c <=? 13) || (28 <=? c) && (c <=? 32))%N.

Definition ascii_lower (c : N) : N :=
  (if (65 <=? c) && (c <=? 90) then c + 32 else c)%N.

(** The parts of the interpreter's built-ins that are tables or algorithms
    of their own: the Unicode database beyond ASCII, [float.__repr__]
    (a float is carried as its IEEE-754 binary64 bit pattern), and the
    text of an exception of the interpreter or of the framework.  That
    text names the object and the operation that failed
    (['str' object has no attribute 'get']); the model keeps the class of
    such an exception, and [exception_text] stands for the text of the one
    that was raised. *)
Class Builtins := {
  unicode_isalnum : N -> bool;
  unicode_isspace : N -> bool;
  unicode_lower : N -> list N;
  float_repr : Z -> str;
  exception_text : exn -> str
}.

Section WithBuiltins.
Context `{!Builtins}.

(** [str(e)] of an exception, as the log and wrapper messages use it: the
    message an error of the services was built with, or the text of a
    built-in exception. *)
Definition exn_message (e : exn) : str :=
  match e with
  | EngineError m | PDFGenerationError m => m
  | _ => exception_text e
  end.

(** [c.isalnum()] for a one-character string. *)
Definition isalnum (c : N) : bool :=
  if (c <? 128)%N then ascii_isalnum c else unicode_isalnum c.

(** [c.isspace()] *)
Definition isspace (c : N) : bool :=
  if (c <? 128)%N then ascii_isspace c else unicode_isspace c.

(** [s.lower()] *)
Definition lower (s : str) : str :=
  s ≫= (fun c => if (c <? 128)%N then [ascii_lower c] else unicode_lower c).

(** [s.strip()]: whitespace removed at both ends. *)
Definition lstrip (s : str) : str := drop_while isspace s.
Definition strip (s : str) : str := rev (lstrip (rev (lstrip s))).

End WithBuiltins.

(** [os.path.join(a, b)] on a POSIX system; a call with more components
    joins them from the left. *)
Definition os_path_join (a b : str) : str :=
  if startswith b (lit "/") then b
  else if bool_decide (a = []) || endswith a (lit "/") then a ++ b
  else a ++ lit "/" ++ b.

(** [s.split(sep)[0]] for a one-character separator. *)
Definition split_first (sep : N) (s : str) : str :=
  take_while (fun c => negb (N.eqb c sep)) s.

(** [str(n)] for an integer. *)
Definition str_of_int (z : Z) : str := lit (pretty z).

End Py.

(** ** JSON documents and [json.dumps] *)
Module Json.
Import Py.

Inductive json : Type :=
| JNull
| JBool (b : bool)
| JInt (z : Z)
| JFloat (bits : Z)
| JStr (s : str)
| JList (l : list json)
| JDict (d : list (str * json)).

(** Induction over a document, with the hypothesis for every element of a
    list and every value of a dict. *)
Fixpoint json_induction (P : json -> Prop)
    (Hnull : P JNull) (Hbool : forall b, P (JBool b)) (Hint : forall z, P (JInt z))
    (Hfloat : forall bits, P (JFloat bits)) (Hstr : forall s, P (JStr s))
    (Hlist : forall l, Forall P l -> P (JList l))
    (Hdict : forall d, Forall (fun kv => P (snd kv)) d -> P (JDict d))
    (j : json) {struct j} : P j :=
  let rec := json_induction P Hnull Hbool Hint Hfloat Hstr Hlist Hdict in
  match j with
  | JNull => Hnull
  | JBool b => Hbool b
  | JInt z => Hint z
  | JFloat bits => Hfloat bits
  | JStr s => Hstr s
  | JList l =>
      Hlist l ((fix elements (l : list json) : Forall P l :=
                  match l with
                  | [] => List.Forall_nil P
                  | x :: l' => @List.Forall_cons _ P x l' (rec x) (elements l')
                  end) l)
  | JDict d =>
      Hdict d ((fix values (d : list (str * json)) : Forall (fun kv => P (snd kv)) d :=
                  match d with
                  | [] => List.Forall_nil _
                  | kv :: d' => @List.Forall_cons _ _ kv d' (rec (snd kv)) (values d')
                  end) d)
  end.

(** [d.get(k)] on the items of a dict. *)
Fixpoint assoc {V : Type} (k : str) (d : list (str * V)) : option V :=
  match d with
  | [] => None
  | (k', v) :: d' => if decide (k' = k) then Some v else assoc k d'
  end.

(** [d[k] = v]: an existing key keeps its place, a new key goes last. *)
Fixpoint dict_set {V : Type} (k : str) (v : V) (d : list (str * V)) : list (str * V) :=
  match d with
  | [] => [(k, v)]
  | (k', v') :: d' =>
      if decide (k' = k) then (k, v) :: d' else (k', v') :: dict_set k v d'
  end.

(** [d.update(other)] *)
Definition dict_update {V : Type} (d other : list (str * V)) : list (str * V) :=
  fold_left (fun acc kv => dict_set (fst kv) (snd kv) acc) other d.

(** [bool(v)] *)
Definition truthy (v : json) : bool :=
  match v with
  | JNull => false
  | JBool b => b
  | JInt z => negb (z =? 0)
  | JFloat bits => negb ((bits =? 0) || (bits =? 2 ^ 63))
  | JStr s => negb (bool_decide (s = []))
  | JList l => negb (bool_decide (l = []))
  | JDict d => negb (bool_decide (d = []))
  end.

(** [obj.get(k, default)]: only a dict has the method. *)
Definition get_method (obj : json) (k : str) (dflt : json) : result json :=
  match obj with
  | JDict d => Ok (default dflt (assoc k d))
  | _ => Raise AttributeError
  end.

(** [obj[k]] with a string key. *)
Definition getitem (obj : json) (k : str) : result json :=
  match obj with
  | JDict d =>
      match assoc k d with
      | Some v => Ok v
      | None => Raise KeyError
      end
  | _ => Raise TypeError
  end.

(** Every dict of the document has distinct keys, as a Python dict has. *)
Fixpoint wf (j : json) : bool :=
  match j with
  | JList l => forallb wf l
  | JDict d =>
      bool_decide (NoDup (map fst d)) && forallb (fun kv => let '(_, v) := kv in wf v) d
  | _ => true
  end.

(** Equality of two documents read as maps: dicts are compared key by key,
    whatever the order of their items; lists and leaves are compared as
    they stand. *)
Fixpoint eq_as_maps (a b : json) : bool :=
  match a, b with
  | JNull, JNull => true
  | JBool x, JBool y => bool_decide (x = y)
  | JInt x, JInt y => x =? y
  | JFloat x, JFloat y => x =? y
  | JStr x, JStr y => bool_decide (x = y)
  | JList l1, JList l2 =>
      (fix go (l1 l2 : list json) : bool :=
         match l1, l2 with
         | [], [] => true
         | x :: l1', y :: l2' => eq_as_maps x y && go l1' l2'
         | _, _ => false
         end) l1 l2
  | JDict d1, JDict d2 =>
      (length d1 =? length d2)%nat &&
      forallb (fun kv => let '(k, v) := kv in
                 match assoc k d2 with
                 | Some w => eq_as_maps v w
                 | None => false
                 end) d1
  | _, _ => false
  end.

(** Code-point order of two strings, [a <= b]. *)
Fixpoint str_leb (a b : str) : bool :=
  match a, b with
  | [], _ => true
  | _ :: _, [] => false
  | x :: a', y :: b' =>
      if (x <? y)%N then true else if (y <? x)%N then false else str_leb a' b'
  end.

Definition key_le {V : Type} (a b : str * V) : Prop := Is_true (str_leb (fst a) (fst b)).

#[global] Instance key_le_dec {V : Type} (a b : str * V) : Decision (key_le a b) :=
  Is_true_dec (str_leb (fst a) (fst b)).

(** [sorted(d.items())]: the keys of a dict are distinct, so the order of
    the items is the order of their keys. *)
Definition sorted_items {V : Type} (d : list (str * V)) : list (str * V) :=
  merge_sort key_le d.

(** [sep.join(parts)] *)
Fixpoint join (sep : str) (parts : list str) : str :=
  match parts with
  | [] => []
  | p :: ps =>
      match ps with
      | [] => p
      | _ :: _ => p ++ sep ++ join sep ps
      end
  end.

Definition hex_digit (n : N) : N := (if n <? 10 then 48 + n else 87 + n)%N.

(** ['{0:04x}'.format(n)] for [n < 65536]. *)
Definition hex4 (n : N) : str :=
  [hex_digit ((n / 4096) mod 16); hex_digit ((n / 256) mod 16);
   hex_digit ((n / 16) mod 16); hex_digit (n mod 16)]%N.

(** One character under [ensure_ascii=True]. *)
Definition escape_char (c : N) : str :=
  (if c =? 34 then [92; 34]
   else if c =? 92 then lit "\\"
   else if c =? 10 then lit "\n"
   else if c =? 13 then lit "\r"
   else if c =? 9 then lit "\t"
   else if c =? 8 then lit "\b"
   else if c =? 12 then lit "\f"
   else if (32 <=? c) && (c <=? 126) then [c]
   else if c <? 65536 then lit "\u" ++ hex4 c
   else
     let n := c - 65536 in
     lit "\u" ++ hex4 (N.lor 55296 (N.land (N.shiftr n 10) 1023)) ++
     lit "\u" ++ hex4 (N.lor 56320 (N.land n 1023)))%N.

(** [json.encoder.encode_basestring_ascii] *)
Definition encode_basestring_ascii (s : str) : str :=
  [34%N] ++ (s ≫= escape_char) ++ [34%N].

Section Dumps.
Context `{!Builtins}.

(** [json.encoder.floatstr] with [allow_nan=True]. *)
Definition floatstr (bits : Z) : str :=
  if (bits / 2 ^ 52) mod 2048 =? 2047 then
    if bits mod 2 ^ 52 =? 0 then
      if (bits / 2 ^ 63) mod 2 =? 1 then lit "-Infinity" else lit "Infinity"
    else lit "NaN"
  else float_repr bits.

(** [json.dumps(j, sort_keys=True)] with the default separators.  The
    values of a dict are rendered before its items are sorted; the sort
    reads the keys only, so this is the encoder's output. *)
Fixpoint dumps (j : json) : str :=
  match j with
  | JNull => lit "null"
  | JBool true => lit "true"
  | JBool false => lit "false"
  | JInt z => str_of_int z
  | JFloat bits => floatstr bits
  | JStr s => encode_basestring_ascii s
  | JList l => lit "[" ++ join (lit ", ") (map dumps l) ++ lit "]"
  | JDict d =>
      lit "{" ++
      join (lit ", ")
        (map (fun kv : str * str => encode_basestring_ascii (fst kv) ++ lit ": " ++ snd kv)
           (sorted_items (map (fun kv => let '(k, v) := kv in (k, dumps v)) d))) ++
      lit "}"
  end.

(** An item of a dict with its value rendered. *)
Definition rendered (kv : str * json) : str * str := let '(k, v) := kv in (k, dumps v).

End Dumps.

(** [str(v)] of a list or a dict (their [repr]). *)
Class Repr := { container_repr : json -> str }.

(** [str(v)], as an f-string formats a value. *)
Definition py_str `{!Builtins} `{!Repr} (v : json) : str :=
  match v with
  | JStr s => s
  | JInt z => str_of_int z
  | JBool true => lit "True"
  | JBool false => lit "False"
  | JNull => lit "None"
  | JFloat bits => float_repr bits
  | JList _ | JDict _ => container_repr v
  end.

End Json.

(** ** The process-wide cache ([django.core.cache.cache])

    A value is stored with the instant at which it expires.  The backend
    of the settings, a [LocMemCache], holds at most [MAX_ENTRIES] entries:
    a [set] on a cache that holds that many first evicts the least
    recently used third of them.  The model has no such bound and keeps an
    entry until it expires: it is the cache while it holds fewer than
    [MAX_ENTRIES] entries. *)
Module Cache.
Import Py.


(** The Python values the repository stores: counters and PDF bytes. *)
Inductive cval : Type :=
| CInt (z : Z)
| CBytes (b : list N).

Record entry : Type := { value : cval; expires : Z }.

Abbreviation cache := (gmap (list N) entry).

Definition second : Z := 1000000.

(** [int(time.time())]: truncation towards zero. *)
Definition int_time (t : Z) : Z := Z.quot t second.

(** The backend's expiry instant for a timeout in seconds; a timeout of
    zero expires at once. *)
Definition backend_timeout (now timeout : Z) : Z :=
  now + (if timeout =? 0 then -1 else timeout) * second.

(** [cache.get(key)] read at instant [now]: [None] for a missing or an
    expired entry. *)
Definition get (c : cache) (now : Z) (key : str) : option cval :=
  match c !! key with
  | Some e => if expires e <=? now then None else Some (value e)
  | None => None
  end.

(** [cache.set(key, v, timeout)] at instant [now]. *)
Definition set (c : cache) (now : Z) (key : str) (v : cval) (timeout : Z) : cache :=
  <[key := {| value := v; expires := backend_timeout now timeout |}]> c.

(** [bool(v)] *)
Definition truthy (v : cval) : bool :=
  match v with
  | CInt z => negb (z =? 0)
  | CBytes b => negb (bool_decide (b = []))
  end.

End Cache.

(** ** apps/core/middleware/rate_limiting.py *)
Module RateLimiting.
Import Py.

Record rate_limit : Type := { requests : Z; window : Z }.

(** [request.user] as the middleware reads it. *)
Inductive user : Type :=
| Authenticated (id : Z)
| Anonymous.

Record request : Type := {
  path : str;
  method : str;
  (** [None]: the request has no [user] attribute. *)
  req_user : option user;
  HTTP_X_FORWARDED_FOR : option str;
  REMOTE_ADDR : option str
}.

(** The table [__init__] falls back to when the settings have none. *)
Definition default_rate_limits : gmap (list N) rate_limit :=
  list_to_map
    [ (lit "default", {| requests := 100; window := 3600 |});
      (lit "pdf_generation", {| requests := 10; window := 900 |});
      (lit "preview_generation", {| requests := 100; window := 300 |});
      (lit "api_general", {| requests := 1000; window := 3600 |}) ].

(** [settings.ENHANCED_RATE_LIMITS] *)
Definition ENHANCED_RATE_LIMITS : gmap (list N) rate_limit :=
  list_to_map
    [ (lit "default", {| requests := 100; window := 3600 |});
      (lit "pdf_generation", {| requests := 10; window := 900 |});
      (lit "preview_generation", {| requests := 100; window := 300 |});
      (lit "api_general", {| requests := 1000; window := 3600 |});
      (lit "admin_api", {| requests := 500; window := 3600 |}) ].

(** [EnhancedRateLimitMiddleware.__init__]: [self.rate_limits]. *)
Definition init_rate_limits (settings : option (gmap (list N) rate_limit))
  : gmap (list N) rate_limit :=
  default default_rate_limits settings.

(** The middleware as the settings module configures it. *)
Definition rate_limits : gmap (list N) rate_limit :=
  init_rate_limits (Some ENHANCED_RATE_LIMITS).

Definition _should_skip_rate_limiting (r : request) : bool :=
  existsb (fun p => startswith (path r) p)
    [lit "/admin/"; lit "/health/"; lit "/static/"; lit "/media/"].

Definition _get_rate_limit_category (r : request) : str :=
  if contains (path r) (lit "/api/pdf/generate-pdf") ||
     contains (path r) (lit "/api/pdf/generate-pdf-from-html")
  then lit "pdf_generation"
  else if contains (path r) (lit "/api/pdf/generate-preview")
  then lit "preview_generation"
  else if startswith (path r) (lit "/api/")
  then lit "api_general"
  else lit "default".

(** The body of a 429 response. *)
Record limit_body : Type := {
  error : str;
  limit : Z;
  body_window : Z;
  remaining : Z;
  reset_time : Z;
  retry_after : Z
}.

(** [request.rate_limit_info] *)
Record rate_limit_info : Type := {
  info_limit : Z;
  info_remaining : Z;
  info_reset_time : Z;
  info_window : Z
}.

(** What [process_request] does with the request: it answers itself
    ([JsonResponse]), or returns [None] and lets the request through, with
    or without [rate_limit_info] attached. *)
Inductive outcome : Type :=
| JsonResponse (body : limit_body) (status : Z)
| Pass (info : option rate_limit_info).

(** The clock readings of one request: [int(time.time())] in
    [_check_rate_limit], the cache's own readings in [get] and [set], and
    [int(time.time())] when the 429 body is built. *)
Record readings : Type := { t_check : Z; t_get : Z; t_set : Z; t_resp : Z }.

Section WithBuiltins.
Context `{!Builtins}.

Definition _get_client_identifier (r : request) : str :=
  match req_user r with
  | Some (Authenticated id) => lit "user:" ++ str_of_int id
  | _ =>
      let ip :=
        match HTTP_X_FORWARDED_FOR r with
        | Some (c :: x) => strip (split_first 44%N (c :: x))
        | _ => default (lit "unknown") (REMOTE_ADDR r)
        end in
      lit "ip:" ++ ip
  end.

Definition cache_key (category client_id : str) (current_window : Z) : str :=
  lit "rate_limit:" ++ category ++ lit ":" ++ client_id ++ lit ":" ++
  str_of_int current_window.

(** Returns the cache after the call and [(is_allowed, remaining,
    reset_time)]. *)
Definition _check_rate_limit (c : Cache.cache) (clk : readings) (r : request)
    (category : str) (rl : rate_limit) : result (Cache.cache * (bool * Z * Z)) :=
  let client_id := _get_client_identifier r in
  if window rl =? 0 then Raise ZeroDivisionError else
  let current_window := Cache.int_time (t_check clk) / window rl in
  let key := cache_key category client_id current_window in
  match default (Cache.CInt 0) (Cache.get c (t_get clk) key) with
  | Cache.CBytes _ => Raise TypeError
  | Cache.CInt current_count =>
      if requests rl <=? current_count then
        Ok (c, (false, 0, (current_window + 1) * window rl))
      else
        let c' := Cache.set c (t_set clk) key (Cache.CInt (current_count + 1)) (window rl) in
        Ok (c', (true, requests rl - (current_count + 1), (current_window + 1) * window rl))
  end.

(** [self.rate_limits.get(category, self.rate_limits['default'])]: the
    default is looked up first, whether or not it is needed. *)
Definition lookup_rate_limit (limits : gmap (list N) rate_limit) (category : str)
  : result rate_limit :=
  match limits !! lit "default" with
  | None => Raise KeyError
  | Some dflt => Ok (default dflt (limits !! category))
  end.

(** [process_request] for a middleware whose table is [limits].  An
    exception anywhere lets the request through. *)
Definition process_request (limits : gmap (list N) rate_limit) (c : Cache.cache)
    (clk : readings) (r : request) : Cache.cache * outcome :=
  if _should_skip_rate_limiting r then (c, Pass None) else
  let limit_category := _get_rate_limit_category r in
  match lookup_rate_limit limits limit_category with
  | Raise _ => (c, Pass None)
  | Ok rl =>
      match _check_rate_limit c clk r limit_category rl with
      | Raise _ => (c, Pass None)
      | Ok (c', (is_allowed, rem, reset)) =>
          if negb is_allowed then
            (c', JsonResponse
                   {| error := lit "Rate limit exceeded";
                      limit := requests rl;
                      body_window := window rl;
                      remaining := 0;
                      reset_time := reset;
                      retry_after := reset - Cache.int_time (t_resp clk) |} 429)
          else
            (c', Pass (Some {| info_limit := requests rl;
                               info_remaining := rem;
                               info_reset_time := reset;
                               info_window := window rl |}))
      end
  end.

(** A run of requests handled one after the other. *)
Fixpoint serve (limits : gmap (list N) rate_limit) (c : Cache.cache)
    (evs : list (readings * request)) : Cache.cache * list outcome :=
  match evs with
  | [] => (c, [])
  | (clk, r) :: evs' =>
      let '(c1, o) := process_request limits c clk r in
      let '(c2, os) := serve limits c1 evs' in
      (c2, o :: os)
  end.

(** *** Vocabulary of the specification *)

(** The window index of a clock reading, [floor(unix time / window)]. *)
Definition window_index (rl : rate_limit) (t : Z) : Z := Cache.int_time t / window rl.

(** Every clock reading of the request falls in window [w]. *)
Definition in_window (rl : rate_limit) (w : Z) (clk : readings) : bool :=
  forallb (fun t => (0 <=? t) && (window_index rl t =? w))
    [t_check clk; t_get clk; t_set clk; t_resp clk].

(** A request of client [client_id] in category [category], subject to
    rate limiting, and handled within window [w]. *)
Definition counted_request (category client_id : str) (rl : rate_limit) (w : Z)
    (ev : readings * request) : bool :=
  negb (_should_skip_rate_limiting (snd ev)) &&
  bool_decide (_get_rate_limit_category (snd ev) = category) &&
  bool_decide (_get_client_identifier (snd ev) = client_id) &&
  in_window rl w (fst ev).

(** The count stored for a key, as a request reading the cache at [t]
    finds it. *)
Definition stored_count (c : Cache.cache) (t : Z) (key : str) : Cache.cval :=
  default (Cache.CInt 0) (Cache.get c t key).

(** The outcome of the [k]-th allowed request of a window. *)
Definition allowed (rl : rate_limit) (w : Z) (k : nat) : outcome :=
  Pass (Some {| info_limit := requests rl;
                info_remaining := requests rl - Z.of_nat k;
                info_reset_time := (w + 1) * window rl;
                info_window := window rl |}).

(** The 429 answer of window [w] built at reading [t]. *)
Definition rejected (rl : rate_limit) (w : Z) (t : Z) : outcome :=
  JsonResponse {| error := lit "Rate limit exceeded";
                  limit := requests rl;
                  body_window := window rl;
                  remaining := 0;
                  reset_time := (w + 1) * window rl;
                  retry_after := (w + 1) * window rl - Cache.int_time t |} 429.

End WithBuiltins.

End RateLimiting.

(** ** apps/cv_builder/models.py and views.py

    The [cv_data] table is a finite map from the row's primary key (the
    UUID, a number here) to the row.  [user_id] carries no uniqueness
    constraint, so a user can own several rows.

    The database is the one the settings select by default, PostgreSQL.
    [template_name] is a [varchar(50) NOT NULL] column: a [CharField]
    writes [str(value)] for a value that is not a string, and the database
    refuses a null and a text of more than 50 characters.  What the
    database refuses besides (a NUL character in a text or in a document,
    for one) is its own rule, an operation of [Database].  A refused write
    raises in [save] or in [get_or_create], which the views answer like
    every other exception.  The model gives a stored document back with
    its keys in the order they were written in; the order of the keys of a
    dict means nothing to the views, and the statements of Part II about
    merged and replaced documents read them by their keys.

    The views are methods of a REST framework view: the framework's
    dispatch authenticates the request and applies the throttles of the
    settings before it calls the method, and those steps are not part of
    the methods.  The [ratelimit] decorator of [post] and [put] is: the
    number its library has counted for the request is an argument of the
    two methods. *)
Module CvBuilder.
Import Py Json.

(** What PostgreSQL accepts beyond the declared constraints of the
    columns: a document for a [jsonb] column, a text for a [varchar]
    column. *)
Class Database := {
  jsonb_accepts : json -> bool;
  text_accepts : str -> bool
}.

Record CVProfile : Type := {
  user_id : Z;
  cv_content : json;
  template_name : str;
  created_at : Z;
  updated_at : Z
}.

(** [request.user] *)
Inductive user : Type :=
| Authenticated (id : Z) (email : str)
| Anonymous.

Record request : Type := { req_user : user; data : json }.

Inductive body : Type :=
| CvData (cv_data visibility selected_template : json) (last_updated : Z)
| NoCvData (selected_template message : str)
| Saved (message : str) (id : N) (last_updated : Z)
| Deleted (message : str)
| Error (message : str)
(** The framework's own error body, [{'detail': ...}]. *)
| Detail (detail : str).

Record response : Type := { status : Z; content : body }.

(** The rows of a user, [CVProfile.objects.filter(user_id=uid)]. *)
Definition rows_of (tbl : gmap N CVProfile) (uid : Z) : list (N * CVProfile) :=
  map_to_list (filter (fun kv : N * CVProfile => user_id (snd kv) = uid) tbl).

(** [CVProfile.objects.get(user_id=uid)] *)
Definition objects_get (tbl : gmap N CVProfile) (uid : Z) : result (N * CVProfile) :=
  match rows_of tbl uid with
  | [] => Raise DoesNotExist
  | [row] => Ok row
  | _ :: _ :: _ => Raise MultipleObjectsReturned
  end.

(** [request.user.id if request.user.is_authenticated else 1] *)
Definition acting_user_id (r : request) : Z :=
  match req_user r with
  | Authenticated id _ => id
  | Anonymous => 1
  end.

(** [request.user.email], which the success log line of [post], [put] and
    [delete] reads: the anonymous user has no such attribute. *)
Definition user_email (r : request) : result str :=
  match req_user r with
  | Authenticated _ email => Ok email
  | Anonymous => Raise AttributeError
  end.

(** The decorator [ratelimit(key='user', rate='<limit>/hour', method=...)]
    of django_ratelimit around a view method, for a request of that
    method.  [count] is the number the library returns for the request: how
    many requests it has counted under the key of the caller ([str] of the
    user's primary key, which is [None] for every caller without identity)
    in the current window of an hour, this one included.  Above the limit
    the library raises [Ratelimited], a [PermissionDenied], before the
    method runs, and the framework answers 403. *)
Definition ratelimit (limit count : Z) (tbl : gmap N CVProfile)
    (view : gmap N CVProfile * response) : gmap N CVProfile * response :=
  if limit <? count then
    (tbl, {| status := 403;
             content := Detail (lit "You do not have permission to perform this action.") |})
  else view.

(** *** Dicts in memory

    The keys of a stored document are strings, but [dict.update] with a
    sequence of pairs takes any hashable value of the request as a key. *)
Inductive key : Type :=
| KNone
| KBool (b : bool)
| KInt (z : Z)
| KFloat (bits : Z)
| KStr (s : str).

(** The key a value makes: a list or a dict cannot be hashed. *)
Definition hashable (v : json) : option key :=
  match v with
  | JNull => Some KNone
  | JBool b => Some (KBool b)
  | JInt z => Some (KInt z)
  | JFloat bits => Some (KFloat bits)
  | JStr s => Some (KStr s)
  | JList _ | JDict _ => None
  end.

(** The integer a float is equal to, if there is one: the float of sign
    [s], exponent field [e] and fraction [m] is [(2^52 + m) * 2^(e - 1075)],
    zero and the subnormal numbers apart. *)
Definition float_integer (bits : Z) : option Z :=
  let s := (bits / 2 ^ 63) mod 2 in
  let e := (bits / 2 ^ 52) mod 2048 in
  let m := bits mod 2 ^ 52 in
  let magnitude :=
    if e =? 2047 then None
    else if e =? 0 then (if m =? 0 then Some 0 else None)
    else if 1075 <=? e then Some ((2 ^ 52 + m) * 2 ^ (e - 1075))
    else if (2 ^ 52 + m) mod 2 ^ (1075 - e) =? 0 then Some ((2 ^ 52 + m) / 2 ^ (1075 - e))
    else None in
  match magnitude with
  | Some z => Some (if s =? 1 then - z else z)
  | None => None
  end.

(** The integer a numeric key is equal to, if there is one. *)
Definition key_integer (k : key) : option Z :=
  match k with
  | KBool b => Some (if b then 1 else 0)
  | KInt z => Some z
  | KFloat bits => float_integer bits
  | KNone | KStr _ => None
  end.

(** A float that is not a number. *)
Definition is_nan (bits : Z) : bool :=
  ((bits / 2 ^ 52) mod 2048 =? 2047) && negb (bits mod 2 ^ 52 =? 0).

(** [a == b] for two keys: numbers are compared by value, whatever their
    type ([1 == 1.0 == True]); two floats that are no integers are equal
    when they are the same float, and a [nan] of the request is equal to
    no other key. *)
Definition key_eqb (a b : key) : bool :=
  match a, b with
  | KStr x, KStr y => bool_decide (x = y)
  | KNone, KNone => true
  | KStr _, _ | _, KStr _ | KNone, _ | _, KNone => false
  | _, _ =>
      match key_integer a, key_integer b with
      | Some x, Some y => x =? y
      | None, None =>
          match a, b with
          | KFloat x, KFloat y => (x =? y) && negb (is_nan x)
          | _, _ => false
          end
      | _, _ => false
      end
  end.

(** [d[k] = v] on a dict in memory: an equal key keeps its place and
    itself, a new key goes last. *)
Fixpoint key_set (k : key) (v : json) (d : list (key * json)) : list (key * json) :=
  match d with
  | [] => [(k, v)]
  | (k', v') :: d' =>
      if key_eqb k' k then (k', v) :: d' else (k', v') :: key_set k v d'
  end.

(** The dict in memory of a document that was read from the table. *)
Definition in_memory (d : list (str * json)) : list (key * json) :=
  (fun kv : str * json => (KStr (fst kv), snd kv)) <$> d.

(** The content of a row in memory: a dict, or any other document. *)
Inductive held : Type :=
| HDict (items : list (key * json))
| HOther (v : json).

Definition hold (v : json) : held :=
  match v with
  | JDict d => HDict (in_memory d)
  | _ => HOther v
  end.

(** One element of the sequence [dict.update] is given: it must unpack
    into a key and a value, and the key must be hashable. *)
Definition update_pair (e : json) : result (key * json) :=
  match e with
  | JList [k; v] =>
      match hashable k with
      | Some k' => Ok (k', v)
      | None => Raise TypeError
      end
  | JStr [a; b] => Ok (KStr [a], JStr [b])
  | JDict [(k1, _); (k2, _)] => Ok (KStr k1, JStr k2)
  | JList _ | JStr _ | JDict _ => Raise ValueError
  | _ => Raise TypeError
  end.

Fixpoint update_pairs (l : list json) : result (list (key * json)) :=
  match l with
  | [] => Ok []
  | e :: l' =>
      bind (update_pair e) (fun kv =>
      bind (update_pairs l') (fun kvs => Ok (kv :: kvs)))
  end.

(** The items set one after the other. *)
Definition key_update (d other : list (key * json)) : list (key * json) :=
  fold_left (fun acc kv => key_set (fst kv) (snd kv) acc) other d.

(** [content.update(other)] *)
Definition update_method (content : held) (other : json) : result held :=
  match content with
  | HDict d =>
      match other with
      | JDict o => Ok (HDict (key_update d (in_memory o)))
      | JList l => bind (update_pairs l) (fun o => Ok (HDict (key_update d o)))
      | JStr s => bind (update_pairs ((fun c => JStr [c]) <$> s))
                    (fun o => Ok (HDict (key_update d o)))
      | _ => Raise TypeError
      end
  | HOther _ => Raise AttributeError
  end.

(** [content[k] = v] *)
Definition setitem (content : held) (k : str) (v : json) : result held :=
  match content with
  | HDict d => Ok (HDict (key_set (KStr k) v d))
  | HOther _ => Raise TypeError
  end.

Section WithDatabase.
Context `{!Builtins} `{!Repr} `{!Database}.

(** The text [json.dumps] writes for a key. *)
Definition key_text (k : key) : str :=
  match k with
  | KNone => lit "null"
  | KBool true => lit "true"
  | KBool false => lit "false"
  | KInt z => str_of_int z
  | KFloat bits => floatstr bits
  | KStr s => s
  end.

(** The document a dict in memory is once it is saved and read back:
    [json.dumps] writes every key as its text, and a text that is written
    twice keeps the place of its first item and the value of its last. *)
Definition saved_dict (d : list (key * json)) : list (str * json) :=
  dict_update [] ((fun kv : key * json => (key_text (fst kv), snd kv)) <$> d).

Definition saved_document (content : held) : json :=
  match content with
  | HDict d => JDict (saved_dict d)
  | HOther v => v
  end.

(** What the [template_name] column stores for a value written to it, or
    [None] when the database refuses the value. *)
Definition template_name_column (v : json) : option str :=
  match v with
  | JNull => None
  | _ =>
      let s := py_str v in
      if (length s <=? 50)%nat && text_accepts s then Some s else None
  end.

(** What the [cv_content] column stores: the column is [NOT NULL]. *)
Definition cv_content_column (v : json) : option json :=
  match v with
  | JNull => None
  | _ => if jsonb_accepts v then Some v else None
  end.

(** The row the database writes for the values of a model instance, or
    [None] when it refuses one of them. *)
Definition written_row (uid : Z) (content template : json) (created now : Z)
  : option CVProfile :=
  match cv_content_column content, template_name_column template with
  | Some c, Some t =>
      Some {| user_id := uid; cv_content := c; template_name := t;
              created_at := created; updated_at := now |}
  | _, _ => None
  end.

(** [CVProfile.objects.get_or_create(user_id=uid, defaults=...)] for the
    defaults [cv_content] and [template_name]; [new_id] is the UUID drawn
    for a new row.  [None]: the call raises, [MultipleObjectsReturned]
    from the lookup or the database's error for a row it refuses (a value
    it does not accept, a primary key that exists). *)
Definition get_or_create (tbl : gmap N CVProfile) (uid : Z) (new_id : N)
    (content template : json) (now : Z)
  : option (gmap N CVProfile * (N * CVProfile) * bool) :=
  match objects_get tbl uid with
  | Ok found => Some (tbl, found, false)
  | Raise DoesNotExist =>
      match written_row uid content template now now, tbl !! new_id with
      | Some row, None => Some (<[new_id := row]> tbl, (new_id, row), true)
      | _, _ => None
      end
  | Raise _ => None
  end.

(** [CVDataView.get] *)
Definition get (tbl : gmap N CVProfile) (r : request) : response :=
  let failed := {| status := 500; content := Error (lit "Failed to retrieve CV data") |} in
  match objects_get tbl (acting_user_id r) with
  | Ok (_, p) =>
      match get_method (cv_content p) (lit "visibility") (JDict []) with
      | Ok vis =>
          {| status := 200;
             content := CvData (cv_content p) vis (JStr (template_name p)) (updated_at p) |}
      | Raise _ => failed
      end
  | Raise DoesNotExist =>
      {| status := 200; content := NoCvData (lit "classic-0") (lit "No CV data found") |}
  | Raise _ => failed
  end.

(** [CVDataView.post] with its decorator; [count] is the number the rate
    limit library has counted, [new_id] the UUID a new row would get and
    [now] the instant of the save. *)
Definition post (count : Z) (tbl : gmap N CVProfile) (r : request) (new_id : N) (now : Z)
  : gmap N CVProfile * response :=
  ratelimit 50 count tbl
    (let failed := {| status := 500; content := Error (lit "Failed to save CV data") |} in
     let uid := acting_user_id r in
     match get_method (data r) (lit "cv_data") JNull,
           get_method (data r) (lit "visibility") (JDict []),
           get_method (data r) (lit "selected_template") (JStr (lit "classic-0")) with
     | Ok cv_data, Ok visibility, Ok selected_template =>
         if negb (truthy cv_data) then
           (tbl, {| status := 400; content := Error (lit "CV data is required") |})
         else
           let copied := match cv_data with JDict d => d | _ => [] end in
           let content := JDict (dict_set (lit "visibility") visibility copied) in
           match get_or_create tbl uid new_id content selected_template now with
           | None => (tbl, failed)
           | Some (tbl1, (id, p), created) =>
               let kept :=
                 if created then Some (tbl1, p)
                 else
                   match written_row (user_id p) content selected_template
                           (created_at p) now with
                   | Some p' => Some (<[id := p']> tbl1, p')
                   | None => None
                   end in
               match kept with
               | None => (tbl, failed)
               | Some (tbl2, p') =>
                   match user_email r with
                   | Raise _ => (tbl2, failed)
                   | Ok _ =>
                       (tbl2, {| status := 200;
                                 content := Saved (lit "CV data saved successfully") id
                                              (updated_at p') |})
                   end
               end
           end
     | _, _, _ => (tbl, failed)
     end).

(** [CVDataView.put] with its decorator. *)
Definition put (count : Z) (tbl : gmap N CVProfile) (r : request) (now : Z)
  : gmap N CVProfile * response :=
  ratelimit 50 count tbl
    (let failed := {| status := 500; content := Error (lit "Failed to update CV data") |} in
     match objects_get tbl (acting_user_id r) with
     | Raise DoesNotExist =>
         (tbl, {| status := 404;
                  content :=
                    Error (lit "CV data not found. Use POST to create new CV data.") |})
     | Raise _ => (tbl, failed)
     | Ok (id, p) =>
         let updated :=
           bind (get_method (data r) (lit "cv_data") JNull) (fun cv_data =>
           bind (get_method (data r) (lit "visibility") JNull) (fun visibility =>
           bind (get_method (data r) (lit "selected_template") JNull)
             (fun selected_template =>
           bind (if truthy cv_data then update_method (hold (cv_content p)) cv_data
                 else Ok (hold (cv_content p))) (fun c1 =>
           bind (if truthy visibility then setitem c1 (lit "visibility") visibility
                 else Ok c1) (fun c2 =>
           Ok (saved_document c2,
               if truthy selected_template then selected_template
               else JStr (template_name p))))))) in
         match updated with
         | Raise _ => (tbl, failed)
         | Ok (content, template) =>
             match written_row (user_id p) content template (created_at p) now with
             | None => (tbl, failed)
             | Some p' =>
                 let tbl' := <[id := p']> tbl in
                 match user_email r with
                 | Raise _ => (tbl', failed)
                 | Ok _ =>
                     (tbl', {| status := 200;
                               content := Saved (lit "CV data updated successfully") id
                                            (updated_at p') |})
                 end
             end
         end
     end).

End WithDatabase.

(** [CVDataView.delete] *)
Definition delete (tbl : gmap N CVProfile) (r : request) : gmap N CVProfile * response :=
  let failed := {| status := 500; content := Error (lit "Failed to delete CV data") |} in
  match objects_get tbl (acting_user_id r) with
  | Raise DoesNotExist => (tbl, {| status := 404; content := Error (lit "CV data not found") |})
  | Raise _ => (tbl, failed)
  | Ok (id, _) =>
      let tbl' := base.delete id tbl in
      match user_email r with
      | Raise _ => (tbl', failed)
      | Ok _ => (tbl', {| status := 200; content := Deleted (lit "CV data deleted successfully") |})
      end
  end.

End CvBuilder.

(** ** cvflo/settings.py: the template catalog *)
Module Settings.
Import Py Json.

Definition margin : json :=
  JDict [ (lit "top", JStr (lit "0.4in")); (lit "right", JStr (lit "0.5in"));
          (lit "bottom", JStr (lit "0.4in")); (lit "left", JStr (lit "0.5in")) ].

(** The bit pattern of the float [1.0]. *)
Definition float_one : Z := 4607182418800017408.

Definition pdf_settings : json :=
  JDict [ (lit "format", JStr (lit "A4")); (lit "margin", margin);
          (lit "scale", JFloat float_one); (lit "print_background", JBool true) ].

Definition template (name display_name description : string) (responsive has_columns : bool)
  : str * json :=
  (lit name,
   JDict [ (lit "name", JStr (lit name));
           (lit "display_name", JStr (lit display_name));
           (lit "description", JStr (lit description));
           (lit "responsive", JBool responsive);
           (lit "has_columns", JBool has_columns);
           (lit "pdf_settings", pdf_settings) ]).

(** The entry of [classic-0]. *)
Definition classic_0 : str * json :=
  template "classic-0" "Classic Template"
    "Traditional single-column layout with clean typography" false false.

(** [settings.CV_TEMPLATES], in the order of the source. *)
Definition CV_TEMPLATES : list (str * json) :=
  [ classic_0;
    template "modern-0" "Modern Template"
      "Multi-column layout with modern design elements" true true;
    template "modern-1" "Modern Template v2"
      "Alternative modern layout with sidebar" true true;
    template "academic-0" "Academic Template"
      "Professional academic layout with publication focus" false false ].

(** [settings.PDF_CACHE_TIMEOUT], in seconds. *)
Definition PDF_CACHE_TIMEOUT : Z := 3600.

End Settings.

(** ** What the rendering services call outside the repository *)
Module External.
Import Py Json.

(** A stylesheet handed to WeasyPrint: the fixed base sheet, the content
    of a template's CSS file, or the print sheet (with or without the
    column rules). *)
Inductive stylesheet : Type :=
| BaseCss
| TemplateCss (content : str)
| PrintCss (columns : bool).

(** The keyword arguments of [HTML(...)] and [write_pdf]. *)
Record pdf_options : Type := {
  presentational_hints : bool;
  optimize_images : bool;
  media_type : option str;
  pdf_version : option str;
  pdf_forms : option bool;
  pdf_identifier : option bool;
  pdf_variant : option str
}.

Class Engine := {
  (** [settings.BASE_DIR] *)
  BASE_DIR : str;
  (** [_generate_enhanced_html]: the rendering context and the template
      engine, for the data, the visibility map and the template name. *)
  render_enhanced_html : json -> json -> json -> result str;
  (** The HTML written to a temporary file, rendered by WeasyPrint with
      the stylesheets and options, and the file removed. *)
  write_pdf : str -> list stylesheet -> pdf_options -> result (list N);
  (** The file system: [os.path.exists] and reading a text file. *)
  path_exists : str -> bool;
  read_text : str -> result str
}.

End External.

(** ** apps/pdf_generation/services.py *)
Module PdfServices.
Import Py Json External.

Section WithEngine.
Context `{!Builtins} `{!Repr} `{!Engine}.

(** The characters [get_suggested_filename] keeps. *)
Definition kept_in_filename (c : N) : bool := isalnum c || contains (lit "._-") [c].

(** [CVPDFService.get_suggested_filename] *)
Definition get_suggested_filename (cv_data : json) : str :=
  let attempt :=
    bind (get_method cv_data (lit "personal_info") (JDict [])) (fun personal_info =>
    bind (get_method personal_info (lit "first_name") (JStr (lit "CV"))) (fun first_name =>
    bind (get_method personal_info (lit "last_name") (JStr (lit "Resume"))) (fun last_name =>
    let filename := py_str first_name ++ lit "_" ++ py_str last_name ++ lit "_Resume.pdf" in
    Ok (List.filter kept_in_filename filename)))) in
  match attempt with
  | Ok filename => filename
  | Raise _ => lit "CV_Resume.pdf"
  end.

(** [catalog.get(name, catalog['classic-0'])]: the default is looked up
    first; a list or a dict cannot be a key. *)
Definition catalog_get (catalog : list (str * json)) (name : json) : result json :=
  match assoc (lit "classic-0") catalog with
  | None => Raise KeyError
  | Some fallback =>
      match name with
      | JStr s => Ok (default fallback (assoc s catalog))
      | JList _ | JDict _ => Raise TypeError
      | _ => Ok fallback
      end
  end.

(** [CVPDFService.get_template_config] *)
Definition get_template_config (template_name : json) : result json :=
  catalog_get Settings.CV_TEMPLATES template_name.

(** [CVPDFService.get_template_css]: the template's sheet under
    [STATIC_ROOT], else [default.css], else nothing; never an error. *)
Definition get_template_css (template_name : json) : str :=
  let css_dir := os_path_join (os_path_join (os_path_join BASE_DIR (lit "staticfiles")) (lit "css")) in
  let css_path := css_dir (py_str template_name ++ lit ".css") in
  let default_css_path := css_dir (lit "default.css") in
  let attempt :=
    if path_exists css_path then read_text css_path
    else if path_exists default_css_path then read_text default_css_path
    else Ok [] in
  match attempt with
  | Ok css => css
  | Raise _ => []
  end.

Definition base_options : pdf_options :=
  {| presentational_hints := true; optimize_images := true; media_type := None;
     pdf_version := None; pdf_forms := None; pdf_identifier := None;
     pdf_variant := None |}.

(** The first two statements of [html_to_pdf]: the template's entry of the
    catalog and its [pdf_settings]. *)
Definition load_pdf_settings (template_name : json) : result json :=
  bind (get_template_config template_name) (fun template_config =>
  get_method template_config (lit "pdf_settings") (JDict [])).

(** [CVPDFService.html_to_pdf] *)
Definition html_to_pdf (html_content : str) (template_name : json) : result (list N) :=
  let attempt :=
    bind (load_pdf_settings template_name) (fun _ =>
    let css_content := get_template_css template_name in
    let css_objects :=
      match css_content with
      | [] => []
      | _ :: _ => [TemplateCss css_content]
      end in
    write_pdf html_content css_objects base_options) in
  match attempt with
  | Ok pdf => Ok pdf
  | Raise e =>
      Raise (PDFGenerationError (lit "Failed to convert HTML to PDF: " ++ exn_message e))
  end.

End WithEngine.

End PdfServices.

(** ** apps/pdf_generation/enhanced_services.py

    The generation log written by the tracking calls is not modelled: both
    tracking functions catch every exception, so they never change what a
    generation returns or raises. *)
Module EnhancedServices.
Import Py Json External.

(** [hashlib.sha256(s.encode()).hexdigest()] *)
Class Hashlib := { sha256_hexdigest : str -> str }.

Section WithEngine.
Context `{!Builtins} `{!Repr} `{!Engine} `{!Hashlib}.

(** [EnhancedCVPDFService._get_template_config] *)
Definition _get_template_config (template_name : json) : result json :=
  PdfServices.catalog_get Settings.CV_TEMPLATES template_name.

(** [EnhancedCVPDFService._get_template_css] *)
Definition _get_template_css (template_name : json) : str :=
  let css_path :=
    os_path_join (os_path_join (os_path_join BASE_DIR (lit "static")) (lit "css"))
      (py_str template_name ++ lit ".css") in
  let attempt := if path_exists css_path then read_text css_path else Ok [] in
  match attempt with
  | Ok css => css
  | Raise _ => []
  end.

(** [_get_print_optimization_css], as the sheet it builds. *)
Definition _get_print_optimization_css (template_name : json) : result stylesheet :=
  bind (_get_template_config template_name) (fun template_config =>
  bind (get_method template_config (lit "has_columns") JNull) (fun has_columns =>
  Ok (PrintCss (truthy has_columns)))).

(** [_get_optimized_css]: an exception keeps the sheets collected so far. *)
Definition _get_optimized_css (template_name : json) : list stylesheet :=
  let template_css := _get_template_css template_name in
  let collected :=
    BaseCss :: match template_css with
               | [] => []
               | _ :: _ => [TemplateCss template_css]
               end in
  match _get_print_optimization_css template_name with
  | Ok print_css => collected ++ [print_css]
  | Raise _ => collected
  end.

Definition optimized_options (archival : bool) : pdf_options :=
  {| presentational_hints := true; optimize_images := true;
     media_type := Some (lit "print");
     pdf_version := Some (lit "1.7"); pdf_forms := Some false;
     pdf_identifier := Some false;
     pdf_variant := if archival then Some (lit "pdf/a-1b") else None |}.

(** [_html_to_pdf_optimized]: an exception is raised again as it is. *)
Definition _html_to_pdf_optimized (html_content : str) (template_name : json)
  : result (list N) :=
  bind (_get_template_config template_name) (fun template_config =>
  let css_objects := _get_optimized_css template_name in
  bind (get_method template_config (lit "archival") (JBool false)) (fun archival =>
  write_pdf html_content css_objects (optimized_options (truthy archival)))).

(** [_generate_pdf_sync] *)
Definition _generate_pdf_sync (cv_data visibility template_name : json) : result (list N) :=
  bind (render_enhanced_html cv_data visibility template_name) (fun html_content =>
  _html_to_pdf_optimized html_content template_name).

(** The document whose serialisation is hashed. *)
Definition key_document (cv_data visibility template_name : json) : json :=
  JDict [ (lit "cv_data", cv_data); (lit "visibility", visibility);
          (lit "template_name", template_name) ].

(** [_generate_cache_key] *)
Definition _generate_cache_key (cv_data visibility template_name : json) : str :=
  let content_str := dumps (key_document cv_data visibility template_name) in
  lit "pdf_cache:" ++ sha256_hexdigest content_str.

(** What one call of [generate_pdf_with_cache] leaves behind: the cache,
    the generations it started, and what it returned. *)
Record cached_call : Type := {
  cache_after : Cache.cache;
  generations : list (json * json * json);
  returned : result (Cache.cval * bool)
}.

(** [generate_pdf_with_cache]; the cache reads the clock at [t_get] and at
    [t_set], and [timeout] is [self.cache_timeout]. *)
Definition generate_pdf_with_cache (timeout : Z) (c : Cache.cache) (t_get t_set : Z)
    (cv_data visibility template_name : json) : cached_call :=
  let cache_key := _generate_cache_key cv_data visibility template_name in
  let hit :=
    match Cache.get c t_get cache_key with
    | Some cached_pdf => if Cache.truthy cached_pdf then Some cached_pdf else None
    | None => None
    end in
  match hit with
  | Some cached_pdf =>
      {| cache_after := c; generations := []; returned := Ok (cached_pdf, true) |}
  | None =>
      let started := [(cv_data, visibility, template_name)] in
      match _generate_pdf_sync cv_data visibility template_name with
      | Raise e => {| cache_after := c; generations := started; returned := Raise e |}
      | Ok pdf_data =>
          {| cache_after := Cache.set c t_set cache_key (Cache.CBytes pdf_data) timeout;
             generations := started;
             returned := Ok (Cache.CBytes pdf_data, false) |}
      end
  end.

(** The arguments [generate_pdf_batch] reads off one request. *)
Definition batch_arguments (request : json) : result (json * json * json) :=
  bind (getitem request (lit "cv_data")) (fun cv_data =>
  bind (getitem request (lit "visibility")) (fun visibility =>
  bind (get_method request (lit "template_name") (JStr (lit "classic-0")))
    (fun template_name =>
  bind (get_method request (lit "user_id") JNull) (fun _ =>
  Ok (cv_data, visibility, template_name))))).

Fixpoint submit_all (requests : list json) : result (list (json * json * json)) :=
  match requests with
  | [] => Ok []
  | request :: rest =>
      bind (batch_arguments request) (fun args =>
      bind (submit_all rest) (fun futures => Ok (args :: futures)))
  end.

(** The slot one finished future fills in. *)
Definition collect (args : json * json * json) : option (list N) :=
  let '(cv_data, visibility, template_name) := args in
  match _generate_pdf_sync cv_data visibility template_name with
  | Ok pdf => Some pdf
  | Raise _ => None
  end.

(** The slot a finished future of position [i] fills in. *)
Definition slot_of (futures : list (json * json * json)) (i : nat) : list (option (list N)) :=
  match futures !! i with
  | Some args => [collect args]
  | None => []
  end.

(** [generate_pdf_batch].  [completion] lists the positions of the
    submitted futures in the order in which [as_completed] yields them, a
    choice of the thread pool. *)
Definition generate_pdf_batch (requests : list json) (completion : list nat)
  : result (list (option (list N))) :=
  bind (submit_all requests) (fun futures => Ok (completion ≫= slot_of futures)).

End WithEngine.

End EnhancedServices.

(** ** apps/core/static_views.py *)
Module StaticViews.
Import Py.

(** The file system and the MIME tables as the view sees them. *)
Record host : Type := {
  (** [str(settings.CLIENT_BUILD_DIR)] *)
  CLIENT_BUILD_DIR : str;
  (** [settings.DEBUG] *)
  DEBUG : bool;
  (** [os.path.exists], [os.path.isfile], and [open(p, 'rb').read()] *)
  exists_ : str -> bool;
  isfile : str -> bool;
  read : str -> result (list N);
  (** [mimetypes.guess_type(p)[0]] *)
  guess_type : str -> option str
}.

(** A consultation of the file system. *)
Inductive fs_call : Type :=
| Exists (p : str)
| IsFile (p : str)
| Open (p : str).

Inductive reply : Type :=
| Http404 (message : str)
| HttpResponse (content : list N) (content_type : str) (headers : list (str * str)).

(** Index of the last occurrence of [c] in [s], or [-1]: [s.rfind(c)]. *)
Definition rfind (c : N) (s : str) : Z :=
  fold_left (fun found ic => if N.eqb (snd ic) c then Z.of_nat (fst ic) else found)
    (imap (fun i x => (i, x)) s) (-1).

(** [os.path.splitext(p)[1]] *)
Definition splitext_ext (p : str) : str :=
  let sepIndex := rfind 47%N p in
  let dotIndex := rfind 46%N p in
  if sepIndex <? dotIndex then
    let name := firstn (Z.to_nat (dotIndex - (sepIndex + 1))) (skipn (Z.to_nat (sepIndex + 1)) p) in
    if existsb (fun c => negb (N.eqb c 46%N)) name then skipn (Z.to_nat dotIndex) p else []
  else [].

(** The view's own table of content types. *)
Definition mime_types : list (str * str) :=
  [ (lit ".js", lit "application/javascript");
    (lit ".mjs", lit "application/javascript");
    (lit ".css", lit "text/css");
    (lit ".json", lit "application/json");
    (lit ".png", lit "image/png");
    (lit ".jpg", lit "image/jpeg");
    (lit ".jpeg", lit "image/jpeg");
    (lit ".gif", lit "image/gif");
    (lit ".svg", lit "image/svg+xml");
    (lit ".ico", lit "image/x-icon");
    (lit ".woff", lit "font/woff");
    (lit ".woff2", lit "font/woff2");
    (lit ".ttf", lit "font/ttf");
    (lit ".eot", lit "application/vnd.ms-fontobject");
    (lit ".map", lit "application/json") ].

Section WithBuiltins.
Context `{!Builtins}.

(** [StaticAssetView.get]: the reply, and the consultations of the file
    system in the order they were made. *)
Definition get (h : host) (path : str) : list fs_call * reply :=
  if contains path (lit "..") || startswith path (lit "/") then
    ([], Http404 (lit "Invalid path"))
  else
    let file_path := os_path_join (os_path_join (CLIENT_BUILD_DIR h) (lit "assets")) path in
    if negb (exists_ h file_path) then
      ([Exists file_path], Http404 (lit "File not found"))
    else if negb (isfile h file_path) then
      ([Exists file_path; IsFile file_path], Http404 (lit "File not found"))
    else
      let mime_type :=
        match guess_type h file_path with
        | Some t => t
        | None =>
            default (lit "application/octet-stream")
              (Json.assoc (lower (splitext_ext path)) mime_types)
        end in
      let calls := [Exists file_path; IsFile file_path; Open file_path] in
      match read h file_path with
      | Raise _ => (calls, Http404 (lit "Could not read file"))
      | Ok content =>
          let headers :=
            if DEBUG h then []
            else [ (lit "Cache-Control", lit "public, max-age=31536000");
                   (lit "Expires", lit "Thu, 31 Dec 2037 23:55:55 GMT") ] in
          (calls, HttpResponse content mime_type headers)
      end.

End WithBuiltins.

End StaticViews.

(** ** apps/core/templatetags/cv_filters.py *)
Module CvFilters.
Import Py Json.

(** [datetime] objects: [d.strftime(fmt)] can raise, [str(d)] cannot. *)
Class Datetime (D : Type) := {
  strftime : D -> str -> result str;
  date_str : D -> str
}.

(** What a template hands to the filter: a value of the CV document, or a
    date object. *)
Inductive value (D : Type) : Type :=
| VJson (j : json)
| VDate (d : D).
Arguments VJson {D} j.
Arguments VDate {D} d.

Section WithDatetime.
Context `{!Builtins} `{!Repr} {D : Type} `{!Datetime D}.

(** [bool(v)]: a date object is always true. *)
Definition value_truthy (v : value D) : bool :=
  match v with
  | VJson j => truthy j
  | VDate _ => true
  end.

(** [str(v)] *)
Definition value_str (v : value D) : str :=
  match v with
  | VJson j => py_str j
  | VDate d => date_str d
  end.

(** [v.strftime(fmt)]: only a date object has the method. *)
Definition value_strftime (v : value D) (fmt : str) : result str :=
  match v with
  | VJson _ => Raise AttributeError
  | VDate d => strftime d fmt
  end.

(** What [format_date] returns for a format handed to [strftime]. *)
Definition formatted (d : D) (directive : str) : str :=
  match strftime d directive with
  | Ok s => s
  | Raise _ => date_str d
  end.

(** [format_date] *)
Definition format_date (date_value : value D) (format_string : str) : str :=
  if negb (value_truthy date_value) then []
  else
    let attempt :=
      if bool_decide (format_string = lit "M Y") then value_strftime date_value (lit "%b %Y")
      else if bool_decide (format_string = lit "Y") then value_strftime date_value (lit "%Y")
      else if bool_decide (format_string = lit "M d, Y") then
        value_strftime date_value (lit "%b %d, %Y")
      else value_strftime date_value format_string in
    match attempt with
    | Ok s => s
    | Raise _ => value_str date_value
    end.

End WithDatetime.

End CvFilters.

(** ** apps/pdf_generation/services.py: the template service and the
    template listings (also [TemplateListView] of apps/cv_builder/views.py) *)
Module Templates.
Import Py Json.

(** [name in catalog]: a list or a dict cannot be hashed. *)
Definition catalog_contains (catalog : list (str * json)) (name : json) : result bool :=
  match name with
  | JStr s => Ok (bool_decide (is_Some (assoc s catalog)))
  | JList _ | JDict _ => Raise TypeError
  | _ => Ok false
  end.

(** [TemplateService.validate_template] *)
Definition validate_template (template_name : json) : result bool :=
  catalog_contains Settings.CV_TEMPLATES template_name.

(** [TemplateService.get_template_metadata]: [None] for an unknown name. *)
Definition get_template_metadata (template_name : json) : result (option json) :=
  bind (catalog_contains Settings.CV_TEMPLATES template_name) (fun known =>
  if known then
    match template_name with
    | JStr s => Ok (assoc s Settings.CV_TEMPLATES)
    | _ => Ok None
    end
  else Ok None).

(** One entry of a listing. *)
Definition listed (template_name : str) (config : json) : result json :=
  bind (getitem config (lit "display_name")) (fun display_name =>
  bind (getitem config (lit "description")) (fun description =>
  bind (getitem config (lit "responsive")) (fun responsive =>
  bind (getitem config (lit "has_columns")) (fun has_columns =>
  Ok (JDict [ (lit "name", JStr template_name);
              (lit "display_name", display_name);
              (lit "description", description);
              (lit "responsive", responsive);
              (lit "has_columns", has_columns) ]))))).

(** The loop both listings run over [catalog.items()]. *)
Fixpoint listing (catalog : list (str * json)) : result (list json) :=
  match catalog with
  | [] => Ok []
  | (template_name, config) :: rest =>
      bind (listed template_name config) (fun entry =>
      bind (listing rest) (fun entries => Ok (entry :: entries)))
  end.

Section WithBuiltins.
Context `{!Builtins}.

(** [CVPDFService.get_available_templates] for a catalog. *)
Definition get_available_templates (catalog : list (str * json)) : result (list json) :=
  match listing catalog with
  | Ok templates => Ok templates
  | Raise e =>
      Raise (PDFGenerationError (lit "Failed to get available templates: " ++ exn_message e))
  end.

(** The answer of [TemplateListView.get]: the status, and the templates
    or the error message. *)
Inductive list_response : Type :=
| TemplatesBody (status : Z) (templates : list json)
| ErrorBody (status : Z) (message : str).

(** [TemplateListView.get] of apps/cv_builder/views.py for a catalog: the
    loop is written out in the view. *)
Definition template_list_view (catalog : list (str * json)) : list_response :=
  match listing catalog with
  | Ok templates => TemplatesBody 200 templates
  | Raise _ => ErrorBody 500 (lit "Failed to get templates")
  end.

(** [TemplateService.get_template_list]: the service object it builds
    first reads [settings.PDF_GENERATION['TEMPLATES_DIR']], which the
    settings define. *)
Definition get_template_list (catalog : list (str * json)) : result (list json) :=
  get_available_templates catalog.

(** [TemplateListView.get] of apps/pdf_generation/views.py for a catalog:
    the view asks the template service. *)
Definition pdf_template_list_view (catalog : list (str * json)) : list_response :=
  match get_template_list catalog with
  | Ok templates => TemplatesBody 200 templates
  | Raise _ => ErrorBody 500 (lit "Failed to get templates")
  end.

End WithBuiltins.

End Templates.

(** ** apps/pdf_generation/services.py: generation from CV data and from
    HTML *)
Module CvPdfService.
Import Py Json External.

(** [django.template.loader.render_to_string] for a template path and a
    context. *)
Class Templating := { render_to_string : str -> list (str * json) -> result str }.

(** [s.replace(old, new)] for a non-empty [old]: the occurrences are
    replaced from the left, without overlap.  Every step takes at least
    one character of [s], so [length s] steps are enough. *)
Fixpoint replace_from (steps : nat) (s old new : str) : str :=
  match steps with
  | O => s
  | S steps' =>
      if startswith s old then new ++ replace_from steps' (drop (length old) s) old new
      else
        match s with
        | [] => []
        | c :: s' => c :: replace_from steps' s' old new
        end
  end.

Definition replace (s old new : str) : str := replace_from (length s) s old new.

Section WithEngine.
Context `{!Builtins} `{!Repr} `{!Engine} `{!Templating}.




(** The styles [generate_pdf_from_html] combines: the template's sheet, a
    line end and the caller's styles, or the caller's styles alone. *)
Definition combined_css (styles : str) (template_name : json) : str :=
  let template_css := PdfServices.get_template_css template_name in
  match template_css with
  | [] => styles
  | _ :: _ => template_css ++ [10%N] ++ styles
  end.

(** The HTML [generate_pdf_from_html] hands to the conversion. *)
Definition with_styles (html_content combined : str) : str :=
  if negb (bool_decide (combined = [])) && negb (contains html_content (lit "<style>")) then
    if contains html_content (lit "</head>") then
      replace html_content (lit "</head>")
        (lit "<style>" ++ combined ++ lit "</style></head>")
    else lit "<style>" ++ combined ++ lit "</style>" ++ html_content
  else html_content.

(** [CVPDFService.generate_pdf_from_html] *)
Definition generate_pdf_from_html (html_content styles : str) (template_name : json)
  : result (list N) :=
  let html_content' := with_styles html_content (combined_css styles template_name) in
  match PdfServices.html_to_pdf html_content' template_name with
  | Ok pdf => Ok pdf
  | Raise e =>
      Raise (PDFGenerationError (lit "Failed to generate PDF from HTML: " ++ exn_message e))
  end.

End WithEngine.

End CvPdfService.

(** ** apps/pdf_generation/enhanced_services.py: the generation pool *)
Module Pool.

(** [PDFGenerationPool]: its size and its two counters. *)
Record pool : Type := {
  pool_size : Z;
  generation_count : Z;
  active_generations : Z
}.

(** [PDFGenerationPool.__init__] *)
Definition init (size : Z) : pool :=
  {| pool_size := size; generation_count := 0; active_generations := 0 |}.

(** [submit_generation]: both counters go up when the task is handed to
    the executor, whether or not a worker is free. *)
Definition submit_generation (p : pool) : pool :=
  {| pool_size := pool_size p;
     generation_count := generation_count p + 1;
     active_generations := active_generations p + 1 |}.

(** The [finally] of [_wrapped_generation]: a task has ended, with a
    result or with an exception. *)
Definition generation_ended (p : pool) : pool :=
  {| pool_size := pool_size p;
     generation_count := generation_count p;
     active_generations := active_generations p - 1 |}.

(** [get_stats] *)
Record stats : Type := {
  stat_pool_size : Z;
  stat_active_generations : Z;
  stat_total_generations : Z;
  stat_available_workers : Z
}.

Definition get_stats (p : pool) : stats :=
  {| stat_pool_size := pool_size p;
     stat_active_generations := active_generations p;
     stat_total_generations := generation_count p;
     stat_available_workers := pool_size p - active_generations p |}.

(** What happens to a pool, in the order the lock is taken. *)
Inductive event : Type :=
| Submitted
| Ended.

Definition step (p : pool) (e : event) : pool :=
  match e with
  | Submitted => submit_generation p
  | Ended => generation_ended p
  end.

Definition run (p : pool) (trace : list event) : pool := fold_left step trace p.

(** The number of events of one kind in a trace. *)
Definition occurrences (e : event) (trace : list event) : Z :=
  Z.of_nat (length (List.filter (fun x => match x, e with
                                           | Submitted, Submitted | Ended, Ended => true
                                           | _, _ => false
                                           end) trace)).

End Pool.

(** ** Generation tracking: [PDFGenerationTracker.track_generation] of
    apps/core/middleware/rate_limiting.py and [_track_failed_generation]
    of apps/pdf_generation/enhanced_services.py, with the
    [PDFGenerationLog] model of apps/cv_builder/models.py *)
Module Tracking.
Import Py Json.

(** The fields of [PDFGenerationLog]. *)
Definition log_fields : list str :=
  [lit "id"; lit "user_id"; lit "template_name"; lit "created_at"].

(** [PDFGenerationLog.objects.create] with keyword arguments, on the log table (its
    rows as the keyword arguments they were created with): the model
    refuses a keyword that is none of its fields. *)
Definition objects_create (log : list (list (str * json))) (kwargs : list (str * json))
  : result (list (list (str * json))) :=
  if forallb (fun kv => bool_decide (fst kv ∈ log_fields)) kwargs
  then Ok (kwargs :: log)
  else Raise TypeError.

(** The key of the daily counter of a user. *)
Definition daily_key `{!Builtins} `{!Repr} (user_id : json) : str :=
  lit "pdf_count:user:" ++ py_str user_id ++ lit ":daily".

(** [PDFGenerationTracker.track_generation]: the log table and the cache
    after the call; every exception is caught. *)
Definition track_generation `{!Builtins} `{!Repr}
    (log : list (list (str * json))) (c : Cache.cache) (t_get t_set : Z)
    (user_id template_name file_size generation_time : json) (client_ip : json)
  : list (list (str * json)) * Cache.cache :=
  let attempt :=
    bind (objects_create log
            [ (lit "user_id", user_id); (lit "template_name", template_name);
              (lit "file_size", file_size); (lit "generation_time", generation_time);
              (lit "client_ip", if truthy client_ip then client_ip else JStr (lit "unknown")) ])
      (fun log' =>
    let cache_key := daily_key user_id in
    match default (Cache.CInt 0) (Cache.get c t_get cache_key) with
    | Cache.CInt current_count =>
        Ok (log', Cache.set c t_set cache_key (Cache.CInt (current_count + 1)) 86400)
    | Cache.CBytes _ => Raise TypeError
    end) in
  match attempt with
  | Ok after => after
  | Raise _ => (log, c)
  end.

(** [_track_failed_generation]; [user] is the row [User.objects.get]
    finds, if any, and [error_message] the text of the exception. *)
Definition _track_failed_generation (log : list (list (str * json))) (user : option json)
    (template_name : json) (error_message : str) (generation_time : json)
  : list (list (str * json)) :=
  let attempt :=
    match user with
    | None => Raise DoesNotExist
    | Some u =>
        objects_create log
          [ (lit "user", u); (lit "template_name", template_name);
            (lit "generation_time", generation_time);
            (lit "status", JStr (lit "failed"));
            (lit "error_message", JStr (take 1000 error_message)) ]
    end in
  match attempt with
  | Ok log' => log'
  | Raise _ => log
  end.

End Tracking.

(** ** apps/core/templatetags/cv_filters.py: the filters applied to values
    of the CV document.  A JSON value has no [all], [name] or [category]
    attribute. *)
Module CvFiltersJson.
Import Py Json.

(** [len(v)] *)
Definition len (v : json) : result nat :=
  match v with
  | JStr s => Ok (length s)
  | JList l => Ok (length l)
  | JDict d => Ok (length d)
  | _ => Raise TypeError
  end.

(** [list(v)]: the items of a list, the characters of a string, the keys
    of a dict. *)
Definition iterate (v : json) : result (list json) :=
  match v with
  | JList l => Ok l
  | JStr s => Ok ((fun c => JStr [c]) <$> s)
  | JDict d => Ok ((fun kv => JStr (fst kv)) <$> d)
  | _ => Raise TypeError
  end.

(** [has_items] *)
Definition has_items (value : json) : bool :=
  if negb (truthy value) then false
  else
    match len value with
    | Ok n => (0 <? n)%nat
    | Raise _ => truthy value
    end.

Section WithRepr.
Context `{!Builtins} `{!Repr}.

(** [join_with_separator] *)
Definition join_with_separator (value : json) (separator : str) : str :=
  if negb (truthy value) then []
  else
    match iterate value with
    | Ok items => join separator (py_str <$> items)
    | Raise _ => py_str value
    end.

(** [technologies_list] *)
Definition technologies_list (technologies : json) (separator : str) : str :=
  if negb (truthy technologies) then []
  else
    match technologies with
    | JStr s => s
    | JList l => join separator (py_str <$> l)
    | _ => py_str technologies
    end.

End WithRepr.

(** [getattr(skill, 'category', 'Other')] *)
Definition category_of (skill : json) : str := lit "Other".

(** The loop of [group_skills]: a skill joins the group of its category,
    or opens a new group after the others. *)
Fixpoint add_to_group (category : str) (skill : json) (grouped : list (str * list json))
  : list (str * list json) :=
  match grouped with
  | [] => [(category, [skill])]
  | (c, skills) :: rest =>
      if decide (c = category) then (c, skills ++ [skill]) :: rest
      else (c, skills) :: add_to_group category skill rest
  end.

(** [group_skills]: the groups in the order they were opened, each with
    its [grouper] and its [list]. *)
Definition group_skills (skills : json) : list (str * list json) :=
  if negb (truthy skills) then []
  else
    match iterate skills with
    | Ok skills_list =>
        fold_left (fun grouped skill => add_to_group (category_of skill) skill grouped)
          skills_list []
    | Raise _ => []
    end.

End CvFiltersJson.

(** ** Vocabulary of the properties of Part II *)
Module Vocabulary.
Import Py Json.

(** The path a consultation of the file system is about. *)
Definition consulted (call : StaticViews.fs_call) : str :=
  match call with
  | StaticViews.Exists p | StaticViews.IsFile p | StaticViews.Open p => p
  end.

(** [d.get(k)] after [d.update(other)]: the value of [other], else the
    value of [d]. *)
Definition merged_lookup (d other : list (str * json)) (k : str) : option json :=
  match assoc k other with
  | Some v => Some v
  | None => assoc k d
  end.

(** The characters that would end or break a quoted header value or a
    path: the double quote, the slash, the backslash, and the line ends. *)
Definition breaks_header (c : N) : bool :=
  bool_decide (c ∈ [34; 47; 92; 10; 13]%N).

End Vocabulary.

(** ** Concrete instances of the library interfaces, for the examples *)
Module Demo.
Import Py Json External.

Definition builtins : Builtins :=
  {| unicode_isalnum := fun _ => false;
     unicode_isspace := fun _ => false;
     unicode_lower := fun c => [c];
     float_repr := fun _ => lit "0.0";
     exception_text := fun _ => lit "an error" |}.

Definition repr : Repr := {| container_repr := fun _ => lit "{}" |}.

Definition engine : Engine :=
  {| BASE_DIR := lit "/srv/cvflo";
     render_enhanced_html := fun cv_data _ _ =>
       match cv_data with
       | JDict _ => Ok (lit "<html></html>")
       | _ => Raise AttributeError
       end;
     write_pdf := fun html _ _ => Ok (lit "%PDF-1.7" ++ html);
     path_exists := fun _ => false;
     read_text := fun _ => Raise (EngineError (lit "No such file")) |}.

(** A stand-in for SHA-256 that is good enough to run the examples. *)
Definition hashlib : EnhancedServices.Hashlib :=
  {| EnhancedServices.sha256_hexdigest := fun s => Json.hex4 (N.of_nat (length s)) |}.

(** A database that takes every document and every text without a NUL
    character. *)
Definition database : CvBuilder.Database :=
  {| CvBuilder.jsonb_accepts := fun _ => true;
     CvBuilder.text_accepts := fun s => negb (bool_decide (0%N ∈ s)) |}.

End Demo.

(** ** Data of the examples *)
Module Examples.

Module FixedWindow.
Import Py RateLimiting.

Definition pdf_request : request :=
  {| path := lit "/api/pdf/generate-pdf/"; method := lit "POST";
     req_user := Some (Authenticated 7);
     HTTP_X_FORWARDED_FOR := None; REMOTE_ADDR := Some (lit "10.0.0.1") |}.

(** A request handled in the second [s] after the start of the window. *)
Definition at_second (s : Z) : readings * request :=
  let t := (1800000000 + s) * Cache.second in
  ({| t_check := t; t_get := t + 10; t_set := t + 20; t_resp := t + 30 |}, pdf_request).

Definition first_ten : list (readings * request) :=
  at_second <$> [1; 2; 3; 4; 5; 6; 7; 8; 9; 10].

(** A request of another user to the same endpoint. *)
Definition neighbour_request : request :=
  {| path := lit "/api/pdf/generate-pdf/"; method := lit "POST";
     req_user := Some (Authenticated 8);
     HTTP_X_FORWARDED_FOR := None; REMOTE_ADDR := Some (lit "10.0.0.1") |}.

(** The cache after ten requests of that user in the same window: the
    counter of user 8 is at the limit. *)
Definition neighbour_at_limit : Cache.cache :=
  fst (serve (H := Demo.builtins) rate_limits ∅
         ((fun s => (fst (at_second s), neighbour_request)) <$>
          [1; 2; 3; 4; 5; 6; 7; 8; 9; 10])).

End FixedWindow.

Module CvData.
Import Py Json CvBuilder.

(** The body of the request of C1. *)
Definition summary_body : json :=
  JDict [ (lit "cv_data", JDict [(lit "summary", JStr (lit "x"))]);
          (lit "visibility", JDict [(lit "summary", JBool true)]);
          (lit "selected_template", JStr (lit "modern-0")) ].

(** The content document the save of [summary_body] stores. *)
Definition summary_content : json :=
  JDict [ (lit "summary", JStr (lit "x"));
          (lit "visibility", JDict [(lit "summary", JBool true)]) ].

Definition other_row : CVProfile :=
  {| user_id := 2; cv_content := JDict [(lit "summary", JStr (lit "old"))];
     template_name := lit "classic-0"; created_at := 10; updated_at := 20 |}.

Definition one_row : gmap N CVProfile := {[ 5%N := other_row ]}.

End CvData.

Module CachedGeneration.
Import Py Json.

Definition cv_data : json :=
  JDict [ (lit "summary", JStr (lit "x"));
          (lit "personal_info",
           JDict [ (lit "first_name", JStr (lit "John"));
                   (lit "last_name", JStr (lit "Doe")) ]) ].

Definition cv_data_reordered : json :=
  JDict [ (lit "personal_info",
           JDict [ (lit "last_name", JStr (lit "Doe"));
                   (lit "first_name", JStr (lit "John")) ]);
          (lit "summary", JStr (lit "x")) ].

Definition visibility : json := JDict [(lit "summary", JBool true)].

Definition pdf : list N := lit "%PDF-1.7<html></html>".

Definition empty_cache : gmap (list N) Cache.entry := ∅.

End CachedGeneration.

Module Batch.
Import Py Json.

Definition good_request : json :=
  JDict [ (lit "cv_data", JDict [(lit "summary", JStr (lit "x"))]);
          (lit "visibility", JDict []) ].

Definition bad_request : json :=
  JDict [ (lit "cv_data", JStr (lit "not a CV")); (lit "visibility", JDict []) ].

Definition batch : list json := [good_request; bad_request; good_request].

Definition arguments : list (json * json * json) :=
  [ (JDict [(lit "summary", JStr (lit "x"))], JDict [], JStr (lit "classic-0"));
    (JStr (lit "not a CV"), JDict [], JStr (lit "classic-0"));
    (JDict [(lit "summary", JStr (lit "x"))], JDict [], JStr (lit "classic-0")) ].

End Batch.

Module StaticAssets.
Import Py StaticViews.

Definition permissive_host : host :=
  {| CLIENT_BUILD_DIR := lit "/srv/cvflo/public"; DEBUG := false;
     exists_ := fun _ => true; isfile := fun _ => true;
     read := fun _ => Ok (lit "root:x:0:0");
     guess_type := fun _ => Some (lit "text/plain") |}.

End StaticAssets.

End Examples.

(** ** Data of the further examples *)
Module MoreExamples.

Module CvData.
Import Py Json CvBuilder.

(** The owner of the row of [Examples.CvData.one_row], and a stranger. *)
Definition owner : user := Authenticated 2 (lit "a@b.c").
Definition stranger : user := Authenticated 3 (lit "d@e.f").

(** A body that carries a new section and nothing else. *)
Definition skills_body : json :=
  JDict [ (lit "cv_data", JDict [(lit "skills", JList [JStr (lit "Rocq")])]) ].

(** Two rows of one user. *)
Definition two_rows : gmap N CVProfile :=
  <[ 6%N := Examples.CvData.other_row ]> Examples.CvData.one_row.

(** A table whose one row is the profile of user 1. *)
Definition user_one_row : gmap N CVProfile :=
  {[ 4%N := {| user_id := 1; cv_content := JDict [(lit "summary", JStr (lit "mine"))];
               template_name := lit "classic-0"; created_at := 10; updated_at := 20 |} ]}.

End CvData.

Module RateLimit.
Import Py RateLimiting.

(** A table that lists the PDF limit and has no [default] entry. *)
Definition pdf_only : gmap (list N) rate_limit :=
  {[ lit "pdf_generation" := {| requests := 10; window := 900 |} ]}.

Definition no_counts : Cache.cache := ∅.

(** The cache after the ten requests of [Examples.FixedWindow.first_ten]. *)
Definition full_cache : Cache.cache :=
  fst (serve (H := Demo.builtins) rate_limits no_counts Examples.FixedWindow.first_ten).

(** The answer to the eleventh request. *)
Definition refused_body : limit_body :=
  {| error := lit "Rate limit exceeded"; limit := 10; body_window := 900; remaining := 0;
     reset_time := 1800000900; retry_after := 889 |}.


End RateLimit.

Module Generation.
Import Py Json.

(** A request of a batch that lacks its [visibility]. *)
Definition malformed_request : json :=
  JDict [ (lit "cv_data", JDict [(lit "summary", JStr (lit "x"))]) ].

(** CV data the demonstration engine cannot render. *)
Definition unrenderable : json := JStr (lit "not a CV").

End Generation.

End MoreExamples.

(* ===================================================================== *)
(** * Part II. Properties *)
(* ===================================================================== *)


(** ** Strings *)
Section StringFacts.
Import Py.

Lemma startswith_spec (s p : str) : startswith s p = true <-> exists t, s = p ++ t.
Proof.
  revert s. induction p as [|c p IH]; intros s; simpl.
  - split; [intros _; by exists s | done].
  - destruct s as [|d s].
    + split; [discriminate | intros [t Ht]; discriminate].
    + destruct (N.eqb_spec d c) as [->|Hne].
      * rewrite IH. split; intros [t Ht]; exists t; simpl in *; congruence.
      * split; [discriminate | intros [t Ht]; simpl in Ht; congruence].
Qed.

Lemma contains_spec (s sub : str) :
  contains s sub = true <-> exists a b, s = a ++ sub ++ b.
Proof.
  induction s as [|d s IH]; simpl.
  - rewrite orb_false_r, startswith_spec. split.
    + intros [t Ht]. exists [], t. exact Ht.
    + intros [a [b Hab]]. destruct a; [eauto | discriminate].
  - rewrite orb_true_iff, startswith_spec, IH. split.
    + intros [[t Ht] | [a [b Hab]]].
      * exists [], t. exact Ht.
      * exists (d :: a), b. simpl. congruence.
    + intros [a [b Hab]]. destruct a as [|x a]; simpl in Hab.
      * left. eauto.
      * right. exists a, b. congruence.
Qed.

Lemma contains_app (s sub a b : str) :
  contains sub s = true -> contains (a ++ sub ++ b) s = true.
Proof.
  rewrite !contains_spec. intros [x [y ->]].
  exists (a ++ x), (y ++ b). by rewrite <- !app_assoc.
Qed.

End StringFacts.

(** ** Rate limiting: the category of a request *)
Section RateLimitCategory.
Import Py RateLimiting.

Lemma contains_prefix_of_needle (s a b : str) :
  contains s (a ++ b) = true -> contains s a = true.
Proof.
  rewrite !contains_spec. intros [x [y ->]].
  exists x, (b ++ y). by rewrite <- app_assoc.
Qed.

Lemma from_html_implies_generate_pdf (s : str) :
  contains s (lit "/api/pdf/generate-pdf") = false ->
  contains s (lit "/api/pdf/generate-pdf-from-html") = false.
Proof.
  intros Hno. destruct (contains s (lit "/api/pdf/generate-pdf-from-html")) eqn:Hyes; [|done].
  change (lit "/api/pdf/generate-pdf-from-html")
    with (lit "/api/pdf/generate-pdf" ++ lit "-from-html") in Hyes.
  apply contains_prefix_of_needle in Hyes. congruence.
Qed.

(** C6, as the specification states it, fails: the path [/generate-pdf]
    contains [generate-pdf], yet it is not an [/api/pdf/] endpoint and the
    middleware files it under [default] (100 requests per 3600 s). *)
Lemma category_of_bare_generate_pdf_path :
  let r := {| path := lit "/generate-pdf"; method := lit "GET"; req_user := None;
              HTTP_X_FORWARDED_FOR := None; REMOTE_ADDR := None |} in
  contains (path r) (lit "generate-pdf") = true /\
  _get_rate_limit_category r = lit "default" /\
  lookup_rate_limit rate_limits (_get_rate_limit_category r)
    = Ok {| requests := 100; window := 3600 |}.
Proof. vm_compute. by repeat split. Qed.

(** C6 (amended): the category is chosen by the endpoint's full path.  A
    path containing [/api/pdf/generate-pdf] is in [pdf_generation] (10 per
    900 s); otherwise a path containing [/api/pdf/generate-preview] is in
    [preview_generation] (100 per 300 s); otherwise a path starting with
    [/api/] is in [api_general] (1000 per 3600 s); every other path is in
    [default] (100 per 3600 s). *)
Theorem rate_limit_category_selection (r : request) :
  (contains (path r) (lit "/api/pdf/generate-pdf") = true ->
   _get_rate_limit_category r = lit "pdf_generation" /\
   lookup_rate_limit rate_limits (_get_rate_limit_category r)
     = Ok {| requests := 10; window := 900 |}) /\
  (contains (path r) (lit "/api/pdf/generate-pdf") = false ->
   contains (path r) (lit "/api/pdf/generate-preview") = true ->
   _get_rate_limit_category r = lit "preview_generation" /\
   lookup_rate_limit rate_limits (_get_rate_limit_category r)
     = Ok {| requests := 100; window := 300 |}) /\
  (contains (path r) (lit "/api/pdf/generate-pdf") = false ->
   contains (path r) (lit "/api/pdf/generate-preview") = false ->
   startswith (path r) (lit "/api/") = true ->
   _get_rate_limit_category r = lit "api_general" /\
   lookup_rate_limit rate_limits (_get_rate_limit_category r)
     = Ok {| requests := 1000; window := 3600 |}) /\
  (contains (path r) (lit "/api/pdf/generate-pdf") = false ->
   contains (path r) (lit "/api/pdf/generate-preview") = false ->
   startswith (path r) (lit "/api/") = false ->
   _get_rate_limit_category r = lit "default" /\
   lookup_rate_limit rate_limits (_get_rate_limit_category r)
     = Ok {| requests := 100; window := 3600 |}).
Proof.
  unfold _get_rate_limit_category.
  repeat split; intros;
    repeat match goal with
    | H : contains _ (lit "/api/pdf/generate-pdf") = false |- _ =>
        rewrite (from_html_implies_generate_pdf _ H); rewrite H; clear H
    | H : _ = _ |- _ => rewrite H; clear H
    end; simpl orb; cbv iota; try reflexivity; by vm_compute.
Qed.

End RateLimitCategory.

(** ** Rate limiting: the fixed window *)
Section FixedWindow.
Import Py RateLimiting.
Context `{!Builtins}.

Lemma window_bounds (rl : rate_limit) (w t : Z) :
  0 < window rl -> 0 <= t -> window_index rl t = w ->
  w * window rl * Cache.second <= t < (w + 1) * window rl * Cache.second.
Proof.
  unfold window_index, Cache.int_time, Cache.second. intros Hw Ht <-.
  rewrite Z.quot_div_nonneg by lia.
  pose proof (Z.div_mod t 1000000 ltac:(lia)) as Hq.
  pose proof (Z.mod_pos_bound t 1000000 ltac:(lia)) as Hr.
  pose proof (Z.div_mod (t / 1000000) (window rl) ltac:(lia)) as Hq'.
  pose proof (Z.mod_pos_bound (t / 1000000) (window rl) ltac:(lia)) as Hr'.
  nia.
Qed.

Lemma in_window_spec (rl : rate_limit) (w : Z) (clk : readings) :
  in_window rl w clk = true ->
  (0 <= t_check clk /\ window_index rl (t_check clk) = w) /\
  (0 <= t_get clk /\ window_index rl (t_get clk) = w) /\
  (0 <= t_set clk /\ window_index rl (t_set clk) = w) /\
  (0 <= t_resp clk /\ window_index rl (t_resp clk) = w).
Proof.
  unfold in_window. simpl. rewrite !andb_true_iff, !Z.leb_le, !Z.eqb_eq. tauto.
Qed.

Lemma counted_request_spec (category client_id : str) (rl : rate_limit) (w : Z)
    (clk : readings) (r : request) :
  counted_request category client_id rl w (clk, r) = true ->
  _should_skip_rate_limiting r = false /\
  _get_rate_limit_category r = category /\
  _get_client_identifier r = client_id /\
  in_window rl w clk = true.
Proof.
  unfold counted_request. simpl.
  rewrite !andb_true_iff, negb_true_iff, !bool_decide_eq_true. tauto.
Qed.

(** A count written in window [w] is read back throughout window [w]. *)
Lemma stored_count_set (rl : rate_limit) (w : Z) (c : Cache.cache) (key : str)
    (v : Cache.cval) (t_written t : Z) :
  0 < window rl ->
  0 <= t_written -> window_index rl t_written = w ->
  0 <= t -> window_index rl t = w ->
  stored_count (Cache.set c t_written key v (window rl)) t key = v.
Proof.
  intros Hw Hs1 Hs2 Ht1 Ht2.
  pose proof (window_bounds rl w t_written Hw Hs1 Hs2) as Hb1.
  pose proof (window_bounds rl w t Hw Ht1 Ht2) as Hb2.
  unfold stored_count, Cache.get, Cache.set. rewrite lookup_insert_eq. simpl.
  unfold Cache.backend_timeout.
  destruct (Z.eqb_spec (window rl) 0) as [?|_]; [lia|].
  destruct (Z.leb_spec (t_written + window rl * Cache.second) t) as [Hle|_]; [|done].
  unfold Cache.second in *. nia.
Qed.

(** An allowed request: the stored count is below the limit, the request
    passes, and the count goes up by one. *)
Lemma process_request_allowed (limits : gmap (list N) rate_limit) (c : Cache.cache)
    (category client_id : str) (rl : rate_limit) (w n : Z) (clk : readings) (r : request) :
  lookup_rate_limit limits category = Ok rl ->
  0 < window rl ->
  counted_request category client_id rl w (clk, r) = true ->
  stored_count c (t_get clk) (cache_key category client_id w) = Cache.CInt n ->
  n < requests rl ->
  process_request limits c clk r =
    (Cache.set c (t_set clk) (cache_key category client_id w) (Cache.CInt (n + 1)) (window rl),
     Pass (Some {| info_limit := requests rl;
                   info_remaining := requests rl - (n + 1);
                   info_reset_time := (w + 1) * window rl;
                   info_window := window rl |})).
Proof.
  intros Hrl Hw Hreq Hcount Hn.
  apply counted_request_spec in Hreq as (Hskip & Hcat & Hcid & Hclk).
  apply in_window_spec in Hclk as ((_ & Hwin) & _).
  unfold process_request. rewrite Hskip, Hcat, Hrl.
  unfold _check_rate_limit. rewrite Hcid.
  destruct (Z.eqb_spec (window rl) 0) as [?|_]; [lia|].
  unfold window_index in Hwin. rewrite Hwin.
  unfold stored_count in Hcount. rewrite Hcount.
  destruct (Z.leb_spec (requests rl) n) as [?|_]; [lia|]. done.
Qed.

(** A request beyond the limit: it is answered with 429 and the cache is
    left as it was. *)
Lemma process_request_rejected (limits : gmap (list N) rate_limit) (c : Cache.cache)
    (category client_id : str) (rl : rate_limit) (w n : Z) (clk : readings) (r : request) :
  lookup_rate_limit limits category = Ok rl ->
  0 < window rl ->
  counted_request category client_id rl w (clk, r) = true ->
  stored_count c (t_get clk) (cache_key category client_id w) = Cache.CInt n ->
  requests rl <= n ->
  process_request limits c clk r = (c, rejected rl w (t_resp clk)).
Proof.
  intros Hrl Hw Hreq Hcount Hn.
  apply counted_request_spec in Hreq as (Hskip & Hcat & Hcid & Hclk).
  apply in_window_spec in Hclk as ((_ & Hwin) & _).
  unfold process_request. rewrite Hskip, Hcat, Hrl.
  unfold _check_rate_limit. rewrite Hcid.
  destruct (Z.eqb_spec (window rl) 0) as [?|_]; [lia|].
  unfold window_index in Hwin. rewrite Hwin.
  unfold stored_count in Hcount. rewrite Hcount.
  destruct (Z.leb_spec (requests rl) n) as [_|?]; [|lia]. done.
Qed.

Lemma serve_app (limits : gmap (list N) rate_limit) (c : Cache.cache)
    (evs1 evs2 : list (readings * request)) :
  serve limits c (evs1 ++ evs2) =
    (fst (serve limits (fst (serve limits c evs1)) evs2),
     snd (serve limits c evs1) ++ snd (serve limits (fst (serve limits c evs1)) evs2)).
Proof.
  revert c. induction evs1 as [|[clk r] evs1 IH]; intros c; simpl.
  - by destruct (serve limits c evs2).
  - destruct (process_request limits c clk r) as [c1 o].
    rewrite IH. destruct (serve limits c1 evs1) as [c2 os]. simpl.
    by destruct (serve limits c2 evs2).
Qed.

(** The requests of one window below the limit: each passes, the [k]-th
    with [limit - k] remaining, and the stored count follows. *)
Lemma serve_below_limit (limits : gmap (list N) rate_limit)
    (category client_id : str) (rl : rate_limit) (w : Z)
    (evs : list (readings * request)) (c : Cache.cache) (n : nat) :
  lookup_rate_limit limits category = Ok rl ->
  0 < window rl ->
  forallb (counted_request category client_id rl w) evs = true ->
  (forall t, 0 <= t -> window_index rl t = w ->
     stored_count c t (cache_key category client_id w) = Cache.CInt (Z.of_nat n)) ->
  Z.of_nat (n + length evs) <= requests rl ->
  snd (serve limits c evs) = allowed rl w <$> seq (S n) (length evs) /\
  (forall t, 0 <= t -> window_index rl t = w ->
     stored_count (fst (serve limits c evs)) t (cache_key category client_id w)
       = Cache.CInt (Z.of_nat (n + length evs))).
Proof.
  intros Hrl Hw. revert c n.
  induction evs as [|[clk r] evs IH]; intros c n Hall Hcount Hroom; simpl in *.
  - split; [done|]. intros t Ht1 Ht2. rewrite Nat.add_0_r. by apply Hcount.
  - apply andb_true_iff in Hall as [Hev Hall].
    pose proof (counted_request_spec _ _ _ _ _ _ Hev) as (_ & _ & _ & Hclk).
    apply in_window_spec in Hclk as (_ & (Hg1 & Hg2) & (Hs1 & Hs2) & _).
    rewrite (process_request_allowed limits c category client_id rl w (Z.of_nat n) clk r)
      by (auto; lia).
    specialize (IH (Cache.set c (t_set clk) (cache_key category client_id w)
                      (Cache.CInt (Z.of_nat n + 1)) (window rl)) (S n) Hall).
    destruct IH as [IHo IHc].
    + intros t Ht1 Ht2. rewrite (stored_count_set rl w) by done. f_equal. lia.
    + lia.
    + destruct (serve limits _ evs) as [c2 os]. simpl in *. split.
      * rewrite IHo. unfold allowed at 2. do 4 f_equal. lia.
      * intros t Ht1 Ht2. rewrite IHc by done. f_equal. lia.
Qed.

Lemma forallb_take {A : Type} (f : A -> bool) (l : list A) (k : nat) :
  forallb f l = true -> forallb f (take k l) = true.
Proof.
  revert k. induction l as [|x l IH]; intros [|k] Hl; simpl in *; try done.
  apply andb_true_iff in Hl as [Hx Hl]. rewrite Hx. by apply IH.
Qed.

Lemma stored_count_absent (c : Cache.cache) (t : Z) (key : str) :
  c !! key = None -> stored_count c t key = Cache.CInt 0.
Proof. intros Hc. unfold stored_count, Cache.get. by rewrite Hc. Qed.

(** C2: in a fixed window, the limit is enforced on the request after the
    last allowed one, and the count is kept per client, category and
    window, under the key [rate_limit:<category>:<client id>:<w>].  For
    [limit + 1] rate-limited requests of one client and category whose
    clock readings all fall in window [w], starting with nothing counted
    under that key, whatever the cache holds under other keys (the
    counters of other clients, categories and windows among them), the
    first [limit] requests pass (the [k]-th with [limit - k] remaining)
    and the last is answered with HTTP 429, [remaining = 0],
    [reset_time = (w + 1) * window] and [retry_after = reset_time - now];
    after [k] allowed requests the count stored under the key is [k]. *)
Theorem fixed_window_rate_limit (limits : gmap (list N) rate_limit) (c : Cache.cache)
    (category client_id : str) (rl : rate_limit) (w : Z)
    (evs : list (readings * request)) (last : readings * request) :
  lookup_rate_limit limits category = Ok rl ->
  0 < window rl ->
  0 <= requests rl ->
  length evs = Z.to_nat (requests rl) ->
  forallb (counted_request category client_id rl w) (evs ++ [last]) = true ->
  c !! (lit "rate_limit:" ++ category ++ lit ":" ++ client_id ++ lit ":" ++ str_of_int w)
    = None ->
  snd (serve limits c (evs ++ [last])) =
    (allowed rl w <$> seq 1 (length evs)) ++ [rejected rl w (t_resp (fst last))] /\
  (forall (k : nat) (t : Z),
     (k <= length evs)%nat -> 0 <= t -> window_index rl t = w ->
     stored_count (fst (serve limits c (take k evs))) t
       (lit "rate_limit:" ++ category ++ lit ":" ++ client_id ++ lit ":" ++ str_of_int w)
       = Cache.CInt (Z.of_nat k)).
Proof.
  change (lit "rate_limit:" ++ category ++ lit ":" ++ client_id ++ lit ":" ++ str_of_int w)
    with (cache_key category client_id w).
  intros Hrl Hw Hlim Hlen Hall Hfresh.
  rewrite forallb_app in Hall. apply andb_true_iff in Hall as [Hevs Hlast].
  simpl in Hlast. rewrite andb_true_r in Hlast.
  assert (Hzero : forall t, 0 <= t -> window_index rl t = w ->
            stored_count c t (cache_key category client_id w) = Cache.CInt (Z.of_nat 0)).
  { intros t _ _. by apply stored_count_absent. }
  split.
  - destruct (serve_below_limit limits category client_id rl w evs c 0 Hrl Hw Hevs Hzero)
      as [Houts Hcount]; [lia|].
    rewrite serve_app. simpl. rewrite Houts. f_equal.
    destruct last as [clk r].
    pose proof (counted_request_spec _ _ _ _ _ _ Hlast) as (_ & _ & _ & Hclk).
    apply in_window_spec in Hclk as (_ & (Hg1 & Hg2) & _).
    simpl.
    rewrite (process_request_rejected limits _ category client_id rl w
               (Z.of_nat (0 + length evs)) clk r Hrl Hw Hlast (Hcount _ Hg1 Hg2))
      by lia.
    done.
  - intros k t Hk Ht1 Ht2.
    assert (Hpre : forallb (counted_request category client_id rl w) (take k evs) = true).
    { by apply forallb_take. }
    destruct (serve_below_limit limits category client_id rl w (take k evs) c 0
                Hrl Hw Hpre Hzero) as [_ Hcount].
    + rewrite length_take. lia.
    + rewrite Hcount by done. rewrite length_take. f_equal. lia.
Qed.

End FixedWindow.

(** An instance of C2: eleven requests of user 7 to the PDF endpoint
    (limit 10 per 900 s), one per second, all in window 2000000, on a cache
    in which the counter of user 8 for that window is at the limit. *)
Module FixedWindowExample.
Import Py RateLimiting Examples.FixedWindow.

Lemma fixed_window_rate_limit_witness :
  snd (serve (H := Demo.builtins) rate_limits neighbour_at_limit
         (first_ten ++ [at_second 11])) =
    (allowed {| requests := 10; window := 900 |} 2000000 <$> seq 1 (length first_ten)) ++
    [rejected {| requests := 10; window := 900 |} 2000000 (t_resp (fst (at_second 11)))] /\
  (forall (k : nat) (t : Z),
     (k <= length first_ten)%nat -> 0 <= t ->
     window_index {| requests := 10; window := 900 |} t = 2000000 ->
     stored_count
       (fst (serve (H := Demo.builtins) rate_limits neighbour_at_limit (take k first_ten))) t
       (lit "rate_limit:" ++ lit "pdf_generation" ++ lit ":" ++ lit "user:7" ++ lit ":" ++
        str_of_int 2000000)
       = Cache.CInt (Z.of_nat k)).
Proof.
  apply (@fixed_window_rate_limit Demo.builtins rate_limits neighbour_at_limit
           (lit "pdf_generation") (lit "user:7") {| requests := 10; window := 900 |}
           2000000 first_ten (at_second 11)).
  - vm_compute. reflexivity.
  - simpl. lia.
  - simpl. lia.
  - reflexivity.
  - vm_compute. reflexivity.
  - vm_compute. reflexivity.
Defined.

End FixedWindowExample.

(** ** The CV data API *)
Section CvData.
Import Py Json CvBuilder Examples.CvData.
Context `{!Builtins} `{!Repr} `{!Database}.

(** A user has no row exactly when no row of the table carries the
    user's id. *)
Lemma rows_of_nil (tbl : gmap N CVProfile) (uid : Z) :
  rows_of tbl uid = [] <-> forall id p, tbl !! id = Some p -> user_id p <> uid.
Proof.
  unfold rows_of. rewrite map_to_list_empty_iff, map_empty. split.
  - intros Hnone id p Hp Hu. specialize (Hnone id).
    apply map_lookup_filter_None in Hnone as [Hnone | Hnone].
    + congruence.
    + by apply (Hnone p).
  - intros Hnone id. apply map_lookup_filter_None.
    destruct (tbl !! id) as [p|] eqn:Hp; [right | by left].
    intros q [= <-] Hu. by apply (Hnone id p).
Qed.

(** The single row of a user is a row of the table and carries the
    user's id. *)
Lemma rows_of_single (tbl : gmap N CVProfile) (uid : Z) (id : N) (p : CVProfile) :
  rows_of tbl uid = [(id, p)] ->
  filter (fun kv : N * CVProfile => user_id (snd kv) = uid) tbl = {[id := p]} /\
  tbl !! id = Some p /\ user_id p = uid.
Proof.
  unfold rows_of. intros Hrows.
  assert (Hf : filter (fun kv : N * CVProfile => user_id (snd kv) = uid) tbl = {[id := p]}).
  { rewrite <- (list_to_map_to_list (filter _ tbl)), Hrows. simpl.
    by rewrite insert_empty. }
  split; [done|].
  assert (Hl : filter (fun kv : N * CVProfile => user_id (snd kv) = uid) tbl !! id = Some p).
  { rewrite Hf. apply lookup_singleton_eq. }
  by apply map_lookup_filter_Some in Hl.
Qed.

Lemma rows_of_insert_new (tbl : gmap N CVProfile) (uid : Z) (id : N) (p : CVProfile) :
  rows_of tbl uid = [] -> user_id p = uid ->
  rows_of (<[id := p]> tbl) uid = [(id, p)].
Proof.
  unfold rows_of. intros Hnone Hu.
  apply map_to_list_empty_iff in Hnone.
  rewrite map_filter_insert_True by done.
  rewrite Hnone, insert_empty. apply map_to_list_singleton.
Qed.

Lemma rows_of_insert_same (tbl : gmap N CVProfile) (uid : Z) (id : N) (p p' : CVProfile) :
  rows_of tbl uid = [(id, p)] -> user_id p' = uid ->
  rows_of (<[id := p']> tbl) uid = [(id, p')].
Proof.
  intros Hrows Hu. apply rows_of_single in Hrows as (Hf & _ & _).
  unfold rows_of. rewrite map_filter_insert_True by done.
  rewrite Hf, insert_singleton_eq. apply map_to_list_singleton.
Qed.

(** The rate limit: a request within the limit reaches the method, a
    request beyond it is answered with 403 and changes nothing. *)
Lemma ratelimit_within (limit count : Z) (tbl : gmap N CVProfile)
    (view : gmap N CVProfile * response) :
  count <= limit -> ratelimit limit count tbl view = view.
Proof. intros Hle. unfold ratelimit. by destruct (Z.ltb_spec limit count); [lia|]. Qed.

Lemma ratelimit_beyond (limit count : Z) (tbl : gmap N CVProfile)
    (view : gmap N CVProfile * response) :
  limit < count ->
  ratelimit limit count tbl view =
    (tbl, {| status := 403;
             content := Detail (lit "You do not have permission to perform this action.") |}).
Proof. intros Hlt. unfold ratelimit. by destruct (Z.ltb_spec limit count); [|lia]. Qed.

(** The row the database writes. *)
Lemma written_row_written (uid : Z) (content template : json) (created now : Z)
    (row : CVProfile) :
  written_row uid content template created now = Some row ->
  row = {| user_id := uid; cv_content := content; template_name := template_name row;
           created_at := created; updated_at := now |} /\
  template_name_column template = Some (template_name row).
Proof.
  unfold written_row, cv_content_column.
  destruct content; try done;
    destruct (jsonb_accepts _); try done;
    destruct (template_name_column template); try done;
    by intros [= <-].
Qed.

Lemma written_row_accepted (uid : Z) (d : list (str * json)) (template : json)
    (created now : Z) (t : str) :
  jsonb_accepts (JDict d) = true ->
  template_name_column template = Some t ->
  written_row uid (JDict d) template created now =
    Some {| user_id := uid; cv_content := JDict d; template_name := t;
            created_at := created; updated_at := now |}.
Proof. intros Hd Ht. unfold written_row, cv_content_column. by rewrite Hd, Ht. Qed.


(** What a POST within the rate limit stores, for a body whose [cv_data]
    is a non-empty dict and a row the database takes: the acting user owns
    one row, which holds the posted document with the visibility set in
    it, and the template; a row that was there keeps its identifier and its
    creation time. *)
Lemma post_saved_row (count : Z) (tbl : gmap N CVProfile) (r : request) (new_id : N)
    (now : Z) (b o : list (str * json)) (t : str) :
  count <= 50 ->
  (length (rows_of tbl (acting_user_id r)) <= 1)%nat ->
  tbl !! new_id = None ->
  data r = JDict b ->
  assoc (lit "cv_data") b = Some (JDict o) ->
  o <> [] ->
  jsonb_accepts
    (JDict (dict_set (lit "visibility") (default (JDict []) (assoc (lit "visibility") b)) o))
    = true ->
  template_name_column (default (JStr (lit "classic-0")) (assoc (lit "selected_template") b))
    = Some t ->
  exists id created,
    rows_of (fst (post count tbl r new_id now)) (acting_user_id r) =
      [(id, {| user_id := acting_user_id r;
               cv_content :=
                 JDict (dict_set (lit "visibility")
                          (default (JDict []) (assoc (lit "visibility") b)) o);
               template_name := t; created_at := created; updated_at := now |})] /\
    (rows_of tbl (acting_user_id r) = [] -> id = new_id /\ created = now) /\
    (forall id0 p, rows_of tbl (acting_user_id r) = [(id0, p)] ->
       id = id0 /\ created = created_at p) /\
    snd (post count tbl r new_id now) =
      match user_email r with
      | Ok _ => {| status := 200;
                   content := Saved (lit "CV data saved successfully") id now |}
      | Raise _ => {| status := 500; content := Error (lit "Failed to save CV data") |}
      end.
Proof.
  intros Hcount Hone Hfresh Hdata Hcv Ho Hdoc Htemplate.
  assert (Htrue : truthy (JDict o) = true) by (by destruct o).
  unfold post. rewrite ratelimit_within by done.
  rewrite Hdata. cbn [get_method]. rewrite Hcv.
  cbn [default from_option Datatypes.id]. rewrite Htrue. cbn [negb].
  unfold get_or_create, objects_get.
  destruct (rows_of tbl (acting_user_id r)) as [|[id0 p] [|row rows]] eqn:Hrows.
  - rewrite (written_row_accepted _ _ _ _ _ t Hdoc Htemplate), Hfresh.
    exists new_id, now. split_and!.
    + destruct (user_email r); cbn [fst]; by apply rows_of_insert_new.
    + done.
    + intros id1 q [=].
    + by destruct (user_email r).
  - pose proof (rows_of_single _ _ _ _ Hrows) as (_ & _ & Hu).
    rewrite (written_row_accepted _ _ _ _ _ t Hdoc Htemplate).
    exists id0, (created_at p). split_and!.
    + rewrite <- Hu. destruct (user_email r); cbn [fst];
        apply (rows_of_insert_same _ _ _ p); by rewrite ?Hu.
    + intros [=].
    + by intros id1 q [= <- <-].
    + by destruct (user_email r).
  - simpl in Hone. lia.
Qed.

(** A request beyond the rate limit: 403, and the table is left as it
    is. *)
Lemma post_beyond_the_limit (count : Z) (tbl : gmap N CVProfile) (r : request)
    (new_id : N) (now : Z) :
  50 < count ->
  post count tbl r new_id now =
    (tbl, {| status := 403;
             content := Detail (lit "You do not have permission to perform this action.") |}).
Proof. intros Hlt. unfold post. by apply ratelimit_beyond. Qed.

Lemma put_beyond_the_limit (count : Z) (tbl : gmap N CVProfile) (r : request) (now : Z) :
  50 < count ->
  put count tbl r now =
    (tbl, {| status := 403;
             content := Detail (lit "You do not have permission to perform this action.") |}).
Proof. intros Hlt. unfold put. by apply ratelimit_beyond. Qed.

(** C1, as amended: saving [{cv_data: {summary: x}, visibility: {summary:
    true}, selected_template: modern-0}] with a POST that its rate limit
    of 50 an hour admits, and reading back as the same user, who had no
    profile or one profile before, returns HTTP 200 with the content
    document [{summary: x, visibility: {summary: true}}], the visibility
    map [{summary: true}] and the template [modern-0].  A POST beyond the
    rate limit is answered with 403 and saves nothing.  The database is
    one that takes the document and the template name. *)
Theorem post_then_get_round_trip (count : Z) (tbl : gmap N CVProfile) (u : user)
    (new_id : N) (now : Z) (any : json) :
  jsonb_accepts summary_content = true ->
  text_accepts (lit "modern-0") = true ->
  (length (rows_of tbl (acting_user_id {| req_user := u; data := summary_body |})) <= 1)%nat ->
  tbl !! new_id = None ->
  let posted := post count tbl {| req_user := u; data := summary_body |} new_id now in
  let answer := get (fst posted) {| req_user := u; data := any |} in
  (count <= 50 ->
   answer = {| status := 200;
               content := CvData summary_content (JDict [(lit "summary", JBool true)])
                            (JStr (lit "modern-0")) now |}) /\
  (50 < count ->
   posted = (tbl, {| status := 403;
                     content :=
                       Detail (lit "You do not have permission to perform this action.") |})) /\
  assoc (lit "summary") [ (lit "summary", JStr (lit "x"));
                          (lit "visibility", JDict [(lit "summary", JBool true)]) ]
    = Some (JStr (lit "x")) /\
  getitem summary_content (lit "visibility") = Ok (JDict [(lit "summary", JBool true)]) /\
  getitem (JDict [(lit "summary", JBool true)]) (lit "summary") = Ok (JBool true).
Proof.
  intros Hdoc Htext Hone Hfresh posted answer.
  assert (Htemplate : template_name_column (JStr (lit "modern-0")) = Some (lit "modern-0")).
  { unfold template_name_column. cbn [py_str]. by rewrite Htext. }
  split_and!; try by vm_compute.
  - intros Hcount.
    destruct (post_saved_row count tbl {| req_user := u; data := summary_body |} new_id now
                [ (lit "cv_data", JDict [(lit "summary", JStr (lit "x"))]);
                  (lit "visibility", JDict [(lit "summary", JBool true)]);
                  (lit "selected_template", JStr (lit "modern-0")) ]
                [(lit "summary", JStr (lit "x"))] (lit "modern-0")
                Hcount Hone Hfresh eq_refl eq_refl ltac:(done) Hdoc Htemplate)
      as (id & created & Hrows & _).
    unfold answer, get, objects_get, posted.
    change (acting_user_id {| req_user := u; data := any |})
      with (acting_user_id {| req_user := u; data := summary_body |}).
    rewrite Hrows. reflexivity.
  - intros Hcount. by apply post_beyond_the_limit.
Qed.

(** C5, as amended: a PUT by a user who owns no row leaves the table as it
    was, and no profile is created.  A PUT that its rate limit of 50 an
    hour admits is answered with HTTP 404 and the advice to POST; a PUT
    beyond the rate limit is answered with 403. *)
Theorem put_without_profile (count : Z) (tbl : gmap N CVProfile) (r : request) (now : Z) :
  rows_of tbl (acting_user_id r) = [] ->
  fst (put count tbl r now) = tbl /\
  rows_of (fst (put count tbl r now)) (acting_user_id r) = [] /\
  (count <= 50 ->
   snd (put count tbl r now) =
     {| status := 404;
        content := Error (lit "CV data not found. Use POST to create new CV data.") |}) /\
  (50 < count ->
   snd (put count tbl r now) =
     {| status := 403;
        content := Detail (lit "You do not have permission to perform this action.") |}).
Proof.
  intros Hnone.
  assert (Hwithin : count <= 50 ->
            put count tbl r now =
              (tbl, {| status := 404;
                       content :=
                         Error (lit "CV data not found. Use POST to create new CV data.") |})).
  { intros Hle. unfold put, objects_get. rewrite ratelimit_within by done. by rewrite Hnone. }
  destruct (Z.le_gt_cases count 50) as [Hle|Hgt].
  - rewrite (Hwithin Hle). split_and!; try done. lia.
  - rewrite (put_beyond_the_limit count tbl r now Hgt). split_and!; try done. lia.
Qed.

End CvData.

(** Instances of C1 and C5 on a table that holds one row, of user 2, and
    the fifty-first POST and PUT of an hour. *)
Module CvDataExample.
Import Py Json CvBuilder Examples.CvData.

Lemma post_then_get_round_trip_witness :
  get (fst (@post Demo.builtins Demo.repr Demo.database 1 one_row
              {| req_user := Authenticated 2 (lit "a@b.c"); data := summary_body |} 9%N 30))
      {| req_user := Authenticated 2 (lit "a@b.c"); data := JNull |}
  = {| status := 200;
       content := CvData summary_content (JDict [(lit "summary", JBool true)])
                    (JStr (lit "modern-0")) 30 |}.
Proof.
  destruct (@post_then_get_round_trip Demo.builtins Demo.repr Demo.database 1 one_row
              (Authenticated 2 (lit "a@b.c")) 9%N 30 JNull) as [Hanswer _].
  - reflexivity.
  - reflexivity.
  - vm_compute. lia.
  - reflexivity.
  - apply Hanswer. lia.
Defined.

(** C1, as the specification states it, fails on the fifty-first POST of an
    hour: the profile of user 2 that is read back is the one that was there
    before. *)
Lemma rate_limited_post_is_not_read_back :
  @post Demo.builtins Demo.repr Demo.database 51 one_row
    {| req_user := Authenticated 2 (lit "a@b.c"); data := summary_body |} 9%N 30 =
    (one_row,
     {| status := 403;
        content := Detail (lit "You do not have permission to perform this action.") |}) /\
  get (fst (@post Demo.builtins Demo.repr Demo.database 51 one_row
              {| req_user := Authenticated 2 (lit "a@b.c"); data := summary_body |} 9%N 30))
      {| req_user := Authenticated 2 (lit "a@b.c"); data := JNull |}
  = {| status := 200;
       content := CvData (JDict [(lit "summary", JStr (lit "old"))]) (JDict [])
                    (JStr (lit "classic-0")) 20 |}.
Proof. split; reflexivity. Qed.

Lemma put_without_profile_witness :
  fst (@put Demo.builtins Demo.repr Demo.database 1 one_row
         {| req_user := Anonymous; data := summary_body |} 30) = one_row /\
  rows_of (fst (@put Demo.builtins Demo.repr Demo.database 1 one_row
                  {| req_user := Anonymous; data := summary_body |} 30)) 1 = [] /\
  (1 <= 50 ->
   snd (@put Demo.builtins Demo.repr Demo.database 1 one_row
          {| req_user := Anonymous; data := summary_body |} 30) =
     {| status := 404;
        content := Error (lit "CV data not found. Use POST to create new CV data.") |}) /\
  (50 < 1 ->
   snd (@put Demo.builtins Demo.repr Demo.database 1 one_row
          {| req_user := Anonymous; data := summary_body |} 30) =
     {| status := 403;
        content := Detail (lit "You do not have permission to perform this action.") |}).
Proof.
  apply (@put_without_profile Demo.builtins Demo.repr Demo.database 1 one_row
           {| req_user := Anonymous; data := summary_body |} 30).
  vm_compute. reflexivity.
Defined.

(** C5, as the specification states it, fails on the fifty-first PUT of an
    hour: user 3 owns no row, and the answer is 403, not 404. *)
Lemma rate_limited_put_without_profile :
  rows_of one_row 3 = [] /\
  @put Demo.builtins Demo.repr Demo.database 51 one_row
    {| req_user := Authenticated 3 (lit "d@e.f"); data := summary_body |} 30 =
    (one_row,
     {| status := 403;
        content := Detail (lit "You do not have permission to perform this action.") |}).
Proof. split; reflexivity. Qed.

End CvDataExample.

(** ** The rendering service: file names and the template catalog *)
Section Rendering.
Import Py Json External.
Context `{!Builtins} `{!Repr} `{!Engine}.

Lemma kept_in_filename_spec (c : N) :
  PdfServices.kept_in_filename c = true <->
  isalnum c = true \/ c = 46%N \/ c = 95%N \/ c = 45%N.
Proof.
  unfold PdfServices.kept_in_filename. rewrite orb_true_iff.
  change (lit "._-") with [46; 95; 45]%N. cbn -[N.eqb].
  destruct (N.eqb_spec 46 c), (N.eqb_spec 95 c), (N.eqb_spec 45 c);
    cbn -[N.eqb]; intuition (try congruence).
Qed.

(** The general rule of [get_suggested_filename]: for CV data whose
    [personal_info] is a dict (or is absent), the names default to [CV] and
    [Resume], and every character that is not kept is dropped. *)
Lemma suggested_filename_rule (d : list (str * json)) (info : list (str * json)) :
  default (JDict []) (assoc (lit "personal_info") d) = JDict info ->
  PdfServices.get_suggested_filename (JDict d) =
    List.filter PdfServices.kept_in_filename
      (py_str (default (JStr (lit "CV")) (assoc (lit "first_name") info)) ++ lit "_" ++
       py_str (default (JStr (lit "Resume")) (assoc (lit "last_name") info)) ++
       lit "_Resume.pdf").
Proof.
  intros Hinfo. unfold PdfServices.get_suggested_filename. simpl. by rewrite Hinfo.
Qed.

Lemma suggested_filename_john_doe :
  PdfServices.get_suggested_filename
    (JDict [ (lit "personal_info",
              JDict [ (lit "first_name", JStr (lit "John"));
                      (lit "last_name", JStr (lit "Doe")) ]) ])
  = lit "John_Doe_Resume.pdf".
Proof. reflexivity. Qed.

(** C4, at the input on which the code departs from the claim: for the
    empty CV data map the defaults [CV] and [Resume] are both used, and the
    result is [CV_Resume_Resume.pdf], not [CV_Resume.pdf]. *)
Theorem suggested_filename_of_empty_cv_data :
  PdfServices.get_suggested_filename (JDict []) = lit "CV_Resume_Resume.pdf".
Proof. reflexivity. Qed.

Lemma classic_0_in_catalog :
  assoc (lit "classic-0") Settings.CV_TEMPLATES = Some (snd Settings.classic_0).
Proof. reflexivity. Qed.

Lemma catalog_get_unknown (s : str) :
  assoc s Settings.CV_TEMPLATES = None ->
  PdfServices.catalog_get Settings.CV_TEMPLATES (JStr s) = Ok (snd Settings.classic_0).
Proof.
  intros Hs. unfold PdfServices.catalog_get. by rewrite classic_0_in_catalog, Hs.
Qed.

(** C10: a template name that is not a key of the catalog gets the entry
    of [classic-0] from both services, so the conversion of HTML to PDF
    loads the PDF settings of [classic-0] and goes on to the rendering
    engine: what it returns or raises is what the engine returns or
    raises, with the sheets and options of a single-column, non-archival
    template. *)
Theorem unknown_template_uses_classic_0 (s : str) :
  assoc s Settings.CV_TEMPLATES = None ->
  PdfServices.get_template_config (JStr s) = Ok (snd Settings.classic_0) /\
  EnhancedServices._get_template_config (JStr s) = Ok (snd Settings.classic_0) /\
  PdfServices.load_pdf_settings (JStr s) = Ok Settings.pdf_settings /\
  (forall html : str,
     PdfServices.html_to_pdf html (JStr s) =
       match write_pdf html
               match PdfServices.get_template_css (JStr s) with
               | [] => []
               | c :: css => [TemplateCss (c :: css)]
               end PdfServices.base_options with
       | Ok pdf => Ok pdf
       | Raise e =>
           Raise (PDFGenerationError (lit "Failed to convert HTML to PDF: " ++ exn_message e))
       end) /\
  (forall html : str,
     EnhancedServices._html_to_pdf_optimized html (JStr s) =
       write_pdf html
         (BaseCss ::
          match EnhancedServices._get_template_css (JStr s) with
          | [] => []
          | c :: css => [TemplateCss (c :: css)]
          end ++ [PrintCss false])
         (EnhancedServices.optimized_options false)).
Proof.
  intros Hs.
  pose proof (catalog_get_unknown s Hs) as Hget.
  assert (Hload : PdfServices.load_pdf_settings (JStr s) = Ok Settings.pdf_settings).
  { unfold PdfServices.load_pdf_settings, PdfServices.get_template_config.
    rewrite Hget. reflexivity. }
  repeat split; try done.
  - intros html. unfold PdfServices.html_to_pdf. rewrite Hload. simpl.
    by destruct (PdfServices.get_template_css (JStr s)).
  - intros html.
    unfold EnhancedServices._html_to_pdf_optimized, EnhancedServices._get_optimized_css,
      EnhancedServices._get_print_optimization_css, EnhancedServices._get_template_config.
    rewrite Hget. simpl.
    by destruct (EnhancedServices._get_template_css (JStr s)).
Qed.

End Rendering.

Module RenderingExample.
Import Py Json External.

Lemma unknown_template_uses_classic_0_witness :
  PdfServices.get_template_config (JStr (lit "unknown-template")) = Ok (snd Settings.classic_0).
Proof.
  apply (@unknown_template_uses_classic_0 Demo.builtins Demo.repr Demo.engine
           (lit "unknown-template")).
  reflexivity.
Defined.

End RenderingExample.

(** ** The order of keys and the sorted items of a dict *)
Section KeyOrder.
Import Py Json.

Lemma str_leb_refl (a : str) : str_leb a a = true.
Proof. induction a as [|x a IH]; simpl; [done|]. by rewrite N.ltb_irrefl. Qed.

Lemma str_leb_total (a b : str) : str_leb a b = true \/ str_leb b a = true.
Proof.
  revert b. induction a as [|x a IH]; intros [|y b]; simpl; auto.
  destruct (N.ltb_spec x y), (N.ltb_spec y x); auto.
Qed.

Lemma str_leb_antisym (a b : str) :
  str_leb a b = true -> str_leb b a = true -> a = b.
Proof.
  revert b. induction a as [|x a IH]; intros [|y b]; simpl; try done.
  destruct (N.ltb_spec x y), (N.ltb_spec y x); try done; try lia.
  intros Hab Hba. f_equal; [lia | by apply IH].
Qed.

Lemma str_leb_trans (a b c : str) :
  str_leb a b = true -> str_leb b c = true -> str_leb a c = true.
Proof.
  revert b c. induction a as [|x a IH]; intros [|y b] [|z c]; simpl; try done.
  destruct (N.ltb_spec x y), (N.ltb_spec y x), (N.ltb_spec y z), (N.ltb_spec z y),
    (N.ltb_spec x z), (N.ltb_spec z x); try done; try lia.
  apply IH.
Qed.

Lemma key_le_trans {V : Type} : Transitive (@key_le V).
Proof.
  intros a b c. unfold key_le. rewrite !Is_true_true. apply str_leb_trans.
Qed.

Lemma key_le_total {V : Type} : Total (@key_le V).
Proof.
  intros a b. unfold key_le. rewrite !Is_true_true. apply str_leb_total.
Qed.

(** In a list with distinct keys an item is determined by its key. *)
Lemma item_of_key {V : Type} (l : list (str * V)) (a b : str * V) :
  NoDup (map fst l) -> a ∈ l -> b ∈ l -> fst a = fst b -> a = b.
Proof.
  induction l as [|x l IH]; intros Hnd Ha Hb Hk; [by apply elem_of_nil in Ha|].
  simpl in Hnd. apply NoDup_cons in Hnd as [Hx Hnd].
  apply elem_of_cons in Ha as [->|Ha]; apply elem_of_cons in Hb as [->|Hb].
  - done.
  - exfalso. apply Hx. rewrite Hk. by apply (list_elem_of_fmap_2 fst).
  - exfalso. apply Hx. rewrite <- Hk. by apply (list_elem_of_fmap_2 fst).
  - by apply IH.
Qed.

(** The sorted items depend on the items only, not on their order. *)
Lemma sorted_items_permutation {V : Type} (l1 l2 : list (str * V)) :
  NoDup (map fst l2) -> l1 ≡ₚ l2 -> sorted_items l1 = sorted_items l2.
Proof.
  intros Hnd Hperm. unfold sorted_items.
  apply (StronglySorted_unique_strong key_le).
  - intros x1 x2 Hx1 Hx2 H12 H21.
    apply (item_of_key l2); [done | | |].
    + rewrite <- Hperm. by rewrite <- (merge_sort_Permutation key_le l1).
    + by rewrite <- (merge_sort_Permutation key_le l2).
    + unfold key_le in *. apply Is_true_true in H12, H21. by apply str_leb_antisym.
  - apply (@StronglySorted_merge_sort _ key_le _ key_le_trans key_le_total).
  - apply (@StronglySorted_merge_sort _ key_le _ key_le_trans key_le_total).
  - by rewrite !merge_sort_Permutation.
Qed.

Lemma assoc_elem_of {V : Type} (k : str) (v : V) (d : list (str * V)) :
  assoc k d = Some v -> (k, v) ∈ d.
Proof.
  induction d as [|[k' v'] d IH]; simpl; [done|].
  destruct (decide (k' = k)) as [->|_].
  - intros [= ->]. by left.
  - intros Hd. right. by apply IH.
Qed.

End KeyOrder.

(** ** The cache key of a generation *)
Section CacheKey.
Import Py Json External.
Context `{!Builtins}.

Lemma dumps_list (l : list json) :
  dumps (JList l) = lit "[" ++ join (lit ", ") (map dumps l) ++ lit "]".
Proof. reflexivity. Qed.

Lemma dumps_dict (d : list (str * json)) :
  dumps (JDict d) =
    lit "{" ++
    join (lit ", ")
      (map (fun kv : str * str => encode_basestring_ascii (fst kv) ++ lit ": " ++ snd kv)
         (sorted_items (map rendered d))) ++
    lit "}".
Proof. reflexivity. Qed.

Lemma wf_list (l : list json) :
  wf (JList l) = true <-> Forall (fun v => wf v = true) l.
Proof. simpl. rewrite forallb_forall, Forall_forall. by setoid_rewrite list_elem_of_In. Qed.

Lemma wf_dict (d : list (str * json)) :
  wf (JDict d) = true <->
  NoDup (map fst d) /\ Forall (fun kv => wf (snd kv) = true) d.
Proof.
  simpl. rewrite andb_true_iff, bool_decide_eq_true, forallb_forall, Forall_forall.
  setoid_rewrite list_elem_of_In.
  split; intros [Hnd Hall]; (split; [done|]); intros [k v] Hin; by apply (Hall (k, v)).
Qed.

Lemma eq_as_maps_dict (d1 d2 : list (str * json)) :
  eq_as_maps (JDict d1) (JDict d2) = true <->
  length d1 = length d2 /\
  Forall (fun kv => exists w, assoc (fst kv) d2 = Some w /\ eq_as_maps (snd kv) w = true) d1.
Proof.
  simpl. rewrite andb_true_iff, Nat.eqb_eq, forallb_forall, Forall_forall.
  setoid_rewrite list_elem_of_In.
  split; intros [Hlen Hall]; (split; [done|]); intros [k v] Hin; specialize (Hall (k, v) Hin);
    simpl in *.
  - destruct (assoc k d2) as [w|]; [eauto | done].
  - destruct Hall as (w & -> & Hw). done.
Qed.

Lemma rendered_keys (d : list (str * json)) : map fst (map rendered d) = map fst d.
Proof. induction d as [|[k v] d IH]; simpl; [done|]. by rewrite IH. Qed.

(** Documents that are equal as maps are serialised to the same text. *)
Lemma dumps_eq_as_maps (a : json) :
  forall b, wf a = true -> wf b = true -> eq_as_maps a b = true -> dumps a = dumps b.
Proof.
  induction a as [| x | x | x | x | l IH | d IH] using json_induction;
    intros b Hwa Hwb Heq.
  - by destruct b.
  - destruct b; try done. simpl in Heq. by apply bool_decide_eq_true in Heq as ->.
  - destruct b; try done. simpl in Heq. by apply Z.eqb_eq in Heq as ->.
  - destruct b; try done. simpl in Heq. by apply Z.eqb_eq in Heq as ->.
  - destruct b; try done. simpl in Heq. by apply bool_decide_eq_true in Heq as ->.
  - destruct b as [| | | | | l2 |]; try done.
    rewrite !dumps_list.
    assert (Hmap : map dumps l = map dumps l2); [|by rewrite Hmap].
    apply wf_list in Hwa, Hwb. simpl in Heq.
    revert l2 Hwb Heq.
    induction IH as [|x l Hx _ IHl]; intros [|y l2] Hwb Heq; try done.
    apply Forall_cons in Hwa as [Hwx Hwl], Hwb as [Hwy Hwl2].
    apply andb_true_iff in Heq as [Hxy Heq]. simpl. f_equal.
    + by apply Hx.
    + by apply IHl.
  - destruct b as [| | | | | | d2]; try done.
    rewrite !dumps_dict.
    assert (Hitems : sorted_items (map rendered d) = sorted_items (map rendered d2));
      [|by rewrite Hitems].
    apply wf_dict in Hwa as [Hnd1 Hw1], Hwb as [Hnd2 Hw2].
    apply eq_as_maps_dict in Heq as [Hlen Hall].
    apply sorted_items_permutation; [by rewrite rendered_keys|].
    apply submseteq_length_Permutation; [|by rewrite !length_map, Hlen].
    apply NoDup_submseteq.
    + apply (NoDup_fmap_1 fst). fold (map fst (map rendered d)). by rewrite rendered_keys.
    + intros [k s] Hks. apply list_elem_of_fmap in Hks as ([k' v] & [= -> ->] & Hin).
      rewrite Forall_forall in IH, Hall, Hw1, Hw2.
      destruct (Hall (k', v) Hin) as (w & Hw & Hvw). simpl in *.
      apply assoc_elem_of in Hw.
      pose proof (IH (k', v) Hin w (Hw1 (k', v) Hin) (Hw2 (k', w) Hw) Hvw) as Hdumps.
      simpl in Hdumps. rewrite Hdumps.
      by apply (list_elem_of_fmap_2 rendered _ (k', w)).
Qed.

End CacheKey.

(** ** Cached generation *)
Section CachedGeneration.
Import Py Json External EnhancedServices.
Context `{!Builtins} `{!Repr} `{!Engine} `{!Hashlib}.

Lemma key_document_wf (cv_data visibility template_name : json) :
  wf cv_data = true -> wf visibility = true -> wf template_name = true ->
  wf (key_document cv_data visibility template_name) = true.
Proof.
  intros Hcv Hvis Hname. apply wf_dict. split.
  - change (NoDup [lit "cv_data"; lit "visibility"; lit "template_name"]).
    apply (bool_decide_unpack _). by vm_compute.
  - by repeat constructor.
Qed.

(** The key does not depend on the order in which the keys of the
    documents were inserted. *)
Lemma cache_key_eq_as_maps (cv vis name cv' vis' name' : json) :
  wf cv = true -> wf vis = true -> wf name = true ->
  wf cv' = true -> wf vis' = true -> wf name' = true ->
  eq_as_maps cv cv' = true -> eq_as_maps vis vis' = true ->
  eq_as_maps name name' = true ->
  _generate_cache_key cv vis name = _generate_cache_key cv' vis' name'.
Proof.
  intros Hw1 Hw2 Hw3 Hw1' Hw2' Hw3' He1 He2 He3.
  unfold _generate_cache_key. do 2 f_equal.
  apply (dumps_eq_as_maps (key_document cv vis name) (key_document cv' vis' name')).
  - by apply key_document_wf.
  - by apply key_document_wf.
  - apply eq_as_maps_dict. split; [done|].
    repeat constructor; eexists; (split; [reflexivity | done]).
Qed.

(** A miss: the PDF is generated once, stored under the key, and returned
    with [was_cached = False]. *)
Lemma generate_pdf_with_cache_miss (timeout : Z) (c : Cache.cache) (t_get t_set : Z)
    (cv vis name : json) (pdf : list N) :
  Cache.get c t_get (_generate_cache_key cv vis name) = None ->
  _generate_pdf_sync cv vis name = Ok pdf ->
  generate_pdf_with_cache timeout c t_get t_set cv vis name =
    {| cache_after :=
         Cache.set c t_set (_generate_cache_key cv vis name) (Cache.CBytes pdf) timeout;
       generations := [(cv, vis, name)];
       returned := Ok (Cache.CBytes pdf, false) |}.
Proof.
  intros Hmiss Hgen. unfold generate_pdf_with_cache. by rewrite Hmiss, Hgen.
Qed.

(** A hit: the stored bytes are returned with [was_cached = True]; nothing
    is generated and the cache is left as it was. *)
Lemma generate_pdf_with_cache_hit (timeout : Z) (c : Cache.cache) (t_get t_set : Z)
    (cv vis name : json) (pdf : list N) :
  Cache.get c t_get (_generate_cache_key cv vis name) = Some (Cache.CBytes pdf) ->
  pdf <> [] ->
  generate_pdf_with_cache timeout c t_get t_set cv vis name =
    {| cache_after := c; generations := []; returned := Ok (Cache.CBytes pdf, true) |}.
Proof.
  intros Hhit Hpdf. unfold generate_pdf_with_cache. rewrite Hhit. simpl.
  by rewrite bool_decide_eq_false_2.
Qed.

(** The text that is hashed: the three arguments under their names, the
    names in sorted order. *)
Lemma key_document_dumps (cv vis name : json) :
  dumps (key_document cv vis name) =
    lit "{" ++ [34%N] ++ lit "cv_data" ++ [34%N] ++ lit ": " ++ dumps cv ++ lit ", " ++
    [34%N] ++ lit "template_name" ++ [34%N] ++ lit ": " ++ dumps name ++ lit ", " ++
    [34%N] ++ lit "visibility" ++ [34%N] ++ lit ": " ++ dumps vis ++ lit "}".
Proof.
  unfold key_document. rewrite dumps_dict.
  change (map rendered [ (lit "cv_data", cv); (lit "visibility", vis);
                         (lit "template_name", name) ])
    with [ (lit "cv_data", dumps cv); (lit "visibility", dumps vis);
           (lit "template_name", dumps name) ].
  generalize (dumps cv) (dumps vis) (dumps name). intros a b c0.
  assert (Hsorted : sorted_items [ (lit "cv_data", a); (lit "visibility", b);
                                   (lit "template_name", c0) ] =
                    [ (lit "cv_data", a); (lit "template_name", c0);
                      (lit "visibility", b) ]) by (by vm_compute).
  rewrite Hsorted. cbn [map join fst snd].
  change (encode_basestring_ascii (lit "cv_data")) with ([34%N] ++ lit "cv_data" ++ [34%N]).
  change (encode_basestring_ascii (lit "template_name"))
    with ([34%N] ++ lit "template_name" ++ [34%N]).
  change (encode_basestring_ascii (lit "visibility"))
    with ([34%N] ++ lit "visibility" ++ [34%N]).
  by rewrite <- !app_assoc.
Qed.

(** C3: the cache key is [pdf_cache:] followed by the SHA-256 hex digest
    of the JSON text of the three arguments under their names, the keys of
    every object in sorted order:
    [{"cv_data": <cv_data>, "template_name": <template_name>,
    "visibility": <visibility>}].  So two calls whose arguments are equal
    as maps share their key, whatever the order of their keys.  When the
    first call finds nothing cached and generates a (non-empty) PDF, it
    returns it with [was_cached = False] and stores it; a second call with
    arguments equal as maps, made before the entry expires, returns the
    stored bytes with [was_cached = True], starts no generation and leaves
    the cache as it is. *)
Theorem cached_generation (timeout : Z) (c : Cache.cache) (t1 t1' t2 t2' : Z)
    (cv vis name cv' vis' name' : json) (pdf : list N) :
  wf cv = true -> wf vis = true -> wf name = true ->
  wf cv' = true -> wf vis' = true -> wf name' = true ->
  eq_as_maps cv cv' = true -> eq_as_maps vis vis' = true ->
  eq_as_maps name name' = true ->
  Cache.get c t1 (_generate_cache_key cv vis name) = None ->
  _generate_pdf_sync cv vis name = Ok pdf ->
  pdf <> [] ->
  t2 < Cache.backend_timeout t1' timeout ->
  let key := _generate_cache_key cv vis name in
  let first := generate_pdf_with_cache timeout c t1 t1' cv vis name in
  let second := generate_pdf_with_cache timeout (cache_after first) t2 t2' cv' vis' name' in
  key = lit "pdf_cache:" ++
        sha256_hexdigest
          (lit "{" ++ [34%N] ++ lit "cv_data" ++ [34%N] ++ lit ": " ++ dumps cv ++
           lit ", " ++ [34%N] ++ lit "template_name" ++ [34%N] ++ lit ": " ++ dumps name ++
           lit ", " ++ [34%N] ++ lit "visibility" ++ [34%N] ++ lit ": " ++ dumps vis ++
           lit "}") /\
  _generate_cache_key cv' vis' name' = key /\
  returned first = Ok (Cache.CBytes pdf, false) /\
  generations first = [(cv, vis, name)] /\
  cache_after first !! key =
    Some {| Cache.value := Cache.CBytes pdf;
            Cache.expires := Cache.backend_timeout t1' timeout |} /\
  returned second = Ok (Cache.CBytes pdf, true) /\
  generations second = [] /\
  cache_after second = cache_after first.
Proof.
  intros Hw1 Hw2 Hw3 Hw1' Hw2' Hw3' He1 He2 He3 Hmiss Hgen Hpdf Hlive key first second.
  assert (Hkey : _generate_cache_key cv' vis' name' = key).
  { symmetry. by apply cache_key_eq_as_maps. }
  assert (Hfirst : first =
            {| cache_after := Cache.set c t1' key (Cache.CBytes pdf) timeout;
               generations := [(cv, vis, name)];
               returned := Ok (Cache.CBytes pdf, false) |}).
  { by apply generate_pdf_with_cache_miss. }
  assert (Hsecond : second =
            {| cache_after := cache_after first; generations := [];
               returned := Ok (Cache.CBytes pdf, true) |}).
  { apply generate_pdf_with_cache_hit; [|done].
    rewrite Hkey, Hfirst. simpl. unfold Cache.get, Cache.set.
    rewrite lookup_insert_eq. simpl.
    by destruct (Z.leb_spec (Cache.backend_timeout t1' timeout) t2); [lia|]. }
  rewrite Hsecond, Hfirst. simpl. unfold Cache.set. rewrite lookup_insert_eq.
  repeat split; try done.
  unfold key, _generate_cache_key. by rewrite key_document_dumps.
Qed.

End CachedGeneration.

(** An instance of C3: the same CV data with its keys in two orders. *)
Module CachedGenerationExample.
Import Py Json External EnhancedServices Examples.CachedGeneration.

Lemma cached_generation_witness :
  let first :=
    @generate_pdf_with_cache Demo.builtins Demo.repr Demo.engine Demo.hashlib 3600
      empty_cache 100 200
      cv_data visibility (JStr (lit "classic-0")) in
  let second :=
    @generate_pdf_with_cache Demo.builtins Demo.repr Demo.engine Demo.hashlib 3600
      (cache_after first) 5000000 5000100
      cv_data_reordered visibility (JStr (lit "classic-0")) in
  returned first = Ok (Cache.CBytes pdf, false) /\
  returned second = Ok (Cache.CBytes pdf, true) /\
  generations second = [].
Proof.
  intros first second.
  destruct (@cached_generation Demo.builtins Demo.repr Demo.engine Demo.hashlib
              3600 empty_cache 100 200 5000000 5000100
              cv_data visibility (JStr (lit "classic-0"))
              cv_data_reordered visibility (JStr (lit "classic-0")) pdf
              eq_refl eq_refl eq_refl eq_refl eq_refl eq_refl eq_refl eq_refl eq_refl
              ltac:(vm_compute; reflexivity) ltac:(vm_compute; reflexivity)
              ltac:(done) ltac:(vm_compute; reflexivity))
    as (_ & _ & Hfirst & _ & _ & Hsecond & Hnone & _).
  exact (conj Hfirst (conj Hsecond Hnone)).
Defined.

End CachedGenerationExample.

(** ** Batch generation *)
Section Batch.
Import Py Json External EnhancedServices.
Context `{!Builtins} `{!Repr} `{!Engine}.

Lemma submit_all_length (requests : list json) (futures : list (json * json * json)) :
  submit_all requests = Ok futures -> length futures = length requests.
Proof.
  revert futures. induction requests as [|r requests IH]; intros futures; simpl.
  - by intros [= <-].
  - destruct (batch_arguments r) as [args|]; [|done]. simpl.
    destruct (submit_all requests) as [fs|]; [|done]. simpl.
    intros [= <-]. simpl. f_equal. by apply IH.
Qed.

(** Collected in submission order, the slots are the outcomes of the
    futures one by one. *)
Lemma slots_in_submission_order (pre futures : list (json * json * json)) :
  seq (length pre) (length futures) ≫= slot_of (pre ++ futures) = collect <$> futures.
Proof.
  revert pre. induction futures as [|args futures IH]; intros pre; [done|].
  cbn [length seq]. rewrite bind_cons. unfold slot_of at 1.
  rewrite list_lookup_middle by done. cbn [app fmap list_fmap]. f_equal.
  specialize (IH (pre ++ [args])).
  rewrite length_app, Nat.add_1_r, <- app_assoc in IH. exact IH.
Qed.

(** Collected in any order, every position holds the outcome of the
    future that completed at that position. *)
Lemma slots_in_completion_order (futures : list (json * json * json))
    (completion : list nat) :
  Forall (fun i => (i < length futures)%nat) completion ->
  length (completion ≫= slot_of futures) = length completion /\
  (forall p i, completion !! p = Some i ->
     exists args, futures !! i = Some args /\
                  (completion ≫= slot_of futures) !! p = Some (collect args)).
Proof.
  induction 1 as [|i completion Hi _ [IHlen IHslot]]; [by split|].
  apply lookup_lt_is_Some_2 in Hi as [args Hargs].
  rewrite bind_cons. unfold slot_of at 1 3. rewrite Hargs. simpl. split.
  - by rewrite IHlen.
  - intros [|p] j Hp; simpl in *.
    + injection Hp as <-. eauto.
    + by apply IHslot.
Qed.

(** C7: when every request of a batch of [N] can be submitted (each is a
    dict with [cv_data] and [visibility]), [generate_pdf_batch] returns [N]
    slots, whatever the generations do and in whatever order they
    complete.  The slot of a request is the position at which its future
    completes: it holds the null placeholder when the generation raised
    and the PDF bytes when it returned; read together, the slots are the
    outcomes of the [N] requests in completion order. *)
Theorem batch_partial_failure (requests : list json)
    (futures : list (json * json * json)) (completion : list nat) :
  submit_all requests = Ok futures ->
  completion ≡ₚ seq 0 (length requests) ->
  exists results,
    generate_pdf_batch requests completion = Ok results /\
    length results = length requests /\
    results ≡ₚ collect <$> futures /\
    (forall i cv_data visibility template_name,
       futures !! i = Some (cv_data, visibility, template_name) ->
       exists p, completion !! p = Some i /\
         results !! p =
           Some match _generate_pdf_sync cv_data visibility template_name with
                | Ok pdf => Some pdf
                | Raise _ => None
                end).
Proof.
  intros Hsubmit Hperm.
  pose proof (submit_all_length _ _ Hsubmit) as Hlen.
  assert (Hrange : Forall (fun i => (i < length futures)%nat) completion).
  { rewrite Hperm, Hlen. apply Forall_forall. intros i Hi.
    apply elem_of_seq in Hi. lia. }
  destruct (slots_in_completion_order futures completion Hrange) as [Hslots Hslot].
  exists (completion ≫= slot_of futures). repeat split.
  - unfold generate_pdf_batch. by rewrite Hsubmit.
  - rewrite Hslots, Hperm. apply length_seq.
  - rewrite Hperm, <- Hlen.
    pose proof (slots_in_submission_order [] futures) as Hordered.
    simpl in Hordered. by rewrite Hordered.
  - intros i cv_data visibility template_name Hi.
    assert (Hin : i ∈ completion).
    { rewrite Hperm, <- Hlen. apply elem_of_seq.
      apply lookup_lt_Some in Hi. lia. }
    apply list_elem_of_lookup in Hin as [p Hp].
    exists p. split; [done|].
    destruct (Hslot p i Hp) as (args & Hargs & Hres).
    rewrite Hres. by simplify_eq.
Qed.

End Batch.

(** An instance of C7: three requests, the second of which fails (its
    [cv_data] is not a dict), completing in the order third, first,
    second. *)
Module BatchExample.
Import Py Json External EnhancedServices Examples.Batch.

Lemma batch_partial_failure_witness :
  exists results,
    @generate_pdf_batch Demo.builtins Demo.repr Demo.engine batch [2; 0; 1]%nat = Ok results /\
    length results = 3%nat /\
    results ≡ₚ @collect Demo.builtins Demo.repr Demo.engine <$> arguments.
Proof.
  destruct (@batch_partial_failure Demo.builtins Demo.repr Demo.engine batch arguments
              [2; 0; 1]%nat eq_refl (Permutation_cons_append [0; 1]%nat 2%nat))
    as (results & Hrun & Hlen & Hperm & _).
  exists results. by repeat split.
Defined.

(** The run itself: the failing request is the second one submitted and
    the last to complete, so the placeholder is in the last slot. *)
Example batch_run :
  @generate_pdf_batch Demo.builtins Demo.repr Demo.engine batch [2; 0; 1]%nat =
    Ok [ Some (lit "%PDF-1.7<html></html>"); Some (lit "%PDF-1.7<html></html>"); None ].
Proof. vm_compute. reflexivity. Qed.

End BatchExample.

(** ** Static assets *)
Section StaticAssets.
Import Py StaticViews.
Context `{!Builtins}.

(** C8: a requested path that contains [..] or starts with [/] is answered
    not-found, on every host: the answer does not depend on the files on
    disk, and the file system is not consulted. *)
Theorem static_asset_traversal_guard (h : host) (path : str) :
  contains path (lit "..") = true \/ startswith path (lit "/") = true ->
  get h path = ([], Http404 (lit "Invalid path")).
Proof.
  intros Hbad. unfold get.
  assert (Hguard : contains path (lit "..") || startswith path (lit "/") = true).
  { apply orb_true_iff. exact Hbad. }
  by rewrite Hguard.
Qed.

(** A path that passes the guard has no [..] in it and is relative, and
    the first thing the view does is to look for the file. *)
Lemma static_asset_guard_passed (h : host) (path : str) :
  contains path (lit "..") = false -> startswith path (lit "/") = false ->
  exists calls answer,
    get h path =
      (Exists (os_path_join (os_path_join (CLIENT_BUILD_DIR h) (lit "assets")) path) :: calls,
       answer).
Proof.
  intros H1 H2. unfold get. rewrite H1, H2. simpl orb. cbv iota.
  destruct (exists_ h _); simpl; [|eauto].
  destruct (isfile h _); simpl; [|eauto].
  destruct (read h _); eauto.
Qed.

End StaticAssets.

(** An instance of C8 on a host where every path exists and is readable. *)
Module StaticAssetsExample.
Import Py StaticViews Examples.StaticAssets.

Lemma static_asset_traversal_guard_witness :
  @get Demo.builtins permissive_host (lit "../../etc/passwd") =
    ([], Http404 (lit "Invalid path")).
Proof.
  apply (@static_asset_traversal_guard Demo.builtins permissive_host (lit "../../etc/passwd")).
  left. reflexivity.
Defined.

End StaticAssetsExample.

(** ** Template helpers: dates *)
Section DateFormatting.
Import Py Json CvFilters.
Context `{!Builtins} `{!Repr} {D : Type} `{!Datetime D}.

(** C9: a falsy input gives the empty string.  For a date, [M Y] is
    formatted with [%b %Y], [Y] with [%Y], [M d, Y] with [%b %d, %Y], and
    any other string is handed to [strftime] as it is; when [strftime]
    raises, the result is [str] of the date.  A true value that is not a
    date has no [strftime], so the result is [str] of the value. *)
Theorem format_date_behaviour :
  (forall (v : value D) (fmt : str), value_truthy v = false -> format_date v fmt = []) /\
  (forall d : D, format_date (VDate d) (lit "M Y") = formatted d (lit "%b %Y")) /\
  (forall d : D, format_date (VDate d) (lit "Y") = formatted d (lit "%Y")) /\
  (forall d : D, format_date (VDate d) (lit "M d, Y") = formatted d (lit "%b %d, %Y")) /\
  (forall (d : D) (fmt : str),
     fmt <> lit "M Y" -> fmt <> lit "Y" -> fmt <> lit "M d, Y" ->
     format_date (VDate d) fmt = formatted d fmt) /\
  (forall (j : json) (fmt : str),
     truthy j = true -> format_date (VJson j) fmt = py_str j).
Proof.
  split_and!.
  - intros v fmt Hv. unfold format_date. by rewrite Hv.
  - intros d. reflexivity.
  - intros d. reflexivity.
  - intros d. reflexivity.
  - intros d fmt H1 H2 H3. unfold format_date, formatted. simpl.
    by rewrite !bool_decide_eq_false_2.
  - intros j fmt Hj. unfold format_date. simpl. rewrite Hj. simpl.
    by repeat case_bool_decide.
Qed.

End DateFormatting.

(** ** The CV data API: merging, replacing, isolation *)
Section CvDataMore.
Import Py Json CvBuilder Vocabulary.
Context `{!Builtins} `{!Repr} `{!Database}.

Lemma assoc_dict_set_eq {V : Type} (k : str) (v : V) (d : list (str * V)) :
  assoc k (dict_set k v d) = Some v.
Proof.
  induction d as [|[k' v'] d IH]; simpl.
  - by rewrite decide_True.
  - destruct (decide (k' = k)) as [->|Hne]; simpl.
    + by rewrite decide_True.
    + by rewrite decide_False.
Qed.

Lemma assoc_dict_set_ne {V : Type} (k k0 : str) (v : V) (d : list (str * V)) :
  k0 <> k -> assoc k (dict_set k0 v d) = assoc k d.
Proof.
  intros Hne. induction d as [|[k' v'] d IH]; simpl.
  - by rewrite decide_False.
  - destruct (decide (k' = k0)) as [->|Hne']; simpl.
    + by rewrite !decide_False.
    + destruct (decide (k' = k)); [done | exact IH].
Qed.

Lemma assoc_not_key {V : Type} (k : str) (d : list (str * V)) :
  k ∉ map fst d -> assoc k d = None.
Proof.
  induction d as [|[k' v'] d IH]; simpl; [done|].
  intros Hk. apply not_elem_of_cons in Hk as [Hne Hk].
  rewrite decide_False by done. by apply IH.
Qed.

(** Reading a dict after [update]: the other dict's value wins. *)
Lemma assoc_dict_update (d other : list (str * json)) (k : str) :
  NoDup (map fst other) ->
  assoc k (dict_update d other) = merged_lookup d other k.
Proof.
  unfold dict_update, merged_lookup. revert d.
  induction other as [|[k1 v1] other IH]; intros d Hnd; simpl; [done|].
  apply NoDup_cons in Hnd as [Hk1 Hnd]. rewrite IH by done.
  destruct (decide (k1 = k)) as [->|Hne].
  - by rewrite assoc_not_key, assoc_dict_set_eq.
  - by rewrite assoc_dict_set_ne.
Qed.

(** The keys of a dict after an item is set. *)
Lemma dict_set_keys {V : Type} (k x : str) (v : V) (d : list (str * V)) :
  x ∈ map fst (dict_set k v d) -> x = k \/ x ∈ map fst d.
Proof.
  induction d as [|[k' v'] d IH]; simpl.
  - intros Hx. apply elem_of_cons in Hx as [->|Hx]; [by left|].
    by apply elem_of_nil in Hx.
  - destruct (decide (k' = k)) as [->|Hne]; simpl.
    + intros Hx. by right.
    + intros Hx. apply elem_of_cons in Hx as [->|Hx]; [right; by left|].
      destruct (IH Hx) as [->|Hd]; [by left|]. right. by right.
Qed.

Lemma dict_set_nodup {V : Type} (k : str) (v : V) (d : list (str * V)) :
  NoDup (map fst d) -> NoDup (map fst (dict_set k v d)).
Proof.
  induction d as [|[k' v'] d IH]; simpl; intros Hnd.
  - apply NoDup_singleton.
  - apply NoDup_cons in Hnd as [Hk' Hnd].
    destruct (decide (k' = k)) as [->|Hne]; simpl.
    + by apply NoDup_cons.
    + apply NoDup_cons. split; [|by apply IH].
      intros Hin. apply dict_set_keys in Hin as [?|?]; done.
Qed.

Lemma dict_update_nodup {V : Type} (d other : list (str * V)) :
  NoDup (map fst d) -> NoDup (map fst (dict_update d other)).
Proof.
  unfold dict_update. revert d.
  induction other as [|[k v] other IH]; intros d Hnd; simpl; [done|].
  apply IH. by apply dict_set_nodup.
Qed.

Lemma dict_set_new {V : Type} (k : str) (v : V) (d : list (str * V)) :
  k ∉ map fst d -> dict_set k v d = d ++ [(k, v)].
Proof.
  induction d as [|[k' v'] d IH]; simpl; [done|].
  intros Hk. apply not_elem_of_cons in Hk as [Hne Hk].
  rewrite decide_False by done. by rewrite IH.
Qed.

Lemma dict_update_new {V : Type} (d other : list (str * V)) :
  NoDup (map fst other) ->
  (forall k, k ∈ map fst other -> k ∉ map fst d) ->
  dict_update d other = d ++ other.
Proof.
  unfold dict_update. revert d.
  induction other as [|[k v] other IH]; intros d Hnd Hnew; simpl.
  - by rewrite app_nil_r.
  - apply NoDup_cons in Hnd as [Hk Hnd].
    rewrite dict_set_new by (apply Hnew; by left).
    rewrite IH; [by rewrite <- app_assoc|done|].
    intros x Hx. rewrite map_app. intros Hin. apply elem_of_app in Hin as [Hin|Hin].
    + apply (Hnew x); [by right|done].
    + simpl in Hin. apply elem_of_cons in Hin as [->|Hin]; [done|].
      by apply elem_of_nil in Hin.
Qed.

(** A dict with string keys in memory: setting and updating it is setting
    and updating the document, and saving it gives the document back. *)
Lemma key_set_in_memory (k : str) (v : json) (d : list (str * json)) :
  key_set (KStr k) v (in_memory d) = in_memory (dict_set k v d).
Proof.
  induction d as [|[k' v'] d IH]; [done|].
  change (in_memory ((k', v') :: d)) with ((KStr k', v') :: in_memory d).
  cbn [key_set key_eqb dict_set].
  destruct (decide (k' = k)) as [->|Hne].
  - by rewrite bool_decide_eq_true_2.
  - rewrite bool_decide_eq_false_2 by done. by rewrite IH.
Qed.

Lemma key_update_in_memory (d other : list (str * json)) :
  key_update (in_memory d) (in_memory other) = in_memory (dict_update d other).
Proof.
  unfold key_update, dict_update. revert d.
  induction other as [|[k v] other IH]; intros d; simpl; [done|].
  rewrite key_set_in_memory. apply IH.
Qed.

Lemma saved_dict_in_memory (d : list (str * json)) :
  NoDup (map fst d) -> saved_dict (in_memory d) = d.
Proof.
  intros Hnd. unfold saved_dict, in_memory. rewrite <- list_fmap_compose.
  assert (Hid : (fun kv : key * json => (key_text (fst kv), snd kv))
                  ∘ (fun kv : str * json => (KStr (fst kv), snd kv)) <$> d = d).
  { clear Hnd. induction d as [|[k v] d IH]; [done|]. cbn. by rewrite IH. }
  rewrite Hid. rewrite dict_update_new; [done|done|].
  intros k _ Hin. by apply elem_of_nil in Hin.
Qed.

(** Writing at an identifier whose row, if any, is not of user [v] does
    not change the rows of [v]. *)
Lemma rows_of_insert_other (tbl : gmap N CVProfile) (id : N) (p : CVProfile) (v : Z) :
  user_id p <> v ->
  (forall q, tbl !! id = Some q -> user_id q <> v) ->
  rows_of (<[id := p]> tbl) v = rows_of tbl v.
Proof.
  intros Hp Hq. unfold rows_of. by rewrite map_filter_insert_not'.
Qed.

Lemma rows_of_delete_other (tbl : gmap N CVProfile) (id : N) (v : Z) :
  (forall q, tbl !! id = Some q -> user_id q <> v) ->
  rows_of (base.delete id tbl) v = rows_of tbl v.
Proof.
  intros Hq. unfold rows_of. by rewrite map_filter_delete_not.
Qed.

Lemma rows_of_delete_same (tbl : gmap N CVProfile) (uid : Z) (id : N) (p : CVProfile) :
  rows_of tbl uid = [(id, p)] -> rows_of (base.delete id tbl) uid = [].
Proof.
  intros Hrows. apply rows_of_single in Hrows as (Hf & _ & _).
  unfold rows_of. rewrite map_filter_delete, Hf, delete_singleton_eq.
  apply map_to_list_empty.
Qed.

(** The table a POST leaves: the old one, the old one with a new row of
    the acting user at a fresh identifier, or the old one with the acting
    user's only row rewritten. *)
Lemma post_table_cases (count : Z) (tbl : gmap N CVProfile) (r : request)
    (new_id : N) (now : Z) :
  fst (post count tbl r new_id now) = tbl \/
  (exists row, rows_of tbl (acting_user_id r) = [] /\ tbl !! new_id = None /\
     user_id row = acting_user_id r /\
     fst (post count tbl r new_id now) = <[new_id := row]> tbl) \/
  (exists id p row, rows_of tbl (acting_user_id r) = [(id, p)] /\
     user_id row = acting_user_id r /\
     fst (post count tbl r new_id now) = <[id := row]> tbl).
Proof.
  unfold post, ratelimit.
  destruct (50 <? count); [by left|].
  destruct (get_method (data r) (lit "cv_data") JNull) as [cv|]; [|by left].
  destruct (get_method (data r) (lit "visibility") (JDict [])) as [vis|]; [|by left].
  destruct (get_method (data r) (lit "selected_template") (JStr (lit "classic-0")))
    as [sel|]; [|by left].
  destruct (negb (truthy cv)); [by left|].
  unfold get_or_create, objects_get.
  destruct (rows_of tbl (acting_user_id r)) as [|[id p] [|row rows]] eqn:Hrows.
  - destruct (written_row _ _ _ _ _) as [row|] eqn:Hrow; [|by left].
    destruct (tbl !! new_id) eqn:Hnew; [by left|].
    apply written_row_written in Hrow as [Hrow _].
    right. left. exists row. split_and!; try done.
    + by rewrite Hrow.
    + by destruct (user_email r).
  - pose proof (rows_of_single _ _ _ _ Hrows) as (_ & _ & Hu).
    destruct (written_row _ _ _ _ _) as [row|] eqn:Hrow; [|by left].
    apply written_row_written in Hrow as [Hrow _].
    right. right. exists id, p, row. split_and!; try done.
    + rewrite Hrow. simpl. done.
    + by destruct (user_email r).
  - by left.
Qed.

Lemma put_table_cases (count : Z) (tbl : gmap N CVProfile) (r : request) (now : Z) :
  fst (put count tbl r now) = tbl \/
  (exists id p row, rows_of tbl (acting_user_id r) = [(id, p)] /\
     user_id row = acting_user_id r /\ fst (put count tbl r now) = <[id := row]> tbl).
Proof.
  unfold put, ratelimit, objects_get.
  destruct (50 <? count); [by left|].
  destruct (rows_of tbl (acting_user_id r)) as [|[id p] [|row rows]] eqn:Hrows;
    [by left | | by left].
  pose proof (rows_of_single _ _ _ _ Hrows) as (_ & _ & Hu).
  match goal with |- context [match ?u with Ok _ => _ | Raise _ => _ end] =>
    destruct u as [[content template]|] end; [|by left].
  destruct (written_row _ _ _ _ _) as [row|] eqn:Hrow; [|by left].
  apply written_row_written in Hrow as [Hrow _].
  right. exists id, p, row. split_and!; try done.
  - rewrite Hrow. simpl. done.
  - by destruct (user_email r).
Qed.

Lemma delete_table_cases (tbl : gmap N CVProfile) (r : request) :
  fst (delete tbl r) = tbl \/
  (exists id p, rows_of tbl (acting_user_id r) = [(id, p)] /\
     fst (delete tbl r) = base.delete id tbl).
Proof.
  unfold delete, objects_get.
  destruct (rows_of tbl (acting_user_id r)) as [|[id p] [|row rows]] eqn:Hrows;
    [by left | | by left].
  right. exists id, p. split; [done|]. by destruct (user_email r).
Qed.

(** The only row of a user is the only row under its identifier. *)
Lemma single_row_owner (tbl : gmap N CVProfile) (uid v : Z) (id : N) (p : CVProfile) :
  rows_of tbl uid = [(id, p)] -> uid <> v ->
  forall q, tbl !! id = Some q -> user_id q <> v.
Proof.
  intros Hrows Hne q Hq. apply rows_of_single in Hrows as (_ & Hp & Hu). congruence.
Qed.

Lemma other_rows_unchanged (count count' : Z) (tbl : gmap N CVProfile) (r : request)
    (new_id : N) (now : Z) (v : Z) :
  v <> acting_user_id r ->
  tbl !! new_id = None ->
  rows_of (fst (post count tbl r new_id now)) v = rows_of tbl v /\
  rows_of (fst (put count' tbl r now)) v = rows_of tbl v /\
  rows_of (fst (delete tbl r)) v = rows_of tbl v.
Proof.
  intros Hv Hfresh. split_and!.
  - destruct (post_table_cases count tbl r new_id now)
      as [-> | [(row & _ & _ & Hu & ->) | (id & p & row & Hrows & Hu & ->)]]; [done| |].
    + apply rows_of_insert_other; [congruence|]. intros q Hq. congruence.
    + apply rows_of_insert_other; [congruence|].
      by apply (single_row_owner tbl (acting_user_id r) v id p).
  - destruct (put_table_cases count' tbl r now)
      as [-> | (id & p & row & Hrows & Hu & ->)]; [done|].
    apply rows_of_insert_other; [congruence|].
    by apply (single_row_owner tbl (acting_user_id r) v id p).
  - destruct (delete_table_cases tbl r) as [-> | (id & p & Hrows & ->)]; [done|].
    apply rows_of_delete_other.
    by apply (single_row_owner tbl (acting_user_id r) v id p).
Qed.

(** X1: A POST, a PUT or a DELETE changes the rows of one user id only,
    the id the caller acts under: the caller's own id, or 1 for a caller
    without identity.  The rows of every other id stay as they are; the
    rows of user 1 are therefore open to every caller without identity,
    whose DELETE removes the profile of user 1. *)
Theorem writes_change_the_acting_user_only (count count' : Z) (tbl : gmap N CVProfile)
    (r : request) (new_id : N) (now : Z) :
  tbl !! new_id = None ->
  (forall v, v <> acting_user_id r ->
     rows_of (fst (post count tbl r new_id now)) v = rows_of tbl v /\
     rows_of (fst (put count' tbl r now)) v = rows_of tbl v /\
     rows_of (fst (delete tbl r)) v = rows_of tbl v) /\
  (forall id email, req_user r = Authenticated id email -> acting_user_id r = id) /\
  (req_user r = Anonymous ->
     acting_user_id r = 1 /\
     forall id p, rows_of tbl 1 = [(id, p)] -> rows_of (fst (delete tbl r)) 1 = []).
Proof.
  intros Hfresh. split_and!.
  - intros v Hv. by apply other_rows_unchanged.
  - intros id email Hu. unfold acting_user_id. by rewrite Hu.
  - intros Hanon.
    assert (Huid : acting_user_id r = 1) by (unfold acting_user_id; by rewrite Hanon).
    split; [done|]. intros id p Hrows.
    unfold delete, objects_get. rewrite Huid, Hrows.
    destruct (user_email r); cbn [fst]; by apply (rows_of_delete_same _ _ _ p).
Qed.

(** X2: One profile per user is kept by the views, although the table does not
    enforce it: when no user owns more than one row, none does after a
    POST, a PUT or a DELETE. *)
Theorem one_row_per_user_is_kept (count count' : Z) (tbl : gmap N CVProfile) (r : request)
    (new_id : N) (now : Z) :
  (forall v, (length (rows_of tbl v) <= 1)%nat) ->
  tbl !! new_id = None ->
  forall v,
    (length (rows_of (fst (post count tbl r new_id now)) v) <= 1)%nat /\
    (length (rows_of (fst (put count' tbl r now)) v) <= 1)%nat /\
    (length (rows_of (fst (delete tbl r)) v) <= 1)%nat.
Proof.
  intros Hone Hfresh v.
  destruct (decide (v = acting_user_id r)) as [->|Hv].
  - split_and!.
    + destruct (post_table_cases count tbl r new_id now)
        as [-> | [(row & Hnone & _ & Hu & ->) | (id & p & row & Hrows & Hu & ->)]]; [done| |].
      * by rewrite (rows_of_insert_new _ _ _ _ Hnone Hu).
      * by rewrite (rows_of_insert_same _ _ _ _ _ Hrows Hu).
    + destruct (put_table_cases count' tbl r now)
        as [-> | (id & p & row & Hrows & Hu & ->)]; [done|].
      by rewrite (rows_of_insert_same _ _ _ _ _ Hrows Hu).
    + destruct (delete_table_cases tbl r) as [-> | (id & p & Hrows & ->)]; [done|].
      rewrite (rows_of_delete_same _ _ _ _ Hrows). simpl. lia.
  - destruct (other_rows_unchanged count count' tbl r new_id now v Hv Hfresh)
      as (-> & -> & ->). by split_and!.
Qed.

(** X3: PUT is a key-wise merge.  For a PUT within the rate limit, by a
    user with one profile whose content is a dict, with a body whose
    [cv_data] is a dict, and a row the database takes: every key of
    [cv_data] takes its new value, every other key keeps its old one,
    [visibility] is overwritten when a true value is supplied, and the
    template name is kept unless a true value is supplied, of which the
    column stores the text; the row keeps its identifier and its creation
    time. *)
Theorem put_merges_cv_data (count : Z) (tbl : gmap N CVProfile) (r : request) (now : Z)
    (id : N) (p : CVProfile) (d b o : list (str * json)) (t : str) :
  count <= 50 ->
  rows_of tbl (acting_user_id r) = [(id, p)] ->
  cv_content p = JDict d ->
  NoDup (map fst d) ->
  data r = JDict b ->
  assoc (lit "cv_data") b = Some (JDict o) ->
  NoDup (map fst o) ->
  let visibility := default JNull (assoc (lit "visibility") b) in
  let selected := default JNull (assoc (lit "selected_template") b) in
  let written :=
    if truthy visibility then dict_set (lit "visibility") visibility (dict_update d o)
    else dict_update d o in
  jsonb_accepts (JDict written) = true ->
  template_name_column (if truthy selected then selected else JStr (template_name p))
    = Some t ->
  exists d',
    rows_of (fst (put count tbl r now)) (acting_user_id r) =
      [(id, {| user_id := user_id p; cv_content := JDict d'; template_name := t;
               created_at := created_at p; updated_at := now |})] /\
    (forall k,
       assoc k d' =
         if truthy visibility && bool_decide (k = lit "visibility")
         then Some visibility else merged_lookup d o k).
Proof.
  intros Hcount Hrows Hcontent Hd Hdata Hcv Ho visibility selected written Hdoc Htemplate.
  pose proof (rows_of_single _ _ _ _ Hrows) as (_ & _ & Hu).
  assert (Hupdate : (if truthy (JDict o) then update_method (hold (JDict d)) (JDict o)
                     else Ok (hold (JDict d))) = Ok (HDict (in_memory (dict_update d o)))).
  { destruct o as [|kv o]; [done|].
    cbn [truthy negb hold update_method]. rewrite bool_decide_eq_false_2 by done.
    cbn [negb]. by rewrite key_update_in_memory. }
  assert (Hsaved :
    bind (if truthy visibility
          then setitem (HDict (in_memory (dict_update d o))) (lit "visibility") visibility
          else Ok (HDict (in_memory (dict_update d o))))
      (fun c2 => Ok (saved_document c2,
                     if truthy selected then selected else JStr (template_name p)))
    = Ok (JDict written, if truthy selected then selected else JStr (template_name p))).
  { unfold written. destruct (truthy visibility); cbn [setitem bind saved_document].
    - rewrite key_set_in_memory, saved_dict_in_memory; [done|].
      by apply dict_set_nodup, dict_update_nodup.
    - rewrite saved_dict_in_memory; [done|]. by apply dict_update_nodup. }
  exists written. split.
  - unfold put, objects_get. rewrite ratelimit_within by done.
    rewrite Hrows, Hdata. cbn [get_method]. rewrite Hcv.
    cbn [default from_option Datatypes.id bind]. rewrite Hcontent, Hupdate. cbn [bind].
    fold visibility. fold selected. rewrite Hsaved.
    rewrite (written_row_accepted _ _ _ _ _ t Hdoc Htemplate).
    destruct (user_email r); cbn [fst]; by apply (rows_of_insert_same _ _ _ p).
  - intros k. unfold written. destruct (truthy visibility); cbn [andb].
    + case_bool_decide as Hk.
      * subst k. apply assoc_dict_set_eq.
      * rewrite assoc_dict_set_ne by done. by apply assoc_dict_update.
    + by apply assoc_dict_update.
Qed.


(** X5: DELETE removes the profile: afterwards the user owns no row, a GET
    reports that there is no CV data, a second DELETE is answered with 404,
    and a PUT with 404 within its rate limit and 403 beyond it. *)
Theorem delete_then_nothing_is_left (count : Z) (tbl : gmap N CVProfile) (r : request)
    (now : Z) (id : N) (p : CVProfile) :
  rows_of tbl (acting_user_id r) = [(id, p)] ->
  let tbl' := fst (delete tbl r) in
  tbl' = base.delete id tbl /\
  rows_of tbl' (acting_user_id r) = [] /\
  get tbl' r = {| status := 200;
                  content := NoCvData (lit "classic-0") (lit "No CV data found") |} /\
  (count <= 50 ->
   put count tbl' r now =
     (tbl', {| status := 404;
               content :=
                 Error (lit "CV data not found. Use POST to create new CV data.") |})) /\
  (50 < count ->
   put count tbl' r now =
     (tbl', {| status := 403;
               content :=
                 Detail (lit "You do not have permission to perform this action.") |})) /\
  delete tbl' r = (tbl', {| status := 404; content := Error (lit "CV data not found") |}).
Proof.
  intros Hrows tbl'.
  assert (Htbl : tbl' = base.delete id tbl).
  { unfold tbl', delete, objects_get. rewrite Hrows. by destruct (user_email r). }
  assert (Hnone : rows_of tbl' (acting_user_id r) = []).
  { rewrite Htbl. by apply (rows_of_delete_same _ _ _ p). }
  split_and!; try done.
  - unfold get, objects_get. by rewrite Hnone.
  - intros Hle. unfold put, objects_get. rewrite ratelimit_within by done.
    by rewrite Hnone.
  - intros Hgt. by apply put_beyond_the_limit.
  - unfold delete, objects_get. by rewrite Hnone.
Qed.

(** X6: A caller without an identity acts as user 1, and no write of such
    a caller is ever reported as a success: the log line written after the
    save reads [request.user.email], which the anonymous user lacks.  POST
    answers 400, 403 or 500, PUT 403, 404 or 500, DELETE 404 or 500. *)
Theorem anonymous_writes_never_report_success (count count' : Z) (tbl : gmap N CVProfile)
    (r : request) (new_id : N) (now : Z) :
  req_user r = Anonymous ->
  (status (snd (post count tbl r new_id now)) = 400 \/
   status (snd (post count tbl r new_id now)) = 403 \/
   status (snd (post count tbl r new_id now)) = 500) /\
  (status (snd (put count' tbl r now)) = 403 \/
   status (snd (put count' tbl r now)) = 404 \/
   status (snd (put count' tbl r now)) = 500) /\
  (status (snd (delete tbl r)) = 404 \/ status (snd (delete tbl r)) = 500).
Proof.
  intros Hanon.
  assert (Hemail : user_email r = Raise AttributeError).
  { unfold user_email. by rewrite Hanon. }
  split_and!.
  - unfold post, ratelimit. rewrite Hemail.
    repeat match goal with
    | |- context [match ?x with _ => _ end] => destruct x; simpl; auto
    end.
  - unfold put, ratelimit. rewrite Hemail.
    repeat match goal with
    | |- context [match ?x with _ => _ end] => destruct x; simpl; auto
    end.
  - unfold delete. rewrite Hemail.
    repeat match goal with
    | |- context [match ?x with _ => _ end] => destruct x; simpl; auto
    end.
Qed.

(** X7: Yet the write of such a caller is kept: a first POST within the
    rate limit, with a non-empty [cv_data] dict and a row the database
    takes, stores the profile of user 1 and answers 500. *)
Theorem anonymous_post_saves_and_answers_500 (count : Z) (tbl : gmap N CVProfile)
    (r : request) (new_id : N) (now : Z) (b o : list (str * json)) (t : str) :
  count <= 50 ->
  req_user r = Anonymous ->
  rows_of tbl 1 = [] ->
  tbl !! new_id = None ->
  data r = JDict b ->
  assoc (lit "cv_data") b = Some (JDict o) ->
  o <> [] ->
  let visibility := default (JDict []) (assoc (lit "visibility") b) in
  let selected := default (JStr (lit "classic-0")) (assoc (lit "selected_template") b) in
  let content := JDict (dict_set (lit "visibility") visibility o) in
  jsonb_accepts content = true ->
  template_name_column selected = Some t ->
  snd (post count tbl r new_id now) =
    {| status := 500; content := Error (lit "Failed to save CV data") |} /\
  rows_of (fst (post count tbl r new_id now)) 1 =
    [(new_id, {| user_id := 1; cv_content := content; template_name := t;
                 created_at := now; updated_at := now |})].
Proof.
  intros Hcount Hanon Hnone Hfresh Hdata Hcv Ho visibility selected content Hdoc Htemplate.
  assert (Hemail : user_email r = Raise AttributeError).
  { unfold user_email. by rewrite Hanon. }
  assert (Huid : acting_user_id r = 1).
  { unfold acting_user_id. by rewrite Hanon. }
  destruct (post_saved_row count tbl r new_id now b o t) as
    (id & created & Hstored & Hnew & _ & Hanswer); try done.
  { rewrite Huid, Hnone. simpl. lia. }
  rewrite Huid in Hstored, Hnew. destruct (Hnew Hnone) as [-> ->].
  rewrite Hemail in Hanswer. by split.
Qed.

(** X8: Nothing in the table keeps a user from owning two rows, and then
    every view fails and the table is left as it is: GET and DELETE answer
    500, PUT answers 500 within its rate limit and 403 beyond it, POST
    answers 400, 403 or 500. *)
Theorem duplicate_rows_break_every_view (count count' : Z) (tbl : gmap N CVProfile)
    (r : request) (new_id : N) (now : Z) :
  (2 <= length (rows_of tbl (acting_user_id r)))%nat ->
  get tbl r = {| status := 500; content := Error (lit "Failed to retrieve CV data") |} /\
  delete tbl r = (tbl, {| status := 500; content := Error (lit "Failed to delete CV data") |}) /\
  fst (put count' tbl r now) = tbl /\
  (count' <= 50 ->
   snd (put count' tbl r now) =
     {| status := 500; content := Error (lit "Failed to update CV data") |}) /\
  (50 < count' ->
   snd (put count' tbl r now) =
     {| status := 403;
        content := Detail (lit "You do not have permission to perform this action.") |}) /\
  fst (post count tbl r new_id now) = tbl /\
  (status (snd (post count tbl r new_id now)) = 400 \/
   status (snd (post count tbl r new_id now)) = 403 \/
   status (snd (post count tbl r new_id now)) = 500).
Proof.
  intros Htwo.
  assert (Hget : objects_get tbl (acting_user_id r) = Raise MultipleObjectsReturned).
  { unfold objects_get.
    destruct (rows_of tbl (acting_user_id r)) as [|row [|row' rows]]; simpl in Htwo;
      [lia | lia | done]. }
  assert (Hput : count' <= 50 ->
            put count' tbl r now =
              (tbl, {| status := 500; content := Error (lit "Failed to update CV data") |})).
  { intros Hle. unfold put. rewrite ratelimit_within by done. by rewrite Hget. }
  split_and!.
  - unfold get. by rewrite Hget.
  - unfold delete. by rewrite Hget.
  - destruct (Z.le_gt_cases count' 50) as [Hle|Hgt].
    + by rewrite (Hput Hle).
    + by rewrite (put_beyond_the_limit count' tbl r now Hgt).
  - intros Hle. by rewrite (Hput Hle).
  - intros Hgt. by rewrite (put_beyond_the_limit count' tbl r now Hgt).
  - unfold post, ratelimit, get_or_create. rewrite Hget.
    repeat match goal with
    | |- context [match ?x with _ => _ end] => destruct x; simpl; auto
    end.
  - unfold post, ratelimit, get_or_create. rewrite Hget.
    repeat match goal with
    | |- context [match ?x with _ => _ end] => destruct x; simpl; auto
    end.
Qed.

End CvDataMore.

(** Instances on the table of one row, of user 2, and on a table where
    that user owns two rows. *)
Module CvDataMoreExample.
Import Py Json CvBuilder Vocabulary Examples.CvData MoreExamples.CvData.

Lemma writes_change_the_acting_user_only_witness :
  (forall v, v <> 1 ->
     rows_of (fst (@post Demo.builtins Demo.repr Demo.database 1 user_one_row
                     {| req_user := Anonymous; data := summary_body |} 9%N 30)) v
       = rows_of user_one_row v /\
     rows_of (fst (@put Demo.builtins Demo.repr Demo.database 1 user_one_row
                     {| req_user := Anonymous; data := summary_body |} 30)) v
       = rows_of user_one_row v /\
     rows_of (fst (delete user_one_row {| req_user := Anonymous; data := summary_body |})) v
       = rows_of user_one_row v) /\
  (forall id email, Anonymous = Authenticated id email -> 1 = id) /\
  (Anonymous = Anonymous ->
     1 = 1 /\
     forall id p, rows_of user_one_row 1 = [(id, p)] ->
       rows_of (fst (delete user_one_row {| req_user := Anonymous; data := summary_body |})) 1
         = []).
Proof.
  apply (@writes_change_the_acting_user_only Demo.builtins Demo.repr Demo.database 1 1
           user_one_row {| req_user := Anonymous; data := summary_body |} 9%N 30).
  reflexivity.
Defined.

Lemma one_row_per_user_is_kept_witness :
  (length (rows_of (fst (@post Demo.builtins Demo.repr Demo.database 1 one_row
                           {| req_user := owner; data := summary_body |} 9%N 30)) 2)
     <= 1)%nat /\
  (length (rows_of (fst (@put Demo.builtins Demo.repr Demo.database 1 one_row
                           {| req_user := owner; data := summary_body |} 30)) 2)
     <= 1)%nat /\
  (length (rows_of (fst (delete one_row {| req_user := owner; data := summary_body |})) 2)
     <= 1)%nat.
Proof.
  apply (@one_row_per_user_is_kept Demo.builtins Demo.repr Demo.database 1 1 one_row
           {| req_user := owner; data := summary_body |} 9%N 30).
  - intros v. unfold rows_of, one_row. rewrite map_filter_singleton.
    case_decide; [rewrite map_to_list_singleton | rewrite map_to_list_empty]; simpl; lia.
  - reflexivity.
Defined.

Lemma put_merges_cv_data_witness :
  exists d',
    rows_of (fst (@put Demo.builtins Demo.repr Demo.database 1 one_row
                    {| req_user := owner; data := skills_body |} 30)) 2 =
      [(5%N, {| user_id := 2; cv_content := JDict d'; template_name := lit "classic-0";
                created_at := 10; updated_at := 30 |})] /\
    (forall k,
       assoc k d' =
         if false && bool_decide (k = lit "visibility") then Some JNull
         else merged_lookup [(lit "summary", JStr (lit "old"))]
                [(lit "skills", JList [JStr (lit "Rocq")])] k).
Proof.
  apply (@put_merges_cv_data Demo.builtins Demo.repr Demo.database 1 one_row
           {| req_user := owner; data := skills_body |} 30
           5%N other_row [(lit "summary", JStr (lit "old"))]
           [(lit "cv_data", JDict [(lit "skills", JList [JStr (lit "Rocq")])])]
           [(lit "skills", JList [JStr (lit "Rocq")])] (lit "classic-0")).
  - lia.
  - reflexivity.
  - reflexivity.
  - simpl. apply NoDup_singleton.
  - reflexivity.
  - reflexivity.
  - simpl. apply NoDup_singleton.
  - reflexivity.
  - reflexivity.
Defined.


Lemma delete_then_nothing_is_left_witness :
  fst (delete one_row {| req_user := owner; data := JNull |}) = base.delete 5%N one_row /\
  rows_of (fst (delete one_row {| req_user := owner; data := JNull |})) 2 = [] /\
  get (fst (delete one_row {| req_user := owner; data := JNull |}))
      {| req_user := owner; data := JNull |}
    = {| status := 200;
         content := NoCvData (lit "classic-0") (lit "No CV data found") |} /\
  (1 <= 50 ->
   @put Demo.builtins Demo.repr Demo.database 1
     (fst (delete one_row {| req_user := owner; data := JNull |}))
     {| req_user := owner; data := JNull |} 30 =
     (fst (delete one_row {| req_user := owner; data := JNull |}),
      {| status := 404;
         content := Error (lit "CV data not found. Use POST to create new CV data.") |})) /\
  (50 < 1 ->
   @put Demo.builtins Demo.repr Demo.database 1
     (fst (delete one_row {| req_user := owner; data := JNull |}))
     {| req_user := owner; data := JNull |} 30 =
     (fst (delete one_row {| req_user := owner; data := JNull |}),
      {| status := 403;
         content := Detail (lit "You do not have permission to perform this action.") |})) /\
  delete (fst (delete one_row {| req_user := owner; data := JNull |}))
         {| req_user := owner; data := JNull |}
    = (fst (delete one_row {| req_user := owner; data := JNull |}),
       {| status := 404; content := Error (lit "CV data not found") |}).
Proof.
  apply (@delete_then_nothing_is_left Demo.builtins Demo.repr Demo.database 1 one_row
           {| req_user := owner; data := JNull |} 30 5%N other_row).
  reflexivity.
Defined.

Lemma anonymous_writes_never_report_success_witness :
  (status (snd (@post Demo.builtins Demo.repr Demo.database 1 one_row
                  {| req_user := Anonymous; data := summary_body |} 9%N 30)) = 400 \/
   status (snd (@post Demo.builtins Demo.repr Demo.database 1 one_row
                  {| req_user := Anonymous; data := summary_body |} 9%N 30)) = 403 \/
   status (snd (@post Demo.builtins Demo.repr Demo.database 1 one_row
                  {| req_user := Anonymous; data := summary_body |} 9%N 30)) = 500) /\
  (status (snd (@put Demo.builtins Demo.repr Demo.database 1 one_row
                  {| req_user := Anonymous; data := summary_body |} 30)) = 403 \/
   status (snd (@put Demo.builtins Demo.repr Demo.database 1 one_row
                  {| req_user := Anonymous; data := summary_body |} 30)) = 404 \/
   status (snd (@put Demo.builtins Demo.repr Demo.database 1 one_row
                  {| req_user := Anonymous; data := summary_body |} 30)) = 500) /\
  (status (snd (delete one_row {| req_user := Anonymous; data := summary_body |})) = 404 \/
   status (snd (delete one_row {| req_user := Anonymous; data := summary_body |})) = 500).
Proof.
  apply (@anonymous_writes_never_report_success Demo.builtins Demo.repr Demo.database 1 1
           one_row {| req_user := Anonymous; data := summary_body |} 9%N 30).
  reflexivity.
Defined.

Lemma anonymous_post_saves_and_answers_500_witness :
  snd (@post Demo.builtins Demo.repr Demo.database 1 one_row
         {| req_user := Anonymous; data := skills_body |} 9%N 30) =
    {| status := 500; content := Error (lit "Failed to save CV data") |} /\
  rows_of (fst (@post Demo.builtins Demo.repr Demo.database 1 one_row
                  {| req_user := Anonymous; data := skills_body |} 9%N 30)) 1
    = [(9%N, {| user_id := 1;
                cv_content := JDict [ (lit "skills", JList [JStr (lit "Rocq")]);
                                      (lit "visibility", JDict []) ];
                template_name := lit "classic-0";
                created_at := 30; updated_at := 30 |})].
Proof.
  apply (@anonymous_post_saves_and_answers_500 Demo.builtins Demo.repr Demo.database 1
           one_row {| req_user := Anonymous; data := skills_body |} 9%N 30
           [(lit "cv_data", JDict [(lit "skills", JList [JStr (lit "Rocq")])])]
           [(lit "skills", JList [JStr (lit "Rocq")])] (lit "classic-0")).
  - lia.
  - reflexivity.
  - reflexivity.
  - reflexivity.
  - reflexivity.
  - reflexivity.
  - discriminate.
  - reflexivity.
  - reflexivity.
Defined.

Lemma duplicate_rows_break_every_view_witness :
  get two_rows {| req_user := owner; data := summary_body |}
    = {| status := 500; content := Error (lit "Failed to retrieve CV data") |} /\
  delete two_rows {| req_user := owner; data := summary_body |}
    = (two_rows, {| status := 500; content := Error (lit "Failed to delete CV data") |}) /\
  fst (@put Demo.builtins Demo.repr Demo.database 1 two_rows
         {| req_user := owner; data := summary_body |} 30) = two_rows /\
  (1 <= 50 ->
   snd (@put Demo.builtins Demo.repr Demo.database 1 two_rows
          {| req_user := owner; data := summary_body |} 30) =
     {| status := 500; content := Error (lit "Failed to update CV data") |}) /\
  (50 < 1 ->
   snd (@put Demo.builtins Demo.repr Demo.database 1 two_rows
          {| req_user := owner; data := summary_body |} 30) =
     {| status := 403;
        content := Detail (lit "You do not have permission to perform this action.") |}) /\
  fst (@post Demo.builtins Demo.repr Demo.database 1 two_rows
         {| req_user := owner; data := summary_body |} 9%N 30) = two_rows /\
  (status (snd (@post Demo.builtins Demo.repr Demo.database 1 two_rows
                  {| req_user := owner; data := summary_body |} 9%N 30)) = 400 \/
   status (snd (@post Demo.builtins Demo.repr Demo.database 1 two_rows
                  {| req_user := owner; data := summary_body |} 9%N 30)) = 403 \/
   status (snd (@post Demo.builtins Demo.repr Demo.database 1 two_rows
                  {| req_user := owner; data := summary_body |} 9%N 30)) = 500).
Proof.
  apply (@duplicate_rows_break_every_view Demo.builtins Demo.repr Demo.database 1 1 two_rows
           {| req_user := owner; data := summary_body |} 9%N 30).
  vm_compute. lia.
Defined.

End CvDataMoreExample.

(** ** Rate limiting: keys, refusals, misconfiguration, windows and clients *)
Section RateLimitMore.
Import Py RateLimiting.
Context `{!Builtins}.

Lemma lit_inj (s1 s2 : string) : lit s1 = lit s2 -> s1 = s2.
Proof.
  unfold lit. revert s2. induction s1 as [|a s1 IH]; intros [|b s2] Heq; simpl in *;
    try done.
  injection Heq as Hab Hrest. f_equal; [|by apply IH].
  by rewrite <- (ascii_N_embedding a), <- (ascii_N_embedding b), Hab.
Qed.

Lemma str_of_int_inj (z1 z2 : Z) : str_of_int z1 = str_of_int z2 -> z1 = z2.
Proof. unfold str_of_int. intros Heq. by apply (inj pretty), lit_inj. Qed.

(** The characters [str] gives an integer: digits and the minus sign. *)
Lemma pretty_N_go_chars (x : N) (s : string) (c : N) :
  c ∈ lit (pretty_N_go x s) -> (48 <= c <= 57)%N \/ c ∈ lit s.
Proof.
  revert s. induction (N.lt_wf_0 x) as [x _ IH]; intros s Hc.
  assert (x = 0 \/ 0 < x)%N as [->|Hpos] by lia.
  - rewrite pretty_N_go_0 in Hc. by right.
  - rewrite pretty_N_go_step in Hc by done.
    apply IH in Hc; [|by apply N.div_lt].
    destruct Hc as [Hc|Hc]; [by left|].
    change (lit (String (pretty_N_char (x `mod` 10)) s))
      with (N_of_ascii (pretty_N_char (x `mod` 10)) :: lit s) in Hc.
    apply elem_of_cons in Hc as [->|Hc]; [left|by right].
    unfold pretty_N_char. repeat case_match; vm_compute; split; discriminate.
Qed.

Lemma str_of_int_no_colon (z : Z) : 58%N ∉ str_of_int z.
Proof.
  assert (Hpos : forall p : positive, 58%N ∉ lit (pretty p)).
  { intros p Hc. unfold pretty, pretty_positive, pretty, pretty_N in Hc.
    case_decide; [done|].
    apply pretty_N_go_chars in Hc as [Hc|Hc]; [lia|].
    by apply elem_of_nil in Hc. }
  unfold str_of_int. destruct z as [|p|p]; unfold pretty, pretty_Z.
  - intros Hc. vm_compute in Hc. apply elem_of_cons in Hc as [Hc|Hc]; [discriminate|].
    by apply elem_of_nil in Hc.
  - apply Hpos.
  - change (lit ("-" +:+ pretty p)) with (45%N :: lit (pretty p)).
    intros Hc. apply elem_of_cons in Hc as [Hc|Hc]; [discriminate|]. by apply (Hpos p).
Qed.

(** Splitting at the last and at the first occurrence of a separator. *)
Lemma app_last_sep_inj (c : N) (a b d1 d2 : list N) :
  c ∉ d1 -> c ∉ d2 -> a ++ c :: d1 = b ++ c :: d2 -> a = b /\ d1 = d2.
Proof.
  intros H1 H2. revert b. induction a as [|x a IH]; intros [|y b] Heq; simpl in *.
  - by injection Heq.
  - injection Heq as -> ->. exfalso. apply H1. apply elem_of_app. right. by left.
  - injection Heq as -> <-. exfalso. apply H2. apply elem_of_app. right. by left.
  - injection Heq as -> Heq. apply IH in Heq as [-> ->]. done.
Qed.

Lemma app_first_sep_inj (c : N) (a b d1 d2 : list N) :
  c ∉ a -> c ∉ b -> a ++ c :: d1 = b ++ c :: d2 -> a = b /\ d1 = d2.
Proof.
  revert b. induction a as [|x a IH]; intros [|y b] H1 H2 Heq; simpl in *.
  - by injection Heq.
  - injection Heq as -> _. exfalso. apply H2. by left.
  - injection Heq as -> _. exfalso. apply H1. by left.
  - injection Heq as -> Heq. apply IH in Heq as [-> ->]; [done|..].
    + intros Hc. apply H1. by right.
    + intros Hc. apply H2. by right.
Qed.

(** The selector returns one of four names, none of which holds a colon. *)
Lemma category_cases (r : request) :
  _get_rate_limit_category r ∈
    [lit "pdf_generation"; lit "preview_generation"; lit "api_general"; lit "default"].
Proof.
  unfold _get_rate_limit_category.
  repeat match goal with |- context [if ?b then _ else _] => destruct b end;
    set_solver.
Qed.

Lemma category_no_colon (r : request) : 58%N ∉ _get_rate_limit_category r.
Proof.
  pose proof (category_cases r) as Hcat.
  repeat (apply elem_of_cons in Hcat as [->|Hcat]);
    [| | | |by apply elem_of_nil in Hcat];
    intros Hc; vm_compute in Hc;
    repeat (apply elem_of_cons in Hc as [Hc|Hc]; [discriminate|]);
    by apply elem_of_nil in Hc.
Qed.

Lemma cache_key_inj (r r' : request) (w w' : Z) :
  cache_key (_get_rate_limit_category r) (_get_client_identifier r) w =
  cache_key (_get_rate_limit_category r') (_get_client_identifier r') w' ->
  _get_rate_limit_category r = _get_rate_limit_category r' /\
  _get_client_identifier r = _get_client_identifier r' /\ w = w'.
Proof.
  unfold cache_key. intros Heq. apply app_inv_head in Heq.
  change (lit ":") with [58%N] in Heq. simpl in Heq.
  apply app_first_sep_inj in Heq as [Hcat Heq]; try apply category_no_colon.
  apply app_last_sep_inj in Heq as [Hcid Hw]; try apply str_of_int_no_colon.
  by apply str_of_int_inj in Hw.
Qed.

(** X9: Two requests are counted under one cache key exactly when their
    category, their client identifier and their window index agree: the
    counters of different clients, categories or windows never share a
    key, whatever addresses the clients send. *)
Theorem rate_limit_keys_do_not_collide (r r' : request) (w w' : Z) :
  cache_key (_get_rate_limit_category r) (_get_client_identifier r) w =
  cache_key (_get_rate_limit_category r') (_get_client_identifier r') w' <->
  _get_rate_limit_category r = _get_rate_limit_category r' /\
  _get_client_identifier r = _get_client_identifier r' /\ w = w'.
Proof.
  split; [apply cache_key_inj|]. by intros (-> & -> & ->).
Qed.

(** X10: A request is refused only when the count stored under its key has
    reached the limit of its category, and a refusal changes nothing in
    the cache: the answer has status 429, nothing remaining, the end of
    the window as reset time and the distance to it as retry delay. *)
Theorem refusal_only_at_limit (limits : gmap (list N) rate_limit) (c c' : Cache.cache)
    (clk : readings) (r : request) (body : limit_body) (st : Z) :
  process_request limits c clk r = (c', JsonResponse body st) ->
  c' = c /\ st = 429 /\ remaining body = 0 /\
  _should_skip_rate_limiting r = false /\
  exists rl n,
    lookup_rate_limit limits (_get_rate_limit_category r) = Ok rl /\
    stored_count c (t_get clk)
      (cache_key (_get_rate_limit_category r) (_get_client_identifier r)
         (window_index rl (t_check clk))) = Cache.CInt n /\
    requests rl <= n /\
    limit body = requests rl /\
    reset_time body = (window_index rl (t_check clk) + 1) * window rl /\
    retry_after body = reset_time body - Cache.int_time (t_resp clk).
Proof.
  unfold process_request.
  destruct (_should_skip_rate_limiting r) eqn:Hskip; [done|].
  destruct (lookup_rate_limit limits (_get_rate_limit_category r)) as [rl|e] eqn:Hrl; [|done].
  unfold _check_rate_limit, stored_count, window_index.
  destruct (window rl =? 0); [done|].
  destruct (default (Cache.CInt 0) (Cache.get c (t_get clk) _)) as [n|] eqn:Hcount; [|done].
  destruct (Z.leb_spec (requests rl) n) as [Hle|Hlt]; simpl; [|done].
  intros [= <- <- <-]. split_and!; try done.
  exists rl, n. split_and!; done.
Qed.

(** X11: A table of limits without a [default] entry, or one whose windows are
    all zero, turns rate limiting off: every request passes, with no rate
    limit information attached, and nothing is counted.  The limits the
    table does list are not applied either. *)
Theorem misconfigured_limits_fail_open (limits : gmap (list N) rate_limit) (c : Cache.cache)
    (evs : list (readings * request)) :
  limits !! lit "default" = None \/
  (forall category rl, limits !! category = Some rl -> window rl = 0) ->
  serve limits c evs = (c, (fun _ => Pass None) <$> evs).
Proof.
  intros Hbad.
  assert (Hone : forall clk r, process_request limits c clk r = (c, Pass None)).
  { intros clk r. unfold process_request.
    destruct (_should_skip_rate_limiting r); [done|].
    unfold lookup_rate_limit.
    destruct (limits !! lit "default") as [dflt|] eqn:Hdflt; [|done].
    destruct Hbad as [?|Hzero]; [done|].
    assert (Hw : window (default dflt (limits !! _get_rate_limit_category r)) = 0).
    { destruct (limits !! _get_rate_limit_category r) as [rl|] eqn:Hcat; simpl; eauto. }
    unfold _check_rate_limit. by rewrite Hw. }
  induction evs as [|[clk r] evs IH]; simpl; [done|].
  by rewrite Hone, IH.
Qed.

(** X12: The [admin_api] limit of the settings is never applied: the category
    selector never names it, so the middleware configured from the
    settings treats every request as the middleware with the built-in
    table does. *)
Theorem admin_api_limit_is_never_applied (c : Cache.cache) (clk : readings) (r : request) :
  process_request rate_limits c clk r = process_request default_rate_limits c clk r.
Proof.
  unfold process_request.
  destruct (_should_skip_rate_limiting r); [done|].
  assert (Hsame : lookup_rate_limit rate_limits (_get_rate_limit_category r) =
                  lookup_rate_limit default_rate_limits (_get_rate_limit_category r)).
  { pose proof (category_cases r) as Hcat.
    repeat (apply elem_of_cons in Hcat as [->|Hcat]);
      [| | | |by apply elem_of_nil in Hcat]; by vm_compute. }
  by rewrite Hsame.
Qed.

(** What a request leaves untouched: every key but its own. *)
Lemma process_request_frame (limits : gmap (list N) rate_limit) (c : Cache.cache)
    (clk : readings) (r : request) (k : str) :
  (forall rl, lookup_rate_limit limits (_get_rate_limit_category r) = Ok rl ->
     k <> cache_key (_get_rate_limit_category r) (_get_client_identifier r)
            (window_index rl (t_check clk))) ->
  fst (process_request limits c clk r) !! k = c !! k.
Proof.
  intros Hk. unfold process_request.
  destruct (_should_skip_rate_limiting r); [done|].
  destruct (lookup_rate_limit limits (_get_rate_limit_category r)) as [rl|e] eqn:Hrl; [|done].
  specialize (Hk rl eq_refl). unfold window_index in Hk.
  unfold _check_rate_limit.
  destruct (window rl =? 0); [done|].
  destruct (default (Cache.CInt 0) (Cache.get c (t_get clk) _)) as [n|]; [|done].
  destruct (requests rl <=? n); simpl; [done|].
  unfold Cache.set. by rewrite lookup_insert_ne.
Qed.

Lemma serve_frame (limits : gmap (list N) rate_limit) (c : Cache.cache)
    (evs : list (readings * request)) (k : str) :
  (forall clk r rl, (clk, r) ∈ evs ->
     lookup_rate_limit limits (_get_rate_limit_category r) = Ok rl ->
     k <> cache_key (_get_rate_limit_category r) (_get_client_identifier r)
            (window_index rl (t_check clk))) ->
  fst (serve limits c evs) !! k = c !! k.
Proof.
  revert c. induction evs as [|[clk r] evs IH]; intros c Hk; simpl; [done|].
  pose proof (process_request_frame limits c clk r k) as Hone.
  destruct (process_request limits c clk r) as [c1 o]. simpl in Hone.
  specialize (IH c1). destruct (serve limits c1 evs) as [c2 os]. simpl in *.
  rewrite IH, Hone; [done|..].
  - intros rl Hrl. apply (Hk clk r rl); [by left|done].
  - intros clk' r' rl Hin Hrl. apply (Hk clk' r' rl); [by right|done].
Qed.



(** X14: A new window starts a new count: however many requests a client sent
    in window [w], allowed or refused, its first request in another
    window [w'] whose counter is not in the cache passes, with all of the
    limit but one remaining. *)
Theorem new_window_allows_again (limits : gmap (list N) rate_limit) (c : Cache.cache)
    (rl : rate_limit) (w w' : Z) (evs : list (readings * request))
    (clk : readings) (r : request) :
  lookup_rate_limit limits (_get_rate_limit_category r) = Ok rl ->
  0 < window rl ->
  0 < requests rl ->
  forallb (counted_request (_get_rate_limit_category r) (_get_client_identifier r) rl w) evs
    = true ->
  counted_request (_get_rate_limit_category r) (_get_client_identifier r) rl w' (clk, r)
    = true ->
  w <> w' ->
  c !! cache_key (_get_rate_limit_category r) (_get_client_identifier r) w' = None ->
  snd (process_request limits (fst (serve limits c evs)) clk r) = allowed rl w' 1.
Proof.
  intros Hrl Hwin Hlim Hevs Hnext Hww Hfresh.
  assert (Hkey : fst (serve limits c evs)
                   !! cache_key (_get_rate_limit_category r) (_get_client_identifier r) w'
                 = None).
  { rewrite <- Hfresh. apply serve_frame. intros clk' r' rl' Hin Hrl' Heq.
    rewrite forallb_forall in Hevs.
    assert (Hev : counted_request (_get_rate_limit_category r) (_get_client_identifier r)
                    rl w (clk', r') = true).
    { apply Hevs. by apply list_elem_of_In. }
    apply counted_request_spec in Hev as (_ & Hcat & _ & Hclk).
    apply in_window_spec in Hclk as ((_ & Hidx) & _).
    apply cache_key_inj in Heq as (_ & _ & Hw).
    rewrite Hcat, Hrl in Hrl'. injection Hrl' as <-. congruence. }
  rewrite (process_request_allowed limits _ (_get_rate_limit_category r)
             (_get_client_identifier r) rl w' 0 clk r); try done.
  by apply stored_count_absent.
Qed.

End RateLimitMore.

Module RateLimitMoreExample.
Import Py RateLimiting Examples.FixedWindow MoreExamples.RateLimit.

Lemma refusal_only_at_limit_witness :
  full_cache = full_cache /\ 429 = 429 /\ remaining refused_body = 0 /\
  _should_skip_rate_limiting (snd (at_second 11)) = false /\
  exists rl n,
    lookup_rate_limit rate_limits (_get_rate_limit_category (snd (at_second 11))) = Ok rl /\
    stored_count full_cache (t_get (fst (at_second 11)))
      (cache_key (_get_rate_limit_category (snd (at_second 11)))
         (_get_client_identifier (H := Demo.builtins) (snd (at_second 11)))
         (window_index rl (t_check (fst (at_second 11))))) = Cache.CInt n /\
    requests rl <= n /\
    limit refused_body = requests rl /\
    reset_time refused_body = (window_index rl (t_check (fst (at_second 11))) + 1) * window rl /\
    retry_after refused_body =
      reset_time refused_body - Cache.int_time (t_resp (fst (at_second 11))).
Proof.
  apply (@refusal_only_at_limit Demo.builtins rate_limits full_cache full_cache
           (fst (at_second 11)) (snd (at_second 11)) refused_body 429).
  vm_compute. reflexivity.
Defined.

Lemma misconfigured_limits_fail_open_witness :
  serve (H := Demo.builtins) pdf_only no_counts first_ten =
    (no_counts, (fun _ => Pass None) <$> first_ten).
Proof.
  apply (@misconfigured_limits_fail_open Demo.builtins pdf_only no_counts first_ten).
  left. reflexivity.
Defined.


Lemma new_window_allows_again_witness :
  snd (process_request (H := Demo.builtins) rate_limits
         (fst (serve (H := Demo.builtins) rate_limits no_counts first_ten))
         (fst (at_second 900)) (snd (at_second 900)))
  = allowed {| requests := 10; window := 900 |} 2000001 1.
Proof.
  apply (@new_window_allows_again Demo.builtins rate_limits no_counts
           {| requests := 10; window := 900 |} 2000000 2000001 first_ten
           (fst (at_second 900)) (snd (at_second 900))).
  - vm_compute. reflexivity.
  - simpl. lia.
  - simpl. lia.
  - vm_compute. reflexivity.
  - vm_compute. reflexivity.
  - lia.
  - reflexivity.
Defined.

End RateLimitMoreExample.

(** ** Generation tracking and the generation pool *)
Section TrackingFacts.
Import Py Json Tracking.
Context `{!Builtins} `{!Repr}.

(** X15: Neither tracking call ever records anything: both hand
    [PDFGenerationLog] keyword arguments that are not fields of the model,
    the model refuses them, and the exception is caught.  The log table is
    left as it is, and the daily counter of the user is never counted up. *)
Theorem generation_tracking_never_records (log : list (list (str * json)))
    (c : Cache.cache) (t_get t_set : Z)
    (user_id template_name file_size generation_time client_ip : json)
    (user : option json) (error_message : str) :
  track_generation log c t_get t_set user_id template_name file_size generation_time client_ip
    = (log, c) /\
  _track_failed_generation log user template_name error_message generation_time = log.
Proof.
  split.
  - unfold track_generation.
    assert (Hrefused :
      objects_create log
        [ (lit "user_id", user_id); (lit "template_name", template_name);
          (lit "file_size", file_size); (lit "generation_time", generation_time);
          (lit "client_ip", if truthy client_ip then client_ip else JStr (lit "unknown")) ]
      = Raise TypeError) by reflexivity.
    by rewrite Hrefused.
  - unfold _track_failed_generation. destruct user as [u|]; [|done].
    assert (Hrefused :
      objects_create log
        [ (lit "user", u); (lit "template_name", template_name);
          (lit "generation_time", generation_time);
          (lit "status", JStr (lit "failed"));
          (lit "error_message", JStr (take 1000 error_message)) ]
      = Raise TypeError) by reflexivity.
    by rewrite Hrefused.
Qed.

End TrackingFacts.

Section PoolFacts.
Import Pool.

Lemma occurrences_cons (e x : event) (trace : list event) :
  occurrences e (x :: trace) =
    (match x, e with
     | Submitted, Submitted | Ended, Ended => 1
     | _, _ => 0
     end) + occurrences e trace.
Proof.
  unfold occurrences. simpl. destruct x, e; simpl length; lia.
Qed.

Lemma run_counters (p : pool) (trace : list event) :
  pool_size (run p trace) = pool_size p /\
  generation_count (run p trace) = generation_count p + occurrences Submitted trace /\
  active_generations (run p trace) =
    active_generations p + occurrences Submitted trace - occurrences Ended trace.
Proof.
  revert p. induction trace as [|e trace IH]; intros p.
  - unfold occurrences. simpl. lia.
  - unfold run in *. simpl. destruct (IH (step p e)) as (Hsize & Hcount & Hactive).
    rewrite Hsize, Hcount, Hactive, !occurrences_cons. destruct e; simpl; lia.
Qed.

(** X16: The counters of the pool follow what happened to it: after any
    sequence of submissions and endings, the total is the number of
    submissions, the active count is the submissions less the endings, and
    the available workers are the pool size less the active count, which
    is below zero once more tasks are waiting than the pool has workers. *)
Theorem pool_counters_follow_the_trace (size : Z) (trace : list event) :
  let s := get_stats (run (init size) trace) in
  stat_pool_size s = size /\
  stat_total_generations s = occurrences Submitted trace /\
  stat_active_generations s = occurrences Submitted trace - occurrences Ended trace /\
  stat_available_workers s + stat_active_generations s = size.
Proof.
  destruct (run_counters (init size) trace) as (Hsize & Hcount & Hactive).
  simpl. rewrite Hsize, Hcount, Hactive. simpl. lia.
Qed.

End PoolFacts.

(** ** The rendering services: file names, template lookups and listings *)
Section RenderingMore.
Import Py Json External.
Context `{!Builtins} `{!Repr} `{!Engine} `{!EnhancedServices.Hashlib}.

Lemma kept_never_breaks_header (c : N) :
  PdfServices.kept_in_filename c = true -> Vocabulary.breaks_header c = false.
Proof.
  intros Hkept. destruct (Vocabulary.breaks_header c) eqn:Hb; [|done].
  unfold Vocabulary.breaks_header in Hb. apply bool_decide_eq_true in Hb.
  repeat (apply elem_of_cons in Hb as [->|Hb]); try (by vm_compute in Hkept).
  by apply elem_of_nil in Hb.
Qed.

Lemma filtered_filename (a b : str) :
  exists stem,
    List.filter PdfServices.kept_in_filename (a ++ lit "_" ++ b ++ lit "_Resume.pdf")
      = stem ++ lit "_Resume.pdf".
Proof.
  exists (List.filter PdfServices.kept_in_filename a ++ lit "_" ++
          List.filter PdfServices.kept_in_filename b).
  rewrite !List.filter_app, <- !app_assoc. reflexivity.
Qed.

(** X17: The suggested file name can stand between the quotes of the
    [Content-Disposition] header, whatever the CV data hold: it has no
    double quote, slash, backslash or line end, and it ends with
    [_Resume.pdf]. *)
Theorem suggested_filename_is_safe (cv_data : json) :
  Forall (fun c => Vocabulary.breaks_header c = false)
    (PdfServices.get_suggested_filename cv_data) /\
  exists stem, PdfServices.get_suggested_filename cv_data = stem ++ lit "_Resume.pdf".
Proof.
  assert (Hcases :
    PdfServices.get_suggested_filename cv_data = lit "CV_Resume.pdf" \/
    exists a b, PdfServices.get_suggested_filename cv_data =
      List.filter PdfServices.kept_in_filename (a ++ lit "_" ++ b ++ lit "_Resume.pdf")).
  { unfold PdfServices.get_suggested_filename.
    destruct (get_method cv_data (lit "personal_info") (JDict [])) as [info|e]; simpl;
      [|by left].
    destruct (get_method info (lit "first_name") (JStr (lit "CV"))) as [first|e]; simpl;
      [|by left].
    destruct (get_method info (lit "last_name") (JStr (lit "Resume"))) as [last|e]; simpl;
      [|by left].
    right. by exists (py_str first), (py_str last). }
  destruct Hcases as [->|(a & b & ->)].
  - split; [|by exists (lit "CV")].
    apply Forall_forall. intros c Hc. vm_compute in Hc.
    repeat (apply elem_of_cons in Hc as [->|Hc]; [reflexivity|]).
    by apply elem_of_nil in Hc.
  - split; [|apply filtered_filename].
    apply List.Forall_forall. intros c Hc. apply filter_In in Hc as [_ Hkept].
    by apply kept_never_breaks_header.
Qed.

(** X18: The three lookups of a template agree.  For a name of the catalog the
    template service validates it and every lookup returns its entry; for
    any other name the template service reports it as unknown (no
    metadata), while both rendering services silently return the entry of
    [classic-0]; a name that is a list or a dict makes all of them raise
    [TypeError]. *)
Theorem template_lookups_agree (name : json) :
  match Templates.validate_template name with
  | Ok true =>
      exists config,
        Templates.get_template_metadata name = Ok (Some config) /\
        PdfServices.get_template_config name = Ok config /\
        EnhancedServices._get_template_config name = Ok config
  | Ok false =>
      Templates.get_template_metadata name = Ok None /\
      PdfServices.get_template_config name = Ok (snd Settings.classic_0) /\
      EnhancedServices._get_template_config name = Ok (snd Settings.classic_0)
  | Raise e =>
      e = TypeError /\
      Templates.get_template_metadata name = Raise TypeError /\
      PdfServices.get_template_config name = Raise TypeError /\
      EnhancedServices._get_template_config name = Raise TypeError
  end.
Proof.
  unfold Templates.validate_template, Templates.get_template_metadata,
    PdfServices.get_template_config, EnhancedServices._get_template_config,
    PdfServices.catalog_get.
  rewrite classic_0_in_catalog.
  remember Settings.CV_TEMPLATES as catalog eqn:Hcatalog.
  destruct name as [| | | |s| |]; simpl; try done.
  destruct (assoc s catalog) as [config|] eqn:Hs.
  - rewrite bool_decide_eq_true_2 by eauto. simpl. by exists config.
  - rewrite bool_decide_eq_false_2 by (by intros [? ?]). done.
Qed.

Lemma listing_names (catalog : list (str * json)) (templates : list json) :
  Templates.listing catalog = Ok templates ->
  (fun t => getitem t (lit "name")) <$> templates =
  (fun kv : str * json => Ok (JStr (fst kv))) <$> catalog.
Proof.
  revert templates. induction catalog as [|[name config] catalog IH]; intros templates; simpl.
  - by intros [= <-].
  - unfold Templates.listed.
    destruct (getitem config (lit "display_name")); simpl; [|done].
    destruct (getitem config (lit "description")); simpl; [|done].
    destruct (getitem config (lit "responsive")); simpl; [|done].
    destruct (getitem config (lit "has_columns")); simpl; [|done].
    destruct (Templates.listing catalog) as [entries|e]; simpl; [|done].
    intros [= <-]. simpl. f_equal. by apply IH.
Qed.

(** X19: The two template listings of the API give the same answer on every
    catalog: the view of the PDF application, which asks the template
    service, and the view of the CV application, which loops itself.  A
    listing that succeeds names the templates in the order of the catalog,
    and on the configured catalog both answer 200 with its four
    templates. *)
Theorem template_listings_agree (catalog : list (str * json)) :
  Templates.pdf_template_list_view catalog = Templates.template_list_view catalog /\
  (forall templates,
     Templates.template_list_view catalog = Templates.TemplatesBody 200 templates ->
     (fun t => getitem t (lit "name")) <$> templates =
     (fun kv : str * json => Ok (JStr (fst kv))) <$> catalog) /\
  exists templates,
    Templates.template_list_view Settings.CV_TEMPLATES = Templates.TemplatesBody 200 templates /\
    length templates = 4%nat.
Proof.
  split_and!.
  - unfold Templates.pdf_template_list_view, Templates.get_template_list,
      Templates.get_available_templates, Templates.template_list_view.
    by destruct (Templates.listing catalog).
  - intros templates. unfold Templates.template_list_view.
    destruct (Templates.listing catalog) as [l|e] eqn:Hl; [|done].
    intros [= <-]. by apply listing_names.
  - eexists. split; reflexivity.
Qed.

Lemma catalog_entry_cases (s : str) (config : json) :
  assoc s Settings.CV_TEMPLATES = Some config ->
  get_method config (lit "archival") (JBool false) = Ok (JBool false) /\
  get_method config (lit "has_columns") JNull =
    Ok (JBool (bool_decide (s ∈ [lit "modern-0"; lit "modern-1"]))).
Proof.
  intros Hs. apply assoc_elem_of in Hs. unfold Settings.CV_TEMPLATES in Hs.
  repeat (apply elem_of_cons in Hs as [[= -> ->]|Hs]); try (by vm_compute).
  by apply elem_of_nil in Hs.
Qed.

(** X20: Whatever template is named, the optimised conversion never asks for
    the archival PDF variant (no entry of the catalog is archival), and it
    adds the column rules to the print sheet exactly for [modern-0] and
    [modern-1]; what it returns or raises is what the engine does with the
    base sheet, the template's sheet if it has one, and the print sheet. *)
Theorem optimized_conversion_sheets_and_options (s html : str) :
  EnhancedServices._html_to_pdf_optimized html (JStr s) =
    write_pdf html
      (BaseCss ::
       match EnhancedServices._get_template_css (JStr s) with
       | [] => []
       | c :: css => [TemplateCss (c :: css)]
       end ++ [PrintCss (bool_decide (s ∈ [lit "modern-0"; lit "modern-1"]))])
      (EnhancedServices.optimized_options false).
Proof.
  assert (Hconfig : exists config,
            PdfServices.catalog_get Settings.CV_TEMPLATES (JStr s) = Ok config /\
            get_method config (lit "archival") (JBool false) = Ok (JBool false) /\
            get_method config (lit "has_columns") JNull =
              Ok (JBool (bool_decide (s ∈ [lit "modern-0"; lit "modern-1"])))).
  { unfold PdfServices.catalog_get. rewrite classic_0_in_catalog.
    destruct (assoc s Settings.CV_TEMPLATES) as [config|] eqn:Hs.
    - exists config. split; [done|]. by apply catalog_entry_cases.
    - exists (snd Settings.classic_0). split_and!; try done. simpl. do 2 f_equal.
      symmetry. apply bool_decide_eq_false_2. intros Hin.
      repeat (apply elem_of_cons in Hin as [->|Hin]); try (by vm_compute in Hs).
      by apply elem_of_nil in Hin. }
  destruct Hconfig as (config & Hget & Harchival & Hcolumns).
  unfold EnhancedServices._html_to_pdf_optimized, EnhancedServices._get_optimized_css,
    EnhancedServices._get_print_optimization_css, EnhancedServices._get_template_config.
  rewrite Hget. simpl. rewrite Harchival, Hcolumns. simpl.
  by destruct (EnhancedServices._get_template_css (JStr s)).
Qed.

End RenderingMore.

(** ** Cached generation after expiry or failure, and malformed batches *)
Section CachedGenerationMore.
Import Py Json External EnhancedServices.
Context `{!Builtins} `{!Repr} `{!Engine} `{!Hashlib}.

(** X21: A cached PDF is served only while its entry lives and only if it is
    not empty.  After a first call that generated and stored a PDF, a
    second call with the same arguments made once the entry has expired
    (at once, when the timeout is 0), or when the PDF was empty, generates
    again, answers [was_cached = False] and stores the PDF anew. *)
Theorem stale_or_empty_entry_is_regenerated (timeout : Z) (c : Cache.cache)
    (t1 t1' t2 t2' : Z) (cv vis name : json) (pdf : list N) :
  Cache.get c t1 (_generate_cache_key cv vis name) = None ->
  _generate_pdf_sync cv vis name = Ok pdf ->
  Cache.backend_timeout t1' timeout <= t2 \/ pdf = [] ->
  let key := _generate_cache_key cv vis name in
  let first := generate_pdf_with_cache timeout c t1 t1' cv vis name in
  let second := generate_pdf_with_cache timeout (cache_after first) t2 t2' cv vis name in
  returned second = Ok (Cache.CBytes pdf, false) /\
  generations second = [(cv, vis, name)] /\
  cache_after second !! key =
    Some {| Cache.value := Cache.CBytes pdf;
            Cache.expires := Cache.backend_timeout t2' timeout |}.
Proof.
  intros Hmiss Hgen Hstale key first second.
  assert (Hfirst : first =
            {| cache_after := Cache.set c t1' key (Cache.CBytes pdf) timeout;
               generations := [(cv, vis, name)];
               returned := Ok (Cache.CBytes pdf, false) |}).
  { by apply generate_pdf_with_cache_miss. }
  assert (Hsecond : second =
            {| cache_after :=
                 Cache.set (cache_after first) t2' key (Cache.CBytes pdf) timeout;
               generations := [(cv, vis, name)];
               returned := Ok (Cache.CBytes pdf, false) |}).
  { unfold second, generate_pdf_with_cache. fold key. rewrite Hfirst. simpl.
    unfold Cache.get, Cache.set. rewrite lookup_insert_eq. simpl.
    destruct (Z.leb_spec (Cache.backend_timeout t1' timeout) t2) as [_|Hlive].
    - by rewrite Hgen.
    - destruct Hstale as [?| ->]; [lia|]. simpl. by rewrite Hgen. }
  rewrite Hsecond. simpl. unfold Cache.set. by rewrite lookup_insert_eq.
Qed.

(** X22: A failed generation leaves nothing in the cache: the exception of the
    generation is raised as it is, the cache is unchanged, and the next
    call that finds nothing cached starts the generation again. *)
Theorem failed_generation_is_not_cached (timeout : Z) (c : Cache.cache)
    (t1 t1' : Z) (cv vis name : json) (e : exn) :
  Cache.get c t1 (_generate_cache_key cv vis name) = None ->
  _generate_pdf_sync cv vis name = Raise e ->
  let first := generate_pdf_with_cache timeout c t1 t1' cv vis name in
  returned first = Raise e /\
  cache_after first = c /\
  generations first = [(cv, vis, name)] /\
  (forall t2 t2',
     Cache.get c t2 (_generate_cache_key cv vis name) = None ->
     let second := generate_pdf_with_cache timeout (cache_after first) t2 t2' cv vis name in
     returned second = Raise e /\ generations second = [(cv, vis, name)]).
Proof.
  intros Hmiss Hgen first.
  assert (Hcall : forall t t', Cache.get c t (_generate_cache_key cv vis name) = None ->
            generate_pdf_with_cache timeout c t t' cv vis name =
              {| cache_after := c; generations := [(cv, vis, name)]; returned := Raise e |}).
  { intros t t' Hnone. unfold generate_pdf_with_cache. by rewrite Hnone, Hgen. }
  unfold first. rewrite (Hcall t1 t1' Hmiss). simpl. split_and!; try done.
  intros t2 t2' Hnone. by rewrite (Hcall t2 t2' Hnone).
Qed.

Lemma submit_all_app_raise (pre post : list json) (r : json)
    (futures : list (json * json * json)) (e : exn) :
  submit_all pre = Ok futures -> batch_arguments r = Raise e ->
  submit_all (pre ++ r :: post) = Raise e.
Proof.
  revert futures. induction pre as [|x pre IH]; intros futures; simpl.
  - intros _ Hr. by rewrite Hr.
  - destruct (batch_arguments x) as [args|]; [|done]. simpl.
    destruct (submit_all pre) as [fs|] eqn:Hpre; [|done]. simpl.
    intros _ Hr. by rewrite (IH fs eq_refl Hr).
Qed.

(** X23: A malformed request aborts the whole batch.  When a request cannot be
    submitted (it lacks [cv_data] or [visibility], or is not a dict), the
    batch raises the error of the first such request and returns no
    result at all, whatever the other requests are and although a
    failing generation would only have cost its own slot. *)
Theorem malformed_request_aborts_batch (pre post : list json) (r : json)
    (futures : list (json * json * json)) (e : exn) (completion : list nat) :
  submit_all pre = Ok futures ->
  batch_arguments r = Raise e ->
  generate_pdf_batch (pre ++ r :: post) completion = Raise e /\
  (e = KeyError \/ e = TypeError).
Proof.
  intros Hpre Hr. split.
  - unfold generate_pdf_batch. by rewrite (submit_all_app_raise pre post r futures e).
  - unfold batch_arguments in Hr.
    destruct r as [| | | | | |d]; simpl in Hr; try (injection Hr as <-; auto).
    destruct (assoc (lit "cv_data") d); simpl in Hr; [|injection Hr as <-; auto].
    destruct (assoc (lit "visibility") d); simpl in Hr; [|injection Hr as <-; auto].
    done.
Qed.

End CachedGenerationMore.

Module CachedGenerationMoreExample.
Import Py Json External EnhancedServices Examples.CachedGeneration Examples.Batch
  MoreExamples.Generation.

Lemma stale_or_empty_entry_is_regenerated_witness :
  let first :=
    @generate_pdf_with_cache Demo.builtins Demo.repr Demo.engine Demo.hashlib 3600
      empty_cache 100 200 cv_data visibility (JStr (lit "classic-0")) in
  let second :=
    @generate_pdf_with_cache Demo.builtins Demo.repr Demo.engine Demo.hashlib 3600
      (cache_after first) 3600000200 3600000300 cv_data visibility (JStr (lit "classic-0")) in
  returned second = Ok (Cache.CBytes pdf, false) /\
  generations second = [(cv_data, visibility, JStr (lit "classic-0"))] /\
  cache_after second
    !! @_generate_cache_key Demo.builtins Demo.hashlib cv_data visibility (JStr (lit "classic-0"))
    = Some {| Cache.value := Cache.CBytes pdf;
              Cache.expires := Cache.backend_timeout 3600000300 3600 |}.
Proof.
  apply (@stale_or_empty_entry_is_regenerated Demo.builtins Demo.repr Demo.engine Demo.hashlib
           3600 empty_cache 100 200 3600000200 3600000300
           cv_data visibility (JStr (lit "classic-0")) pdf).
  - vm_compute. reflexivity.
  - vm_compute. reflexivity.
  - left. vm_compute. discriminate.
Defined.

Lemma failed_generation_is_not_cached_witness :
  let first :=
    @generate_pdf_with_cache Demo.builtins Demo.repr Demo.engine Demo.hashlib 3600
      empty_cache 100 200 unrenderable visibility (JStr (lit "classic-0")) in
  returned first = Raise AttributeError /\
  cache_after first = empty_cache /\
  generations first = [(unrenderable, visibility, JStr (lit "classic-0"))] /\
  (forall t2 t2',
     Cache.get empty_cache t2
       (@_generate_cache_key Demo.builtins Demo.hashlib unrenderable visibility
          (JStr (lit "classic-0"))) = None ->
     let second :=
       @generate_pdf_with_cache Demo.builtins Demo.repr Demo.engine Demo.hashlib 3600
         (cache_after first) t2 t2' unrenderable visibility (JStr (lit "classic-0")) in
     returned second = Raise AttributeError /\
     generations second = [(unrenderable, visibility, JStr (lit "classic-0"))]).
Proof.
  apply (@failed_generation_is_not_cached Demo.builtins Demo.repr Demo.engine Demo.hashlib
           3600 empty_cache 100 200 unrenderable visibility (JStr (lit "classic-0"))
           AttributeError).
  - vm_compute. reflexivity.
  - vm_compute. reflexivity.
Defined.

Lemma malformed_request_aborts_batch_witness :
  @generate_pdf_batch Demo.builtins Demo.repr Demo.engine
    ([good_request] ++ malformed_request :: [good_request]) [0; 1; 2]%nat = Raise KeyError /\
  (KeyError = KeyError \/ KeyError = TypeError).
Proof.
  apply (@malformed_request_aborts_batch Demo.builtins Demo.repr Demo.engine
           [good_request] [good_request] malformed_request
           [(JDict [(lit "summary", JStr (lit "x"))], JDict [], JStr (lit "classic-0"))]
           KeyError [0; 1; 2]%nat).
  - reflexivity.
  - reflexivity.
Defined.

End CachedGenerationMoreExample.

(** ** Static assets: what the view consults *)
Section StaticAssetsMore.
Import Py StaticViews.
Context `{!Builtins}.

Lemma assets_dir_shape (d : str) :
  exists x, os_path_join d (lit "assets") = x ++ lit "assets".
Proof.
  unfold os_path_join. change (startswith (lit "assets") (lit "/")) with false. cbv iota.
  destruct (bool_decide (d = []) || endswith d (lit "/")).
  - by exists d.
  - exists (d ++ lit "/"). by rewrite <- app_assoc.
Qed.

Lemma os_path_join_under_assets (d path : str) :
  startswith path (lit "/") = false ->
  os_path_join (os_path_join d (lit "assets")) path =
    os_path_join d (lit "assets") ++ lit "/" ++ path.
Proof.
  intros Hrel. destruct (assets_dir_shape d) as [x Hx]. rewrite Hx.
  unfold os_path_join at 1. rewrite Hrel.
  assert (Hne : bool_decide (x ++ lit "assets" = []) = false).
  { apply bool_decide_eq_false_2. intros Hnil. by apply app_eq_nil in Hnil as [_ ?]. }
  assert (Hend : endswith (x ++ lit "assets") (lit "/") = false).
  { unfold endswith. by rewrite rev_app_distr. }
  by rewrite Hne, Hend.
Qed.

(** X24: The view never looks outside the assets directory: whatever is
    requested, every path it hands to the file system is the assets
    directory of the build, a slash, and the requested path, which is
    relative and holds no [..]; and a file is opened only after it was
    found to exist and to be a regular file. *)
Theorem static_assets_stay_in_their_directory (h : host) (path : str) (call : fs_call) :
  call ∈ fst (get h path) ->
  Vocabulary.consulted call =
    os_path_join (CLIENT_BUILD_DIR h) (lit "assets") ++ lit "/" ++ path /\
  contains path (lit "..") = false /\
  startswith path (lit "/") = false /\
  (forall p, call = Open p -> exists_ h p = true /\ isfile h p = true).
Proof.
  unfold get.
  destruct (contains path (lit "..")) eqn:Hdots; cbn [orb fst].
  { intros Hin. by apply elem_of_nil in Hin. }
  destruct (startswith path (lit "/")) eqn:Hrel; cbn [fst].
  { intros Hin. by apply elem_of_nil in Hin. }
  rewrite (os_path_join_under_assets _ _ Hrel).
  set (file_path := os_path_join (CLIENT_BUILD_DIR h) (lit "assets") ++ lit "/" ++ path).
  destruct (exists_ h file_path) eqn:Hexists; cbn [negb fst].
  - destruct (isfile h file_path) eqn:Hisfile; cbn [negb fst].
    + assert (Hcalls : call ∈ [Exists file_path; IsFile file_path; Open file_path] ->
                Vocabulary.consulted call = file_path /\ false = false /\ false = false /\
                (forall p, call = Open p -> exists_ h p = true /\ isfile h p = true)).
      { intros Hin. repeat (apply elem_of_cons in Hin as [->|Hin]);
          try (by apply elem_of_nil in Hin); split_and!; try done.
        by intros p [= <-]. }
      by destruct (read h file_path).
    + intros Hin. repeat (apply elem_of_cons in Hin as [->|Hin]);
        try (by apply elem_of_nil in Hin); split_and!; done.
  - intros Hin. repeat (apply elem_of_cons in Hin as [->|Hin]);
      try (by apply elem_of_nil in Hin); split_and!; done.
Qed.

End StaticAssetsMore.

Module StaticAssetsMoreExample.
Import Py StaticViews Examples.StaticAssets.

Lemma static_assets_stay_in_their_directory_witness :
  Vocabulary.consulted (Open (lit "/srv/cvflo/public/assets/app.js")) =
    os_path_join (CLIENT_BUILD_DIR permissive_host) (lit "assets") ++ lit "/" ++ lit "app.js" /\
  contains (lit "app.js") (lit "..") = false /\
  startswith (lit "app.js") (lit "/") = false /\
  (forall p, Open (lit "/srv/cvflo/public/assets/app.js") = Open p ->
     exists_ permissive_host p = true /\ isfile permissive_host p = true).
Proof.
  apply (@static_assets_stay_in_their_directory Demo.builtins permissive_host (lit "app.js")
           (Open (lit "/srv/cvflo/public/assets/app.js"))).
  vm_compute. right. right. left.
Defined.

End StaticAssetsMoreExample.

(** ** Template helpers on the values of a CV document *)
Section FiltersOnJson.
Import Py Json CvFiltersJson.
Context `{!Builtins} `{!Repr}.

(** X25: On a value of the CV document [has_items] is its truth value: the
    length test never changes the answer. *)
Theorem has_items_is_truthiness (value : json) : has_items value = truthy value.
Proof.
  unfold has_items.
  destruct value as [| [|] | z | bits | [|c s] | [|x l] | [|kv d]]; simpl; try done.
  - by destruct (z =? 0).
  - by destruct (_ || _).
Qed.

Lemma fold_into_other (l acc : list json) :
  fold_left (fun grouped skill => add_to_group (category_of skill) skill grouped) l
    [(lit "Other", acc)] = [(lit "Other", acc ++ l)].
Proof.
  revert acc. induction l as [|x l IH]; intros acc; cbn [fold_left add_to_group].
  - by rewrite app_nil_r.
  - change (category_of x) with (lit "Other"). rewrite decide_True by done.
    rewrite IH. by rewrite <- app_assoc.
Qed.

(** X26: [group_skills] never reads the category of a skill that comes from
    the CV document (a dict has no [category] attribute): all the skills
    land in one group, [Other], in their order; an empty value or one that
    cannot be iterated gives no group. *)
Theorem group_skills_makes_one_group (skills : json) :
  group_skills skills =
    match iterate skills with
    | Ok (skill :: rest) => [(lit "Other", skill :: rest)]
    | _ => []
    end.
Proof.
  assert (Hfold : forall x l,
            fold_left (fun grouped skill => add_to_group (category_of skill) skill grouped)
              (x :: l) [] = [(lit "Other", x :: l)]).
  { intros x l. cbn [fold_left add_to_group]. change (category_of x) with (lit "Other").
    by rewrite fold_into_other. }
  unfold group_skills.
  destruct skills as [| [|] | z | bits | [|c s] | [|x l] | [|kv d]]; cbn [truthy negb iterate];
    try done.
  - by destruct (negb (z =? 0)).
  - by destruct (negb (_ || _)).
  - apply (Hfold (JStr [c])).
  - apply Hfold.
  - apply (Hfold (JStr (fst kv))).
Qed.

(** X27: The two joining filters agree on every value of the CV document but
    a string and a dict: [technologies_list] returns a string as it is
    and a dict as its text, where [join_with_separator] joins the
    characters of the string and the keys of the dict. *)
Theorem joining_filters_compared (value : json) (separator : str) :
  match value with
  | JStr s =>
      technologies_list value separator = s /\
      join_with_separator value separator = join separator ((fun c => [c]) <$> s)
  | JDict d =>
      technologies_list value separator = (if truthy value then py_str value else []) /\
      join_with_separator value separator = join separator (fst <$> d)
  | _ => technologies_list value separator = join_with_separator value separator
  end.
Proof.
  unfold technologies_list, join_with_separator.
  destruct value as [| [|] | z | bits | [|c s] | [|x l] | [|kv d]];
    cbn [truthy negb iterate]; try done.
  all: try (by destruct (negb _)).
  all: split; [done|]; by rewrite <- list_fmap_compose.
Qed.

End FiltersOnJson.

(** ** The PDF service: failures and styles *)
Section CvPdfServiceFacts.
Import Py Json External CvPdfService.
Context `{!Builtins} `{!Repr} `{!Engine} `{!Templating}.


Lemma html_to_pdf_failure (html : str) (name : json) (e : exn) :
  PdfServices.html_to_pdf html name = Raise e ->
  exists m, e = PDFGenerationError (lit "Failed to convert HTML to PDF: " ++ m).
Proof.
  unfold PdfServices.html_to_pdf.
  destruct (bind _ _) as [pdf|e']; [done|]. intros [= <-]. eauto.
Qed.


Lemma replace_from_found (steps : nat) (s old new : str) :
  old <> [] -> (length s <= steps)%nat -> contains s old = true ->
  exists a b, replace_from steps s old new = a ++ new ++ b.
Proof.
  intros Hold. revert s. induction steps as [|steps IH]; intros s Hlen Hin.
  - destruct s; [|simpl in Hlen; lia]. simpl in Hin. rewrite orb_false_r in Hin.
    apply startswith_spec in Hin as [t Ht]. destruct old; [done|discriminate].
  - simpl. destruct (startswith s old) eqn:Hstart.
    + by exists [], (replace_from steps (drop (length old) s) old new).
    + destruct s as [|c s].
      * simpl in Hin. by rewrite Hstart in Hin.
      * change (contains (c :: s) old) with (startswith (c :: s) old || contains s old) in Hin.
        rewrite Hstart in Hin. simpl in Hin, Hlen.
        destruct (IH s ltac:(lia) Hin) as (a & b & ->).
        by exists (c :: a), b.
Qed.

(** X29: What becomes of the styles of [generate_pdf_from_html].  HTML that
    already holds a [<style>] tag is converted as it is: neither the
    template's sheet nor the caller's styles are added.  Otherwise, when
    there is anything to add, the HTML that is converted holds the
    combined styles in a [<style>] element.  A failure of the conversion
    carries both prefixes, [Failed to generate PDF from HTML: ] and
    [Failed to convert HTML to PDF: ]. *)
Theorem styles_of_generate_pdf_from_html (html styles : str) (name : json) :
  let css := combined_css styles name in
  let prepared := with_styles html css in
  (css = [] \/ contains html (lit "<style>") = true -> prepared = html) /\
  (css <> [] -> contains html (lit "<style>") = false ->
   contains prepared (lit "<style>" ++ css ++ lit "</style>") = true) /\
  match generate_pdf_from_html html styles name with
  | Ok pdf => PdfServices.html_to_pdf prepared name = Ok pdf
  | Raise e =>
      exists m,
        e = PDFGenerationError
              (lit "Failed to generate PDF from HTML: " ++
               lit "Failed to convert HTML to PDF: " ++ m)
  end.
Proof.
  intros css prepared. split_and!.
  - unfold prepared, with_styles. intros [->| ->]; [done|].
    by rewrite andb_false_r.
  - intros Hcss Hnone. unfold prepared, with_styles.
    rewrite Hnone, bool_decide_eq_false_2 by done. cbn [negb andb].
    destruct (contains html (lit "</head>")) eqn:Hhead.
    + destruct (replace_from_found (length html) html (lit "</head>")
                  (lit "<style>" ++ css ++ lit "</style></head>"))
        as (a & b & Hrep); [done|done|done|].
      unfold replace. rewrite Hrep. apply contains_spec.
      exists a, (lit "</head>" ++ b).
      change (lit "</style></head>") with (lit "</style>" ++ lit "</head>").
      by rewrite <- !app_assoc.
    + apply contains_spec. exists [], html. by rewrite <- !app_assoc.
  - unfold generate_pdf_from_html. fold css. fold prepared.
    destruct (PdfServices.html_to_pdf prepared name) as [pdf|e] eqn:Hpdf; [done|].
    apply html_to_pdf_failure in Hpdf as [m ->]. by exists m.
Qed.

End CvPdfServiceFacts.
